(** * bluefairy: the WebSocket relay, the OpenClaw streaming client, the
    session resolver and the conversation archive

    A shallow embedding of
      - [app/api/endpoints/ws.py]        (the connection relay),
      - [app/services/openclaw.py]       (the streaming client),
      - [app/services/sessions.py]       (the session resolver),
      - [app/services/auth.py]           (sessions and passwords),
      - [app/services/conversations.py]  (the archive),
      - [app/services/users.py]          ([create_user]),
      - [app/api/endpoints/auth.py]      ([signup] and [signin]),
      - [app/core/middleware/auth.py]    ([SessionAuthenticationBackend]),
      - [app/repositories/base.py], [app/repositories/conversations.py].

    Conventions.
      - A Python [str] is a [string]; every [ascii] stands for one code point
        below 256.  Python [bytes] are [list Byte.byte].
      - Asynchronous code is run sequentially: one connection is one task and
        the handler awaits every call it makes.
      - An exception is a value of [exn]; a computation is a function from the
        world to a trace of effects, a new world and either a value or a
        raised exception.
      - Library functions whose text is not part of the repository
        ([json.loads], the UTF-8 codec, [uuid.UUID], [repr]) are the fields of
        the class [PyLib]; every theorem holds for each instance.
      - What the environment does (the replies of the OpenClaw backend, the
        failures of the database, the random identifiers) is data of the world,
        so that theorems quantify over it.
      - Sending on the socket always succeeds while the handler runs; the
        client leaving is observed by [receive_text] only. *)

From Stdlib Require Import ZArith String Ascii List Bool Lia DecimalString.
From Stdlib Require Strings.Byte.
From Stdlib Require Import Floats.PrimFloat.
From stdpp Require Import base gmap strings list.

Import ListNotations.
#[local] Set Warnings "-register-all".
Local Open Scope string_scope.
Local Open Scope list_scope.

(** ** Python values *)

Module Py.

(** What [json.loads] can return.  A [dict] keeps its items in insertion
    order; [json.loads] never produces two items with one key. *)
Inductive json : Type :=
| JNull
| JBool (b : bool)
| JInt (n : Z)
| JFloat (f : float)
| JString (s : string)
| JArray (items : list json)
| JObject (fields : list (string * json)).

(** The exceptions the modelled code can see, all subclasses of
    [Exception]. *)
Inductive exn : Type :=
| OpenClawAPIException (msg : string)  (* app.services.openclaw *)
| AttributeError                       (* [.get] or [.strip] on a value without it *)
| TypeError                            (* [str += non-str] *)
| ValueError                           (* [uuid.UUID] on a badly formed string;
                                          [int] on a literal over the digit limit *)
| RecursionError                       (* nesting beyond the interpreter's limit *)
| UnicodeDecodeError                   (* [bytes.decode] *)
| MultipleResultsFound                 (* [scalar_one_or_none] *)
| DatabaseError                        (* any failure of a database session *)
| TransportError.                      (* any httpx failure: connect, timeout, broken stream *)

Inductive result (A : Type) : Type :=
| Ok (a : A)
| Raise (e : exn).
Arguments Ok {A} a.
Arguments Raise {A} e.

(** [bool(x)] *)
Definition truthy (j : json) : bool :=
  match j with
  | JNull => false
  | JBool b => b
  | JInt n => negb (n =? 0)%Z
  | JFloat f => negb (PrimFloat.eqb f 0%float)
  | JString s => negb (String.eqb s "")
  | JArray items => match items with [] => false | _ => true end
  | JObject fields => match fields with [] => false | _ => true end
  end.

(** [a or b] *)
Definition py_or (a b : json) : json := if truthy a then a else b.

(** [d.get(key)]: the value, or [None]. *)
Fixpoint dict_lookup (fields : list (string * json)) (key : string) : option json :=
  match fields with
  | [] => None
  | (k, v) :: rest => if String.eqb k key then Some v else dict_lookup rest key
  end.

Definition dict_get (fields : list (string * json)) (key : string) : json :=
  match dict_lookup fields key with
  | Some v => v
  | None => JNull
  end.

(** [d.get(key, default)] *)
Definition dict_get_default (fields : list (string * json)) (key : string) (default : json) : json :=
  match dict_lookup fields key with
  | Some v => v
  | None => default
  end.

(** [str.isspace] on one code point below 256: TAB..CR, FS..US, SPACE,
    NEL (0x85) and NBSP (0xA0). *)
Definition py_isspace (c : ascii) : bool :=
  let n := nat_of_ascii c in
  (((9 <=? n) && (n <=? 13)) || ((28 <=? n) && (n <=? 32)) || (n =? 133) || (n =? 160))%nat.

Fixpoint lstrip (s : string) : string :=
  match s with
  | EmptyString => EmptyString
  | String c rest => if py_isspace c then lstrip rest else s
  end.

Fixpoint rstrip (s : string) : string :=
  match s with
  | EmptyString => EmptyString
  | String c rest =>
      match rstrip rest with
      | EmptyString => if py_isspace c then EmptyString else String c EmptyString
      | String _ _ as r => String c r
      end
  end.

(** [s.strip()] *)
Definition strip (s : string) : string := rstrip (lstrip s).

(** [s.startswith(p)] *)
Definition startswith (s p : string) : bool := String.prefix p s.

(** [s[n:]] and [s[:n]] *)
Fixpoint slice_from (n : nat) (s : string) : string :=
  match n, s with
  | O, _ => s
  | S n', String _ rest => slice_from n' rest
  | S _, EmptyString => EmptyString
  end.

Fixpoint slice_to (n : nat) (s : string) : string :=
  match n, s with
  | S n', String c rest => String c (slice_to n' rest)
  | _, _ => EmptyString
  end.

(** [str(n)] for an [int] *)
Definition str_of_int (n : Z) : string := NilZero.string_of_int (Z.to_int n).

(** [sep.join(parts)] *)
Fixpoint join (sep : string) (parts : list string) : string :=
  match parts with
  | [] => ""
  | [p] => p
  | p :: rest => p +:+ sep +:+ join sep rest
  end.

(** 128-bit identifiers ([uuid.UUID]), by their integer value. *)
Definition UUID : Type := N.

(** The two ways [json.loads] fails on a text without raising
    [json.JSONDecodeError]: the scanner recurses once per nesting level and
    raises [RecursionError] past the interpreter's recursion limit, and
    [int] raises a plain [ValueError] on an integer literal longer than the
    interpreter's digit limit (4300 by default). *)
Inductive loads_fault : Type :=
| NestingTooDeep
| IntegerTooLong.

Definition exn_of_fault (f : loads_fault) : exn :=
  match f with
  | NestingTooDeep => RecursionError
  | IntegerTooLong => ValueError
  end.

(** What [json.loads] does with a text: it returns the decoded value, raises
    [json.JSONDecodeError], or raises one of the errors of [loads_fault],
    which [except json.JSONDecodeError] does not catch. *)
Inductive loads_outcome : Type :=
| Loaded (value : json)
| JSONDecodeError
| Escaped (f : loads_fault).

(** The library functions the code calls. *)
Class PyLib : Type := {
  (** [json.loads] *)
  json_loads : string -> loads_outcome;
  (** [b.decode("utf-8")]; [None] stands for [UnicodeDecodeError]. *)
  decode_utf8 : list Byte.byte -> option string;
  (** [s.encode("utf-8")], what redis-py does to a [str] value. *)
  encode_utf8 : string -> list Byte.byte;
  (** [b.decode(errors="replace")] *)
  decode_replace : list Byte.byte -> string;
  (** [uuid.UUID(s)]; [None] stands for [ValueError]. *)
  uuid_of_str : string -> option UUID;
  (** [str(u)] for a [uuid.UUID] *)
  str_of_uuid : UUID -> string;
  (** [repr] of a [float] and of a [str] *)
  repr_float : float -> string;
  repr_str : string -> string;
}.

Section Repr.
Context `{PyLib}.

(** [repr(x)] of a decoded JSON value *)
Fixpoint py_repr (j : json) : string :=
  match j with
  | JNull => "None"
  | JBool true => "True"
  | JBool false => "False"
  | JInt n => str_of_int n
  | JFloat f => repr_float f
  | JString s => repr_str s
  | JArray items => "[" +:+ join ", " (List.map py_repr items) +:+ "]"
  | JObject fields =>
      "{" +:+ join ", " (List.map (fun kv => match kv with
                                             | (k, v) => repr_str k +:+ ": " +:+ py_repr v
                                             end) fields) +:+ "}"
  end.

(** [str(x)], what an f-string does to [x] *)
Definition py_str (j : json) : string :=
  match j with
  | JString s => s
  | _ => py_repr j
  end.

End Repr.

(** [s.split()]: the words between runs of white space; [word] is the
    word being read. *)
Fixpoint split_words (s word : string) : list string :=
  match s with
  | EmptyString => if String.eqb word "" then [] else [word]
  | String c rest =>
      if py_isspace c
      then (if String.eqb word "" then split_words rest ""
            else word :: split_words rest "")
      else split_words rest (word +:+ String c EmptyString)
  end.

Definition split (s : string) : list string := split_words s "".

(** [s.lower()] on code points below 256: A..Z, and the capital letters
    from 0xC0 to 0xDE but the multiplication sign. *)
Definition lower_char (c : ascii) : ascii :=
  let n := nat_of_ascii c in
  if (((65 <=? n) && (n <=? 90))
      || ((192 <=? n) && (n <=? 222) && negb (n =? 215)))%nat
  then ascii_of_nat (n + 32)
  else c.

Fixpoint lower (s : string) : string :=
  match s with
  | EmptyString => EmptyString
  | String c rest => String (lower_char c) (lower rest)
  end.

(** passlib's [CryptContext], and the lenient decoder that
    [hash_password] uses. *)
Class PassLib : Type := {
  (** [pwd_context.hash(password)], given the salt it draws *)
  pwd_hash : string -> string -> string;
  (** [pwd_context.verify(plain_password, hashed_password)] *)
  pwd_verify : string -> string -> bool;
  (** [b.decode("utf-8", errors="ignore")] *)
  decode_ignore : list Byte.byte -> string;
}.

End Py.

(** ** The world: stores, environment and observable effects *)

Module Sys.
Import Py.

(** [app/models/user.py] *)
Module UserModel.
Record User : Type := {
  id : UUID;
  email : string;
  hashed_password : string;
  created_at : Z;
  updated_at : Z;
}.
End UserModel.

(** [app/models/conversation.py]; an entry of [messages] is a [dict]. *)
Module ConversationModel.
Record Conversation : Type := {
  id : UUID;
  user_id : UUID;
  session_id : option string;
  created_at : Z;
  updated_at : Z;
  messages : list (list (string * json));
  summary : option string;
}.
End ConversationModel.

(** [app/schemas/conversations.py] *)
Module ConversationSchema.
Record ConversationCreate : Type := {
  user_id : UUID;
  session_id : option string;
  messages : list (list (string * json));
  summary : option string;
}.

Record ConversationResponse : Type := {
  r_id : UUID;
  r_user_id : UUID;
  r_session_id : option string;
  r_messages : list (list (string * json));
  r_summary : option string;
  r_created_at : Z;
  r_updated_at : Z;
}.
End ConversationSchema.

(** What the OpenClaw backend answers to one POST. *)
Inductive line_end : Type :=
| EndOfStream     (* [aiter_lines] is exhausted *)
| StreamBroken.   (* [aiter_lines] raises: read timeout, connection lost *)

Inductive upstream_reply : Type :=
| Unreachable     (* [client.stream] raises before any response *)
| Response (status_code : Z) (body : list Byte.byte) (lines : list string) (tail : line_end).

(** The JSON objects [send_json] writes on the socket. *)
Inductive ws_event : Type :=
| Pong
| Chunk (content : string)
| Done (fullContent : string)
| Error (message : string).

Inductive log_level : Type := INFO | ERROR.

(** What a run does that someone else can observe, in the order it does it. *)
Inductive effect : Type :=
| WsClose (code : Z)
| WsAccept
| WsSend (ev : ws_event)
| LogRecord (lvl : log_level) (msg : string) (exc_info : option exn)
| HttpPost (sessionKey message : string)
| ArchiveCall (user_id session_id user_message assistant_message : string).

Record World : Type := {
  (** Redis: key to value and the time at which it expires *)
  redis : gmap string (list Byte.byte * Z);
  (** the current time, in seconds *)
  clock : Z;
  (** the tables [users] and [conversations] *)
  users : list UserModel.User;
  conversations : list ConversationModel.Conversation;
  (** whether the next database sessions fail, one entry per session opened;
      none fails once the list is used up *)
  db_faults : list bool;
  (** the replies of the backend to the next requests; it is unreachable
      once the list is used up *)
  upstream : list upstream_reply;
  (** [uuid.uuid4()]: the identifiers it will return *)
  uuid4 : nat -> UUID;
  uuid4_count : nat;
}.

Definition set_redis (r : gmap string (list Byte.byte * Z)) (w : World) : World :=
  {| redis := r; clock := clock w; users := users w; conversations := conversations w;
     db_faults := db_faults w; upstream := upstream w;
     uuid4 := uuid4 w; uuid4_count := uuid4_count w |}.

Definition set_clock (t : Z) (w : World) : World :=
  {| redis := redis w; clock := t; users := users w; conversations := conversations w;
     db_faults := db_faults w; upstream := upstream w;
     uuid4 := uuid4 w; uuid4_count := uuid4_count w |}.

Definition set_conversations (cs : list ConversationModel.Conversation) (w : World) : World :=
  {| redis := redis w; clock := clock w; users := users w; conversations := cs;
     db_faults := db_faults w; upstream := upstream w;
     uuid4 := uuid4 w; uuid4_count := uuid4_count w |}.

Definition set_db_faults (fs : list bool) (w : World) : World :=
  {| redis := redis w; clock := clock w; users := users w; conversations := conversations w;
     db_faults := fs; upstream := upstream w;
     uuid4 := uuid4 w; uuid4_count := uuid4_count w |}.

Definition set_upstream (rs : list upstream_reply) (w : World) : World :=
  {| redis := redis w; clock := clock w; users := users w; conversations := conversations w;
     db_faults := db_faults w; upstream := rs;
     uuid4 := uuid4 w; uuid4_count := uuid4_count w |}.

Definition set_uuid4_count (n : nat) (w : World) : World :=
  {| redis := redis w; clock := clock w; users := users w; conversations := conversations w;
     db_faults := db_faults w; upstream := upstream w;
     uuid4 := uuid4 w; uuid4_count := n |}.

(** *** Computations *)

Definition M (A : Type) : Type := World -> list effect * World * result A.

Definition ret {A : Type} (a : A) : M A := fun w => ([], w, Ok a).

Definition raise {A : Type} (e : exn) : M A := fun w => ([], w, Raise e).

Definition bind {A B : Type} (m : M A) (k : A -> M B) : M B := fun w =>
  match m w with
  | (t, w1, Ok a) =>
      match k a w1 with
      | (t', w2, r) => (t ++ t', w2, r)
      end
  | (t, w1, Raise e) => (t, w1, Raise e)
  end.

(** [try: body  except Exception as e: handler e] *)
Definition try_except {A : Type} (body : M A) (handler : exn -> M A) : M A := fun w =>
  match body w with
  | (t, w1, Ok a) => (t, w1, Ok a)
  | (t, w1, Raise e) =>
      match handler e w1 with
      | (t', w2, r) => (t ++ t', w2, r)
      end
  end.

Definition emit (e : effect) : M unit := fun w => ([e], w, Ok tt).

Definition get_world : M World := fun w => ([], w, Ok w).

Definition modify (f : World -> World) : M unit := fun w => ([], f w, Ok tt).

Notation "x <- m ;; k" := (bind m (fun x => k))
  (at level 100, m at next level, right associativity).
Notation "m ;;; k" := (bind m (fun _ => k))
  (at level 100, right associativity).

Definition trace_of {A : Type} (r : list effect * World * result A) : list effect := r.1.1.
Definition world_of {A : Type} (r : list effect * World * result A) : World := r.1.2.
Definition value_of {A : Type} (r : list effect * World * result A) : result A := r.2.

(** The events written on the socket, the requests sent to the backend and
    the calls of the archive within a trace. *)
Definition sent (t : list effect) : list ws_event :=
  flat_map (fun e => match e with WsSend ev => [ev] | _ => [] end) t.

Definition posts (t : list effect) : list (string * string) :=
  flat_map (fun e => match e with HttpPost k m => [(k, m)] | _ => [] end) t.

Definition archive_calls (t : list effect) : list (string * string * string * string) :=
  flat_map (fun e => match e with ArchiveCall u s um am => [(u, s, um, am)] | _ => [] end) t.

Definition logged (t : list effect) : list (log_level * string * option exn) :=
  flat_map (fun e => match e with LogRecord l m x => [(l, m, x)] | _ => [] end) t.

(** *** Redis *)

(** [GET key]: the value, unless the key is absent or has expired. *)
Definition redis_get (key : string) : M (option (list Byte.byte)) := fun w =>
  match redis w !! key with
  | Some (v, expiry) => if (clock w <? expiry)%Z then ([], w, Ok (Some v)) else ([], w, Ok None)
  | None => ([], w, Ok None)
  end.

(** [SETEX key ttl value] *)
Definition redis_setex (key : string) (ttl : Z) (value : list Byte.byte) : M unit :=
  modify (fun w => set_redis (<[key := (value, (clock w + ttl)%Z)]> (redis w)) w).

(** *** The database *)

(** [async with self.session_factory() as session]: a session is opened, or
    the database fails. *)
Definition db_session : M unit := fun w =>
  match db_faults w with
  | [] => ([], w, Ok tt)
  | false :: rest => ([], set_db_faults rest w, Ok tt)
  | true :: rest => ([], set_db_faults rest w, Raise DatabaseError)
  end.

(** [result.scalar_one_or_none()] *)
Definition scalar_one_or_none {A : Type} (rows : list A) : M (option A) :=
  match rows with
  | [] => ret None
  | [row] => ret (Some row)
  | _ :: _ :: _ => raise MultipleResultsFound
  end.

(** [app/schemas/users.py] *)
Module UserSchema.
Record UserCreate : Type := {
  email : string;
  password : string;
}.

Record UserInDB : Type := {
  db_email : string;
  hashed_password : string;
}.

Record UserResponse : Type := {
  r_email : string;
  r_id : UUID;
  r_created_at : Z;
  r_updated_at : Z;
}.
End UserSchema.

Definition set_users (us : list UserModel.User) (w : World) : World :=
  {| redis := redis w; clock := clock w; users := us; conversations := conversations w;
     db_faults := db_faults w; upstream := upstream w;
     uuid4 := uuid4 w; uuid4_count := uuid4_count w |}.

(** [DEL key] *)
Definition redis_delete (key : string) : M unit :=
  modify (fun w => set_redis (delete key (redis w)) w).

(** What an endpoint or a service that raises [fastapi.HTTPException] ends
    with.  None of the functions modelled catches that exception, so raising
    it is ending with the second alternative. *)
Inductive http_result (A : Type) : Type :=
| Returned (a : A)
| HTTPException (status_code : Z) (detail : string).
Arguments Returned {A} a.
Arguments HTTPException {A} status_code detail.

End Sys.

Import Py Sys.

(** ** [app/repositories]: [BaseRepository] and [ConversationRepository] *)

Module UserRepository.
Section WithLib.
Context `{PyLib}.

(** [BaseRepository.get], on the table [users]: the UUID column is compared
    with the text it is given, which has to be a UUID. *)
Definition get (entity_id : string) : M (option UserModel.User) :=
  db_session;;;
  w <- get_world;;
  match uuid_of_str entity_id with
  | None => raise DatabaseError
  | Some u => scalar_one_or_none (List.filter (fun row => N.eqb (UserModel.id row) u) (users w))
  end.

(** [BaseRepository.get_by(email=...)] *)
Definition get_by_email (email : string) : M (option UserModel.User) :=
  db_session;;;
  w <- get_world;;
  scalar_one_or_none (List.filter (fun row => String.eqb (UserModel.email row) email) (users w)).

(** [BaseRepository.create], for a [UserInDB]: the column [email] is
    unique, so the commit fails when the table has the address already. *)
Definition create (entity_in : UserSchema.UserInDB) : M UserModel.User :=
  db_session;;;
  w <- get_world;;
  let entity :=
    {| UserModel.id := uuid4 w (uuid4_count w);
       UserModel.email := UserSchema.db_email entity_in;
       UserModel.hashed_password := UserSchema.hashed_password entity_in;
       UserModel.created_at := clock w;
       UserModel.updated_at := clock w |} in
  if List.existsb (fun row => String.eqb (UserModel.email row) (UserSchema.db_email entity_in))
       (users w)
  then raise DatabaseError
  else
    modify (fun w => set_uuid4_count (S (uuid4_count w)) (set_users (users w ++ [entity]) w));;;
    ret entity.

End WithLib.
End UserRepository.

Module ConversationRepository.

Definition session_id_is (session_id : string) (row : ConversationModel.Conversation) : bool :=
  match ConversationModel.session_id row with
  | Some s => String.eqb s session_id
  | None => false
  end.

(** [get_by_session_id]: the row read is an object of its own, detached from
    the session, which is closed when the method returns. *)
Definition get_by_session_id (session_id : string) : M (option ConversationModel.Conversation) :=
  db_session;;;
  w <- get_world;;
  scalar_one_or_none (List.filter (session_id_is session_id) (conversations w)).

(** [BaseRepository.create]: [session.add], [commit], [refresh]. *)
Definition create (entity_in : ConversationSchema.ConversationCreate) : M ConversationModel.Conversation :=
  db_session;;;
  w <- get_world;;
  let entity :=
    {| ConversationModel.id := uuid4 w (uuid4_count w);
       ConversationModel.user_id := ConversationSchema.user_id entity_in;
       ConversationModel.session_id := ConversationSchema.session_id entity_in;
       ConversationModel.created_at := clock w;
       ConversationModel.updated_at := clock w;
       ConversationModel.messages := ConversationSchema.messages entity_in;
       ConversationModel.summary := ConversationSchema.summary entity_in |} in
  modify (fun w => set_uuid4_count (S (uuid4_count w))
                     (set_conversations (conversations w ++ [entity]) w));;;
  ret entity.

Section ByIdentifier.
Context `{PyLib}.

Definition id_is (u : UUID) (row : ConversationModel.Conversation) : bool :=
  N.eqb (ConversationModel.id row) u.

(** [BaseRepository.get] *)
Definition get (entity_id : string) : M (option ConversationModel.Conversation) :=
  db_session;;;
  w <- get_world;;
  match uuid_of_str entity_id with
  | None => raise DatabaseError
  | Some u => scalar_one_or_none (List.filter (id_is u) (conversations w))
  end.

(** [BaseRepository.delete]: the row, once found, is deleted and returned. *)
Definition delete (id : string) : M (option ConversationModel.Conversation) :=
  db_session;;;
  w <- get_world;;
  match uuid_of_str id with
  | None => raise DatabaseError
  | Some u =>
      entity <- scalar_one_or_none (List.filter (id_is u) (conversations w));;
      match entity with
      | Some row =>
          modify (fun w => set_conversations
                             (List.filter (fun r => negb (id_is u r)) (conversations w)) w);;;
          ret (Some row)
      | None => ret None
      end
  end.

End ByIdentifier.

End ConversationRepository.

(** ** [app/services/conversations.py] *)

Module ConversationService.
Section WithLib.
Context `{PyLib}.

(** [ConversationResponse.model_validate(row)] *)
Definition model_validate (row : ConversationModel.Conversation) : ConversationSchema.ConversationResponse :=
  {| ConversationSchema.r_id := ConversationModel.id row;
     ConversationSchema.r_user_id := ConversationModel.user_id row;
     ConversationSchema.r_session_id := ConversationModel.session_id row;
     ConversationSchema.r_messages := ConversationModel.messages row;
     ConversationSchema.r_summary := ConversationModel.summary row;
     ConversationSchema.r_created_at := ConversationModel.created_at row;
     ConversationSchema.r_updated_at := ConversationModel.updated_at row |}.

(** [existing.messages.extend(messages)], on the detached object *)
Definition extend_messages (existing : ConversationModel.Conversation)
    (more : list (list (string * json))) : ConversationModel.Conversation :=
  {| ConversationModel.id := ConversationModel.id existing;
     ConversationModel.user_id := ConversationModel.user_id existing;
     ConversationModel.session_id := ConversationModel.session_id existing;
     ConversationModel.created_at := ConversationModel.created_at existing;
     ConversationModel.updated_at := ConversationModel.updated_at existing;
     ConversationModel.messages := ConversationModel.messages existing ++ more;
     ConversationModel.summary := ConversationModel.summary existing |}.

Definition exchange (user_message assistant_message : string) : list (list (string * json)) :=
  [ [("role", JString "user"); ("content", JString user_message)];
    [("role", JString "assistant"); ("content", JString assistant_message)] ].

(** [create_conversation], called with [user_id] a [str]. *)
Definition create_conversation (user_id session_id user_message assistant_message : string)
  : M ConversationSchema.ConversationResponse :=
  emit (ArchiveCall user_id session_id user_message assistant_message);;;
  match uuid_of_str user_id with
  | None => raise ValueError
  | Some uid =>
      existing <- ConversationRepository.get_by_session_id session_id;;
      let messages := exchange user_message assistant_message in
      match existing with
      | Some row =>
          let row' := extend_messages row messages in
          ret (model_validate row')
      | None =>
          let conversation_data :=
            {| ConversationSchema.user_id := uid;
               ConversationSchema.session_id := Some session_id;
               ConversationSchema.messages := messages;
               ConversationSchema.summary := None |} in
          new_conversation <- ConversationRepository.create conversation_data;;
          ret (model_validate new_conversation)
      end
  end.

End WithLib.
End ConversationService.

(** ** [app/services/auth.py] *)

Module AuthService.
Section WithLib.
Context `{PyLib}.

(** [get_session]: the user the token stands for, if any. *)
Definition get_session (session_id : string) : M (option UserModel.User) :=
  user_id <- redis_get ("session:" +:+ session_id);;
  match user_id with
  | None => ret None
  | Some [] => ret None
  | Some ((_ :: _) as raw) =>
      match decode_utf8 raw with
      | None => raise UnicodeDecodeError
      | Some text => UserRepository.get text
      end
  end.

Definition SESSION_EXPIRY_SECONDS : Z := 3600 * 24 * 7.

(** [create_session]; [session_id] is what [secrets.token_urlsafe(32)]
    returns. *)
Definition create_session (session_id : string) (user_id : UUID) : M string :=
  redis_setex ("session:" +:+ session_id) SESSION_EXPIRY_SECONDS
    (encode_utf8 (str_of_uuid user_id));;;
  ret session_id.

Definition delete_session (session_id : string) : M unit :=
  redis_delete ("session:" +:+ session_id).

End WithLib.

Section WithPasslib.
Context `{PyLib} `{PassLib}.

(** [hash_password]; [salt] is the salt passlib draws. *)
Definition hash_password (salt password : string) : string :=
  let password_bytes := encode_utf8 password in
  let password :=
    if (72 <? List.length password_bytes)%nat
    then decode_ignore (List.firstn 72 password_bytes)
    else password in
  pwd_hash salt password.

Definition verify_password (plain_password hashed_password : string) : bool :=
  pwd_verify plain_password hashed_password.

Definition authenticate_user (email password : string) : M (option UserModel.User) :=
  user <- UserRepository.get_by_email email;;
  match user with
  | None => ret None
  | Some u =>
      if negb (verify_password password (UserModel.hashed_password u)) then ret None
      else ret (Some u)
  end.

End WithPasslib.
End AuthService.

(** ** [app/services/openclaw.py] *)

Module OpenClawService.
Section WithLib.
Context `{PyLib}.

(** What the asynchronous generator [send_message] does once it is iterated
    to its end: the values it yields, in order, and how it ends. *)
Record generator : Type := {
  yields : list json;
  finish : option exn;
}.

(** The text taken out of one decoded payload:
    [data.get("text") or data.get("content") or data.get("chunk") or ""]
    for a [dict], the value itself for a [str]. *)
Definition fragments_of_data (data : json) : list json :=
  match data with
  | JObject fields =>
      let text :=
        py_or (py_or (py_or (dict_get fields "text") (dict_get fields "content"))
                     (dict_get fields "chunk"))
              (JString "") in
      if truthy text then [text] else []
  | JString s => [JString s]
  | _ => []
  end.

(** The body of [async for line in response.aiter_lines()]: the values
    yielded for one line, or the exception [json.loads] raised that the
    [except json.JSONDecodeError] clause lets through. *)
Definition fragments_of_line (line : string) : result (list json) :=
  if negb (startswith line "data:") then Ok []
  else
    let data_str := strip (slice_from (String.length "data:") line) in
    if String.eqb data_str "" then Ok []
    else
      match json_loads data_str with
      | JSONDecodeError => Ok [JString data_str]
      | Loaded data => Ok (fragments_of_data data)
      | Escaped f => Raise (exn_of_fault f)
      end.

(** The loop [async for line in response.aiter_lines()] over the lines the
    backend sends and the way the stream ends after them; an exception
    raised in the body ends the generator with what was yielded before. *)
Fixpoint iter_lines (lines : list string) (tail : line_end) : generator :=
  match lines with
  | [] => {| yields := [];
             finish := match tail with
                       | EndOfStream => None
                       | StreamBroken => Some TransportError
                       end |}
  | line :: rest =>
      match fragments_of_line line with
      | Raise e => {| yields := []; finish := Some e |}
      | Ok fragments =>
          let later := iter_lines rest tail in
          {| yields := fragments ++ yields later; finish := finish later |}
      end
  end.

(** The next reply of the backend. *)
Definition next_reply : M upstream_reply := fun w =>
  match upstream w with
  | [] => ([], w, Ok Unreachable)
  | r :: rest => ([], set_upstream rest w, Ok r)
  end.

Definition send_message (session_key message : string) : M generator :=
  emit (HttpPost session_key message);;;
  reply <- next_reply;;
  match reply with
  | Unreachable => ret {| yields := []; finish := Some TransportError |}
  | Response status_code body lines tail =>
      if negb (status_code =? 200)%Z then
        emit (LogRecord ERROR
                ("OpenClaw API error " +:+ str_of_int status_code +:+ ": "
                 +:+ slice_to 500 (decode_replace body)) None);;;
        ret {| yields := [];
               finish := Some (OpenClawAPIException
                                 ("OpenClaw returned " +:+ str_of_int status_code)) |}
      else
        ret (iter_lines lines tail)
  end.

(** [create_session_key] *)
Definition create_session_key (user_id : string) : string := "bluefairy:" +:+ user_id.

End WithLib.
End OpenClawService.

(** ** [app/services/sessions.py] *)

Module SessionService.
Section WithLib.
Context `{PyLib}.

Definition REDIS_KEY_PREFIX : string := "openclaw_session".
Definition SESSION_TTL_SECONDS : Z := 60 * 60 * 24 * 30.

Definition _redis_key (user_id : string) : string := REDIS_KEY_PREFIX +:+ ":" +:+ user_id.

Definition get_or_create_session (user_id : string) : M string :=
  existing <- redis_get (_redis_key user_id);;
  match existing with
  | Some ((_ :: _) as raw) =>
      match decode_utf8 raw with
      | None => raise UnicodeDecodeError
      | Some text => ret text
      end
  | _ =>
      let session_key := OpenClawService.create_session_key user_id in
      redis_setex (_redis_key user_id) SESSION_TTL_SECONDS (encode_utf8 session_key);;;
      emit (LogRecord INFO
              ("Created OpenClaw session " +:+ session_key +:+ " for user " +:+ user_id) None);;;
      ret session_key
  end.

(** [get_session]: the stored key, or [None]. *)
Definition get_session (user_id : string) : M (option string) :=
  value <- redis_get (_redis_key user_id);;
  match value with
  | Some ((_ :: _) as raw) =>
      match decode_utf8 raw with
      | None => raise UnicodeDecodeError
      | Some text => ret (Some text)
      end
  | _ => ret None
  end.

Definition delete_session (user_id : string) : M unit :=
  redis_delete (_redis_key user_id).

End WithLib.
End SessionService.

(** ** [app/api/endpoints/ws.py] *)

Module Ws.
Section WithLib.
Context `{PyLib}.

(** What the handshake carries: [websocket.query_params.get("token")] and
    [websocket.cookies.get("session_token")]. *)
Record Handshake : Type := {
  query_token : option string;
  cookie_token : option string;
}.

Definition WS_1008_POLICY_VIOLATION : Z := 1008.

(** [not token] for a [str | None] *)
Definition no_token (token : option string) : bool :=
  match token with
  | None => true
  | Some s => String.eqb s ""
  end.

(** Lines 32 to 36: the token of the query string, else the one of the
    cookie; an empty token counts as none. *)
Definition presented_token (websocket : Handshake) : option string :=
  let token := query_token websocket in
  let token := if no_token token then cookie_token websocket else token in
  if no_token token then None else token.

Definition _authenticate_ws (websocket : Handshake) : M (option string) :=
  match presented_token websocket with
  | None => ret None
  | Some token =>
      user <- AuthService.get_session token;;
      match user with
      | None => ret None
      | Some u => ret (Some (str_of_uuid (UserModel.id u)))
      end
  end.

(** [async for chunk in ...: full_response += chunk; send_json(chunk)] over
    the values the generator yields; a value that is not a [str] cannot be
    added to [full_response]. *)
Fixpoint forward_chunks (chunks : list json) (full_response : string) : M string :=
  match chunks with
  | [] => ret full_response
  | JString chunk :: rest =>
      emit (WsSend (Chunk chunk));;;
      forward_chunks rest (full_response +:+ chunk)
  | _ :: _ => raise TypeError
  end.

Definition persist_exchange (user_id session_key content full_response : string) : M unit :=
  try_except
    (_ <- ConversationService.create_conversation user_id session_key content full_response;;
     ret tt)
    (fun e => emit (LogRecord ERROR "Failed to persist conversation" (Some e))).

(** The branch [msg_type == "message"] once [content] is known not to be
    empty: lines 93 to 127. *)
Definition relay_message (user_id session_key content : string) : M unit :=
  try_except
    (gen <- OpenClawService.send_message session_key content;;
     full_response <- forward_chunks (OpenClawService.yields gen) "";;
     match OpenClawService.finish gen with
     | Some e => raise e
     | None =>
         emit (WsSend (Done full_response));;;
         persist_exchange user_id session_key content full_response
     end)
    (fun e =>
       match e with
       | OpenClawAPIException msg =>
           emit (LogRecord ERROR ("OpenClaw error: " +:+ msg) None);;;
           emit (WsSend (Error "Failed to get response from AI"))
       | _ =>
           emit (LogRecord ERROR "Unexpected error streaming from OpenClaw" (Some e));;;
           emit (WsSend (Error "Internal server error"))
       end).

(** [msg_type == "..."] *)
Definition is_str (j : json) (s : string) : bool :=
  match j with
  | JString t => String.eqb t s
  | _ => false
  end.

(** One turn of the [while True] loop, after [receive_text] returned [raw]. *)
Definition handle_frame (user_id session_key raw : string) : M unit :=
  match json_loads raw with
  | JSONDecodeError => emit (WsSend (Error "Invalid JSON"))
  | Escaped f => raise (exn_of_fault f)
  | Loaded (JObject fields) =>
      let msg_type := dict_get fields "type" in
      if is_str msg_type "ping" then emit (WsSend Pong)
      else if is_str msg_type "message" then
        match dict_get_default fields "content" (JString "") with
        | JString text =>
            let content := strip text in
            if String.eqb content "" then emit (WsSend (Error "Empty message"))
            else relay_message user_id session_key content
        | _ => raise AttributeError
        end
      else emit (WsSend (Error ("Unknown message type: " +:+ py_str msg_type)))
  | Loaded _ => raise AttributeError
  end.

(** The loop over the frames the client sends before it leaves; when there
    is none left [receive_text] raises [WebSocketDisconnect], which the
    handler catches. *)
Fixpoint receive_loop (user_id session_key : string) (frames : list string) : M unit :=
  match frames with
  | [] => emit (LogRecord INFO ("WebSocket disconnected for user " +:+ user_id) None)
  | raw :: rest =>
      handle_frame user_id session_key raw;;;
      receive_loop user_id session_key rest
  end.

Definition websocket_endpoint (websocket : Handshake) (frames : list string) : M unit :=
  user_id <- _authenticate_ws websocket;;
  match user_id with
  | None => emit (WsClose WS_1008_POLICY_VIOLATION)
  | Some uid =>
      emit WsAccept;;;
      emit (LogRecord INFO ("WebSocket connected for user " +:+ uid) None);;;
      session_key <- SessionService.get_or_create_session uid;;
      receive_loop uid session_key frames
  end.

End WithLib.
End Ws.

(** ** [app/services/users.py] *)

Module UsersService.
Section WithLib.
Context `{PyLib} `{PassLib}.

(** [UserResponse.model_validate(user)] *)
Definition model_validate (user : UserModel.User) : UserSchema.UserResponse :=
  {| UserSchema.r_email := UserModel.email user;
     UserSchema.r_id := UserModel.id user;
     UserSchema.r_created_at := UserModel.created_at user;
     UserSchema.r_updated_at := UserModel.updated_at user |}.

(** [create_user]; [salt] is the salt passlib draws for the hash. *)
Definition create_user (salt : string) (user_in : UserSchema.UserCreate)
  : M (http_result UserSchema.UserResponse) :=
  existing_user <- UserRepository.get_by_email (UserSchema.email user_in);;
  match existing_user with
  | Some _ => ret (HTTPException 400 "Email already registered")
  | None =>
      let user_in_db :=
        {| UserSchema.db_email := UserSchema.email user_in;
           UserSchema.hashed_password :=
             AuthService.hash_password salt (UserSchema.password user_in) |} in
      user <- UserRepository.create user_in_db;;
      ret (Returned (model_validate user))
  end.

End WithLib.
End UsersService.

(** ** [app/api/endpoints/auth.py]: [signup] and [signin] *)

Module AuthEndpoints.
Section WithLib.
Context `{PyLib} `{PassLib}.

Definition signup (salt : string) (user_in : UserSchema.UserCreate)
  : M (http_result UserSchema.UserResponse) :=
  UsersService.create_user salt user_in.

(** The body of the answer: [access_token] and [token_type]. *)
Record Token : Type := {
  access_token : string;
  token_type : string;
}.

(** [signin]; [session_id] is what [secrets.token_urlsafe(32)] returns when
    the session is created. *)
Definition signin (session_id username password : string) : M (http_result Token) :=
  user <- AuthService.authenticate_user username password;;
  match user with
  | None => ret (HTTPException 401 "Incorrect email or password")
  | Some u =>
      session_token <- AuthService.create_session session_id (UserModel.id u);;
      ret (Returned {| access_token := session_token; token_type := "bearer" |})
  end.

End WithLib.
End AuthEndpoints.

(** ** [app/core/middleware/auth.py]: [SessionAuthenticationBackend] *)

Module Middleware.
Section WithLib.
Context `{PyLib}.

Definition unauthenticated_paths : list string :=
  [ "/api/v1/auth/sign-up";
    "/api/v1/auth/sign-in";
    "/api/v1/auth/connectors/google/callback";
    "/api/v1/auth/connectors/microsoft/callback";
    "/health";
    "/docs";
    "/openapi.json" ].

(** [authenticate], for a request with the path [path] and the header
    [Authorization] (if any): the name of the [SimpleUser] and the user. *)
Definition authenticate (path : string) (authorization : option string)
  : M (option (string * UserModel.User)) :=
  if List.existsb (fun p => startswith path p) unauthenticated_paths then ret None
  else
    match authorization with
    | None => ret None
    | Some header =>
        if String.eqb header "" then ret None
        else
          match split header with
          | [scheme; credentials] =>
              if negb (String.eqb (lower scheme) "bearer") then ret None
              else
                user <- AuthService.get_session credentials;;
                match user with
                | None => ret None
                | Some u => ret (Some (str_of_uuid (UserModel.id u), u))
                end
          | _ => ret None
          end
    end.

End WithLib.
End Middleware.

(** ** An instance of the library, and a world, for the examples

    The instance below agrees with Python on the texts of the examples and
    is what the examples and witnesses are evaluated with; no theorem
    depends on it. *)

Module Sample.

Definition dq : string := String (ascii_of_nat 34) EmptyString.
Definition quoted (s : string) : string := dq +:+ s +:+ dq.

(** The JSON texts [{"k": "v"}] and [{"k1": "v1", "k2": "v2"}]. *)
Definition object1 (k v : string) : string :=
  "{" +:+ quoted k +:+ ": " +:+ quoted v +:+ "}".
Definition object2 (k1 v1 k2 v2 : string) : string :=
  "{" +:+ quoted k1 +:+ ": " +:+ quoted v1 +:+ ", " +:+ quoted k2 +:+ ": " +:+ quoted v2 +:+ "}".

Definition ping_frame : string := object1 "type" "ping".
Definition dance_frame : string := object1 "type" "dance".
Definition hello_frame : string := object2 "type" "message" "content" "  hello ".
Definition blank_frame : string := object2 "type" "message" "content" "   ".
Definition hi_payload : string := object1 "text" "Hi".
Definition there_payload : string := object1 "content" " there".
Definition shadowed_payload : string := object2 "text" "" "content" "hi".

(** [json.loads] on the texts above; every other text of the examples is
    not JSON. *)
Definition loads (s : string) : loads_outcome :=
  if String.eqb s ping_frame then Loaded (JObject [("type", JString "ping")])
  else if String.eqb s dance_frame then Loaded (JObject [("type", JString "dance")])
  else if String.eqb s hello_frame then
    Loaded (JObject [("type", JString "message"); ("content", JString "  hello ")])
  else if String.eqb s blank_frame then
    Loaded (JObject [("type", JString "message"); ("content", JString "   ")])
  else if String.eqb s hi_payload then Loaded (JObject [("text", JString "Hi")])
  else if String.eqb s there_payload then Loaded (JObject [("content", JString " there")])
  else if String.eqb s shadowed_payload then
    Loaded (JObject [("text", JString ""); ("content", JString "hi")])
  else JSONDecodeError.

(** UTF-8 for the code points below 256: one byte below 128, two bytes
    (lead byte 0xC2 or 0xC3) from 128 on. *)
Definition encode_char (c : ascii) : list Byte.byte :=
  let n := N_of_ascii c in
  if (n <? 128)%N then [byte_of_ascii c]
  else [byte_of_ascii (ascii_of_N (192 + n / 64)); byte_of_ascii (ascii_of_N (128 + n mod 64))].

Fixpoint encode (s : string) : list Byte.byte :=
  match s with
  | EmptyString => []
  | String c rest => encode_char c ++ encode rest
  end.

Fixpoint decode (bs : list Byte.byte) : option string :=
  match bs with
  | [] => Some EmptyString
  | b :: rest =>
      let n := Byte.to_N b in
      if (n <? 128)%N then option_map (String (ascii_of_byte b)) (decode rest)
      else if ((n =? 194) || (n =? 195))%N then
        match rest with
        | b2 :: rest' =>
            let m := Byte.to_N b2 in
            if ((128 <=? m) && (m <? 192))%N
            then option_map (String (ascii_of_N ((n - 192) * 64 + (m - 128)))) (decode rest')
            else None
        | [] => None
        end
      else None
  end.

(** [errors="replace"]: a byte from 128 on is shown as a question mark. *)
Definition replace_decode (bs : list Byte.byte) : string :=
  string_of_list_ascii
    (List.map (fun b => if (Byte.to_N b <? 128)%N then ascii_of_byte b else "?"%char) bs).

Definition hex_digit (n : N) : ascii :=
  ascii_of_N (if (n <? 10)%N then 48 + n else 87 + n).

Fixpoint hex_digits (count : nat) (n : N) (acc : string) : string :=
  match count with
  | O => acc
  | S count' => hex_digits count' (n / 16) (String (hex_digit (n mod 16)) acc)
  end.

(** [str(u)]: 32 hexadecimal digits in groups of 8, 4, 4, 4 and 12. *)
Definition uuid_str (u : UUID) : string :=
  let h := hex_digits 32 u "" in
  slice_to 8 h +:+ "-" +:+ slice_to 4 (slice_from 8 h) +:+ "-"
  +:+ slice_to 4 (slice_from 12 h) +:+ "-" +:+ slice_to 4 (slice_from 16 h) +:+ "-"
  +:+ slice_from 20 h.

Definition hex_value (c : ascii) : option N :=
  let n := N_of_ascii c in
  if ((48 <=? n) && (n <=? 57))%N then Some (n - 48)%N
  else if ((97 <=? n) && (n <=? 102))%N then Some (n - 87)%N
  else if ((65 <=? n) && (n <=? 70))%N then Some (n - 55)%N
  else None.

Fixpoint parse_hex (s : string) (acc : N) : option N :=
  match s with
  | EmptyString => Some acc
  | String c rest =>
      match hex_value c with
      | Some d => parse_hex rest (16 * acc + d)
      | None => None
      end
  end.

Fixpoint remove_hyphens (s : string) : string :=
  match s with
  | EmptyString => EmptyString
  | String c rest => if Ascii.eqb c "-"%char then remove_hyphens rest
                     else String c (remove_hyphens rest)
  end.

(** [uuid.UUID(s)] for the hyphenated and the plain hexadecimal forms. *)
Definition uuid_parse (s : string) : option UUID :=
  let h := remove_hyphens s in
  if Nat.eqb (String.length h) 32 then parse_hex h 0 else None.

(** [repr] of the floats and of the texts the examples contain: the
    two zeros, and texts without quotes or escapes. *)
Definition float_repr (f : float) : string :=
  if PrimFloat.eqb f 0%float then "0.0" else "nan".
Definition str_repr (s : string) : string := "'" +:+ s +:+ "'".

#[export] Instance lib : PyLib := {|
  json_loads := loads;
  decode_utf8 := decode;
  encode_utf8 := encode;
  decode_replace := replace_decode;
  uuid_of_str := uuid_parse;
  str_of_uuid := uuid_str;
  repr_float := float_repr;
  repr_str := str_repr;
|}.

(** One registered user, who holds the session token [tok]. *)
Definition alice_id : UUID := 1311768467294899695%N.
Definition alice_str : string := "00000000-0000-0000-1234-567890abcdef".

Definition alice : UserModel.User :=
  {| UserModel.id := alice_id; UserModel.email := "alice@example.org";
     UserModel.hashed_password := "$2b$12$"; UserModel.created_at := 0;
     UserModel.updated_at := 0 |}.

Definition world0 : World :=
  {| redis := {[ "session:tok" := (encode alice_str, 604800%Z) ]};
     clock := 100;
     users := [alice];
     conversations := [];
     db_faults := [];
     upstream := [];
     uuid4 := fun n => N.of_nat (1000 + n);
     uuid4_count := 0 |}.

Definition session_key0 : string := "bluefairy:" +:+ alice_str.

(** The backend answers one request with two data lines, as JSON. *)
Definition reply_hi_there : upstream_reply :=
  Response 200 [] ["data: " +:+ hi_payload; ""; "event: ping"; "data:" +:+ there_payload]
           EndOfStream.

Definition world_hi : World := set_upstream [reply_hi_there] world0.

(** The backend answers 503. *)
Definition world_503 : World :=
  set_upstream [Response 503 [] [] EndOfStream] world0.

(** The backend answers, and the next database session fails. *)
Definition world_db_down : World := set_db_faults [true] world_hi.

(** A record of an earlier exchange is stored for the session key. *)
Definition row0 : ConversationModel.Conversation :=
  {| ConversationModel.id := 77%N;
     ConversationModel.user_id := alice_id;
     ConversationModel.session_id := Some session_key0;
     ConversationModel.created_at := 50;
     ConversationModel.updated_at := 50;
     ConversationModel.messages :=
       [ [("role", JString "user"); ("content", JString "hello")];
         [("role", JString "assistant"); ("content", JString "Hi there")] ];
     ConversationModel.summary := None |}.

Definition world_archived : World := set_conversations [row0] world0.

Definition no_token_handshake : Ws.Handshake :=
  {| Ws.query_token := None; Ws.cookie_token := None |}.

Definition stale_token_handshake : Ws.Handshake :=
  {| Ws.query_token := None; Ws.cookie_token := Some "expired" |}.

Definition tok_handshake : Ws.Handshake :=
  {| Ws.query_token := Some "tok"; Ws.cookie_token := None |}.

End Sample.

(** ** More examples: other payloads, a password library, other worlds *)

Module Sample2.
Import Sample.

(** JSON texts: a mapping whose text is the number 5, a list, the empty
    text, and a message whose content is null. *)
Definition number_payload : string := "{" +:+ quoted "text" +:+ ": 5}".
Definition list_frame : string := "[1, 2]".
Definition empty_text_payload : string := quoted "".
Definition null_content_frame : string :=
  "{" +:+ quoted "type" +:+ ": " +:+ quoted "message" +:+ ", " +:+ quoted "content"
  +:+ ": null}".

(** A text of 2000 opening brackets, nested deeper than the interpreter's
    recursion limit of 1000, and an integer literal of 4400 digits, longer
    than its digit limit of 4300. *)
Fixpoint repeat_char (n : nat) (c : ascii) : string :=
  match n with
  | O => EmptyString
  | S n' => String c (repeat_char n' c)
  end.

Definition deep_frame : string := repeat_char 2000 "["%char.
Definition long_integer_payload : string := repeat_char 4400 "7"%char.

(** [json.loads] on these texts and on those of [Sample]. *)
Definition loads (s : string) : loads_outcome :=
  if String.eqb s deep_frame then Escaped NestingTooDeep
  else if String.eqb s long_integer_payload then Escaped IntegerTooLong
  else if String.eqb s number_payload then Loaded (JObject [("text", JInt 5)])
  else if String.eqb s list_frame then Loaded (JArray [JInt 1; JInt 2])
  else if String.eqb s empty_text_payload then Loaded (JString "")
  else if String.eqb s null_content_frame then
    Loaded (JObject [("type", JString "message"); ("content", JNull)])
  else Sample.loads s.

Definition lib : PyLib := {|
  json_loads := loads;
  decode_utf8 := decode;
  encode_utf8 := encode;
  decode_replace := replace_decode;
  uuid_of_str := uuid_parse;
  str_of_uuid := uuid_str;
  repr_float := float_repr;
  repr_str := str_repr;
|}.

(** A stand-in for passlib that keeps the password readable: the hash is
    the salt, a dollar sign and the password. *)
Definition hash_with (salt password : string) : string := salt +:+ "$" +:+ password.

Fixpoint ends_with (s suffix : string) : bool :=
  String.eqb s suffix
  || match s with
     | EmptyString => false
     | String _ rest => ends_with rest suffix
     end.

Definition verify_with (password hashed : string) : bool := ends_with hashed ("$" +:+ password).

Definition ignore_decode (bs : list Byte.byte) : string :=
  string_of_list_ascii
    (List.map ascii_of_byte (List.filter (fun b => (Byte.to_N b <? 128)%N) bs)).

#[export] Instance passlib : PassLib := {|
  pwd_hash := hash_with;
  pwd_verify := verify_with;
  decode_ignore := ignore_decode;
|}.

(** The stream breaks after one fragment. *)
Definition world_broken : World :=
  set_upstream [Response 200 [] ["data: " +:+ hi_payload] StreamBroken] world0.

(** The second data line carries a number. *)
Definition world_number : World :=
  set_upstream [Response 200 []
                  ["data: " +:+ hi_payload; "data: " +:+ number_payload;
                   "data: " +:+ there_payload] EndOfStream] world0.

(** The session key of alice, stored long ago under another value, has
    expired. *)
Definition world_stale : World :=
  set_redis (<[SessionService._redis_key alice_str := (encode "legacy-key", 50%Z)]>
               (redis world0)) world0.

(** A second user, with a password. *)
Definition bob_id : UUID := 2%N.
Definition bob : UserModel.User :=
  {| UserModel.id := bob_id; UserModel.email := "bob@example.org";
     UserModel.hashed_password := hash_with "salt" "secret";
     UserModel.created_at := 10; UserModel.updated_at := 10 |}.

Definition world_bob : World := set_users [alice; bob] world0.

Definition carol_in : UserSchema.UserCreate :=
  {| UserSchema.email := "carol@example.org"; UserSchema.password := "pass phrase" |}.

Definition bob_in : UserSchema.UserCreate :=
  {| UserSchema.email := "bob@example.org"; UserSchema.password := "another" |}.

End Sample2.

(** ** Vocabulary of the properties *)

Section Vocabulary.
Context `{PyLib}.

(** The fragments in order, as one text. *)
Definition concat_fragments (frags : list string) : string :=
  List.fold_right String.append "" frags.

(** A frame whose decoded form is a mapping of type [message] with a text
    for its content (or no content at all, which stands for the empty text). *)
Definition message_frame (raw text : string) : Prop :=
  exists fields,
    json_loads raw = Loaded (JObject fields) /\
    dict_get fields "type" = JString "message" /\
    dict_get_default fields "content" (JString "") = JString text.

(** The streaming client, called in world [w], yields the texts [frags] and
    then ends without an error. *)
Definition streams (session_key content : string) (w : World) (frags : list string) : Prop :=
  exists gen,
    value_of (OpenClawService.send_message session_key content w) = Ok gen /\
    OpenClawService.yields gen = List.map JString frags /\
    OpenClawService.finish gen = None.

(** What [GET key] returns in world [w]. *)
Definition live_value (w : World) (key : string) : option (list Byte.byte) :=
  match redis w !! key with
  | Some (v, expiry) => if (clock w <? expiry)%Z then Some v else None
  | None => None
  end.

(** The outcomes of [get_or_create_session] called again and again for one
    user, at the times [times], starting in world [w]. *)
Fixpoint repeated_calls (user_id : string) (times : list Z) (w : World) : list (result string) :=
  match times with
  | [] => []
  | t :: later =>
      let r := SessionService.get_or_create_session user_id (set_clock t w) in
      value_of r :: repeated_calls user_id later (world_of r)
  end.




(** A frame that decodes, but to something the handler cannot read: a
    value that is not a mapping, or a [message] whose content is not a
    text. *)
Definition unreadable_frame (raw : string) : Prop :=
  exists j, json_loads raw = Loaded j /\
    ((forall fields, j <> JObject fields)
     \/ exists fields, j = JObject fields
          /\ dict_get fields "type" = JString "message"
          /\ forall text, dict_get_default fields "content" (JString "") <> JString text).

(** The generator yields the texts [frags] and then ends with [e]. *)
Definition streams_then_fails (session_key content : string) (w : World)
    (frags : list string) (e : exn) : Prop :=
  exists gen,
    value_of (OpenClawService.send_message session_key content w) = Ok gen /\
    OpenClawService.yields gen = List.map JString frags /\
    OpenClawService.finish gen = Some e.

(** The generator yields the texts [frags] and then a value that is not a
    text. *)
Definition streams_then_yields (session_key content : string) (w : World)
    (frags : list string) (bad : json) : Prop :=
  exists gen later,
    value_of (OpenClawService.send_message session_key content w) = Ok gen /\
    OpenClawService.yields gen = List.map JString frags ++ bad :: later /\
    forall s, bad <> JString s.

(** [scalar_one_or_none], as a value. *)
Definition one_or_none {A : Type} (rows : list A) : result (option A) :=
  match rows with
  | [] => Ok None
  | [row] => Ok (Some row)
  | _ :: _ :: _ => Raise MultipleResultsFound
  end.

(** What [UserRepository.get] returns in world [w]. *)
Definition find_user (w : World) (entity_id : string) : result (option UserModel.User) :=
  match db_faults w with
  | true :: _ => Raise DatabaseError
  | _ =>
      match uuid_of_str entity_id with
      | None => Raise DatabaseError
      | Some u => one_or_none (List.filter (fun row => N.eqb (UserModel.id row) u) (users w))
      end
  end.

(** What [AuthService.get_session] returns in world [w]. *)
Definition resolve_token (w : World) (token : string) : result (option UserModel.User) :=
  match live_value w ("session:" +:+ token) with
  | Some ((_ :: _) as raw) =>
      match decode_utf8 raw with
      | None => Raise UnicodeDecodeError
      | Some text => find_user w text
      end
  | _ => Ok None
  end.

(** A text without white space. *)
Fixpoint no_space (s : string) : bool :=
  match s with
  | EmptyString => true
  | String c rest => negb (py_isspace c) && no_space rest
  end.

(** A computation that has no observable effect. *)
Definition quiet {A : Type} (m : M A) : Prop := forall w, trace_of (m w) = [].

End Vocabulary.

(** * Properties *)

(** ** Computations: how [bind], [emit] and [try_except] run *)

Section Computations.

Lemma bind_ok {A B : Type} (m : M A) (k : A -> M B) (w w1 : World) (t : list effect) (a : A) :
  m w = (t, w1, Ok a) ->
  bind m k w = ((t ++ trace_of (k a w1)), world_of (k a w1), value_of (k a w1)).
Proof.
  intros Hm. unfold bind, trace_of, world_of, value_of. rewrite Hm.
  destruct (k a w1) as [[t' w2] r]. reflexivity.
Qed.

Lemma bind_raise {A B : Type} (m : M A) (k : A -> M B) (w w1 : World) (t : list effect) (e : exn) :
  m w = (t, w1, Raise e) -> bind m k w = (t, w1, Raise e).
Proof. intros Hm. unfold bind. rewrite Hm. reflexivity. Qed.

Lemma run_eta {A : Type} (r : list effect * World * result A) :
  r = (trace_of r, world_of r, value_of r).
Proof. destruct r as [[t w] v]. reflexivity. Qed.

Lemma sent_app (t1 t2 : list effect) : sent (t1 ++ t2) = sent t1 ++ sent t2.
Proof. unfold sent. apply flat_map_app. Qed.

Lemma posts_app (t1 t2 : list effect) : posts (t1 ++ t2) = posts t1 ++ posts t2.
Proof. unfold posts. apply flat_map_app. Qed.

Lemma archive_calls_app (t1 t2 : list effect) :
  archive_calls (t1 ++ t2) = archive_calls t1 ++ archive_calls t2.
Proof. unfold archive_calls. apply flat_map_app. Qed.

Lemma logged_app (t1 t2 : list effect) : logged (t1 ++ t2) = logged t1 ++ logged t2.
Proof. unfold logged. apply flat_map_app. Qed.

Lemma trace_bind {A B : Type} (m : M A) (k : A -> M B) (w : World) :
  trace_of (bind m k w) =
  trace_of (m w) ++ match value_of (m w) with
                    | Ok a => trace_of (k a (world_of (m w)))
                    | Raise _ => []
                    end.
Proof.
  unfold bind, trace_of, world_of, value_of.
  destruct (m w) as [[t w1] [a|e]]; simpl.
  - destruct (k a w1) as [[t' w2] r]. reflexivity.
  - now rewrite app_nil_r.
Qed.

Lemma quiet_bind {A B : Type} (m : M A) (k : A -> M B) :
  quiet m -> (forall a, quiet (k a)) -> quiet (bind m k).
Proof.
  intros Hm Hk w. rewrite trace_bind, Hm. simpl.
  destruct (value_of (m w)); [apply Hk | reflexivity].
Qed.

Lemma quiet_ret {A : Type} (a : A) : quiet (ret a).
Proof. intros w. reflexivity. Qed.

Lemma quiet_raise {A : Type} (e : exn) : quiet (raise (A := A) e).
Proof. intros w. reflexivity. Qed.

Lemma quiet_get_world : quiet get_world.
Proof. intros w. reflexivity. Qed.

Lemma quiet_modify (f : World -> World) : quiet (modify f).
Proof. intros w. reflexivity. Qed.

Lemma quiet_db_session : quiet db_session.
Proof. intros w. unfold db_session. destruct (db_faults w) as [|[|] ?]; reflexivity. Qed.

Lemma quiet_scalar_one_or_none {A : Type} (rows : list A) : quiet (scalar_one_or_none rows).
Proof. intros w. destruct rows as [|? [|? ?]]; reflexivity. Qed.

Lemma quiet_redis_get (key : string) : quiet (redis_get key).
Proof.
  intros w. unfold redis_get. destruct (redis w !! key) as [[v expiry]|]; [|reflexivity].
  destruct (clock w <? expiry)%Z; reflexivity.
Qed.

Create HintDb quiet.
#[local] Hint Resolve quiet_ret quiet_raise quiet_get_world quiet_modify quiet_db_session
  quiet_scalar_one_or_none quiet_redis_get : quiet.

Lemma quiet_get_by_session_id (session_id : string) :
  quiet (ConversationRepository.get_by_session_id session_id).
Proof.
  unfold ConversationRepository.get_by_session_id.
  repeat (apply quiet_bind; [auto with quiet | intros ?]). auto with quiet.
Qed.

Lemma quiet_create (entity_in : ConversationSchema.ConversationCreate) :
  quiet (ConversationRepository.create entity_in).
Proof.
  unfold ConversationRepository.create.
  repeat (apply quiet_bind; [auto with quiet | intros ?]). auto with quiet.
Qed.

End Computations.

(** ** The relay of one message *)

Section Relay.
Context `{PyLib}.

Lemma append_assoc (a b c : string) : (a +:+ b) +:+ c = a +:+ (b +:+ c).
Proof.
  induction a as [|x a IH]; [reflexivity |].
  change (String x ((a +:+ b) +:+ c) = String x (a +:+ (b +:+ c))). now rewrite IH.
Qed.

Lemma append_empty (a : string) : a +:+ "" = a.
Proof.
  induction a as [|x a IH]; [reflexivity |].
  change (String x (a +:+ "") = String x a). now rewrite IH.
Qed.

Lemma forward_chunks_texts (frags : list string) (acc : string) (w : World) :
  Ws.forward_chunks (List.map JString frags) acc w =
  (List.map (fun s => WsSend (Chunk s)) frags, w, Ok (acc +:+ concat_fragments frags)).
Proof.
  revert acc. induction frags as [|s frags IH]; intros acc; simpl.
  - unfold ret. now rewrite append_empty.
  - unfold bind, emit. rewrite IH. simpl.
    change (concat_fragments (s :: frags)) with (s +:+ concat_fragments frags).
    now rewrite append_assoc.
Qed.

Lemma sent_chunks (frags : list string) :
  sent (List.map (fun s => WsSend (Chunk s)) frags) = List.map Chunk frags.
Proof. induction frags as [|s frags IH]; simpl; [reflexivity | now rewrite IH]. Qed.

Lemma handle_frame_message (user_id session_key raw text : string) (w : World) :
  message_frame raw text ->
  Ws.handle_frame user_id session_key raw w =
  if String.eqb (strip text) ""
  then ([WsSend (Error "Empty message")], w, Ok tt)
  else Ws.relay_message user_id session_key (strip text) w.
Proof.
  intros (fields & Hload & Htype & Hcontent).
  unfold Ws.handle_frame. rewrite Hload, Htype, Hcontent. simpl.
  destruct (String.eqb (strip text) ""); reflexivity.
Qed.

Lemma create_conversation_trace (user_id session_id user_message assistant_message : string)
    (w : World) :
  trace_of (ConversationService.create_conversation user_id session_id
              user_message assistant_message w) =
  [ArchiveCall user_id session_id user_message assistant_message].
Proof.
  unfold ConversationService.create_conversation.
  rewrite trace_bind. simpl.
  destruct (uuid_of_str user_id) as [uid|]; [|reflexivity].
  match goal with |- context [trace_of (?m _)] => assert (Hq : quiet m) end.
  { apply quiet_bind; [apply quiet_get_by_session_id | intros [row|]].
    - apply quiet_ret.
    - apply quiet_bind; [apply quiet_create | intros ?; apply quiet_ret]. }
  now rewrite Hq.
Qed.

Lemma persist_exchange_run (user_id session_key content full_response : string) (w : World) :
  exists logs w',
    Ws.persist_exchange user_id session_key content full_response w =
    (ArchiveCall user_id session_key content full_response :: logs, w', Ok tt) /\
    sent logs = [] /\ posts logs = [] /\ archive_calls logs = [] /\
    match value_of (ConversationService.create_conversation user_id session_key
                      content full_response w) with
    | Ok _ => logs = []
    | Raise e => logs = [LogRecord ERROR "Failed to persist conversation" (Some e)]
    end.
Proof.
  pose proof (create_conversation_trace user_id session_key content full_response w) as Ht.
  unfold Ws.persist_exchange, try_except, bind, ret, emit.
  destruct (ConversationService.create_conversation _ _ _ _ w) as [[t w1] [r|e]];
    unfold trace_of, value_of in *; simpl in *; subst t.
  - exists [], w1. repeat split; reflexivity.
  - exists [LogRecord ERROR "Failed to persist conversation" (Some e)], w1.
    repeat split; reflexivity.
Qed.

Lemma send_message_trace (session_key message : string) (w : World) :
  exists logs,
    trace_of (OpenClawService.send_message session_key message w) =
    HttpPost session_key message :: logs /\
    sent logs = [] /\ posts logs = [] /\ archive_calls logs = [].
Proof.
  unfold OpenClawService.send_message, OpenClawService.next_reply, bind, emit, ret, trace_of.
  destruct (upstream w) as [|[|status body lines tail] rest]; simpl.
  - exists []; repeat split; reflexivity.
  - exists []; repeat split; reflexivity.
  - destruct (negb (status =? 200)%Z); simpl; eexists; repeat split; reflexivity.
Qed.

Lemma send_message_run (session_key message : string) (w : World) :
  exists logs gen,
    OpenClawService.send_message session_key message w =
    (HttpPost session_key message :: logs,
     world_of (OpenClawService.send_message session_key message w), Ok gen) /\
    sent logs = [] /\ posts logs = [] /\ archive_calls logs = [].
Proof.
  unfold OpenClawService.send_message, OpenClawService.next_reply, bind, emit, ret, world_of.
  destruct (upstream w) as [|[|status body lines tail] rest]; simpl.
  - exists [], {| OpenClawService.yields := []; OpenClawService.finish := Some TransportError |}.
    repeat split; reflexivity.
  - exists [], {| OpenClawService.yields := []; OpenClawService.finish := Some TransportError |}.
    repeat split; reflexivity.
  - destruct (negb (status =? 200)%Z); simpl; do 2 eexists; repeat split; reflexivity.
Qed.

(** [forward_chunks] writes one [chunk] for each text it is given, up to
    the first value that is not a text, and touches nothing else. *)
Lemma forward_chunks_run (chunks : list json) (acc : string) (w : World) :
  exists texts r,
    Ws.forward_chunks chunks acc w = (List.map (fun s => WsSend (Chunk s)) texts, w, r).
Proof.
  revert acc. induction chunks as [|chunk chunks IH]; intros acc.
  - exists [], (Ok acc). reflexivity.
  - destruct chunk as [| | | |s| |]; try (exists [], (Raise TypeError); reflexivity).
    destruct (IH (acc +:+ s)) as (texts & r & Hrun).
    exists (s :: texts), r. simpl. unfold bind, emit. now rewrite Hrun.
Qed.

Lemma posts_chunks (texts : list string) :
  posts (List.map (fun s => WsSend (Chunk s)) texts) = [].
Proof. induction texts as [|s texts IH]; simpl; [reflexivity | exact IH]. Qed.

Lemma archive_calls_chunks (texts : list string) :
  archive_calls (List.map (fun s => WsSend (Chunk s)) texts) = [].
Proof. induction texts as [|s texts IH]; simpl; [reflexivity | exact IH]. Qed.

(** Whatever happens, [relay_message] sends one request to the backend,
    carrying the session key and the content it was given, and calls the
    archive at most once, with that same content as the user message. *)
Lemma relay_message_calls (user_id session_key content : string) (w : World) :
  posts (trace_of (Ws.relay_message user_id session_key content w)) = [(session_key, content)]
  /\ (archive_calls (trace_of (Ws.relay_message user_id session_key content w)) = []
      \/ exists full_response,
           archive_calls (trace_of (Ws.relay_message user_id session_key content w)) =
           [(user_id, session_key, content, full_response)])
  /\ value_of (Ws.relay_message user_id session_key content w) = Ok tt.
Proof.
  destruct (send_message_run session_key content w) as (logs0 & gen & Hsend & Hs0 & Hp0 & Ha0).
  remember (world_of (OpenClawService.send_message session_key content w)) as w0 eqn:Hw0.
  destruct (forward_chunks_run (OpenClawService.yields gen) "" w0) as (texts & r & Hfwd).
  unfold Ws.relay_message, try_except.
  rewrite (bind_ok _ _ w w0 _ gen Hsend).
  destruct r as [full|e].
  - rewrite (bind_ok _ _ w0 w0 _ full Hfwd).
    destruct (OpenClawService.finish gen) as [e|].
    + unfold trace_of, world_of, value_of, raise; simpl.
      destruct e; unfold bind, emit; simpl;
        rewrite ?posts_app, ?archive_calls_app, ?Hp0, ?Ha0, ?posts_chunks, ?archive_calls_chunks;
        simpl; auto.
    + destruct (persist_exchange_run user_id session_key content full w0)
        as (logs1 & w1 & Hrun & Hs1 & Hp1 & Ha1 & _).
      unfold trace_of, world_of, value_of, bind, emit; simpl. rewrite Hrun. simpl.
      rewrite ?posts_app, ?archive_calls_app, ?Hp0, ?Ha0, ?posts_chunks, ?archive_calls_chunks.
      simpl. rewrite Hp1, Ha1. split; [reflexivity|]. split; [|reflexivity].
      right. exists full. reflexivity.
  - rewrite (bind_raise _ _ w0 w0 _ e Hfwd).
    unfold trace_of, world_of, value_of; simpl.
    destruct e; unfold bind, emit; simpl;
      rewrite ?posts_app, ?archive_calls_app, ?Hp0, ?Ha0, ?posts_chunks, ?archive_calls_chunks;
      simpl; auto.
Qed.

(** The whole run of [relay_message] when the client yields texts and ends
    without an error. *)
Lemma relay_message_streamed (user_id session_key content : string) (w : World)
    (frags : list string) :
  streams session_key content w frags ->
  exists logs0 logs1 w',
    Ws.relay_message user_id session_key content w =
    (HttpPost session_key content :: logs0
       ++ List.map (fun s => WsSend (Chunk s)) frags
       ++ [WsSend (Done (concat_fragments frags))]
       ++ ArchiveCall user_id session_key content (concat_fragments frags) :: logs1,
     w', Ok tt) /\
    sent logs0 = [] /\ posts logs0 = [] /\ archive_calls logs0 = [] /\
    sent logs1 = [] /\ posts logs1 = [] /\ archive_calls logs1 = [] /\
    match value_of (ConversationService.create_conversation user_id session_key content
                      (concat_fragments frags)
                      (world_of (OpenClawService.send_message session_key content w))) with
    | Ok _ => logs1 = []
    | Raise e => logs1 = [LogRecord ERROR "Failed to persist conversation" (Some e)]
    end.
Proof.
  intros (gen & Hgen & Hyields & Hfinish).
  destruct (send_message_trace session_key content w) as (logs0 & Ht0 & Hs0 & Hp0 & Ha0).
  remember (world_of (OpenClawService.send_message session_key content w)) as w0 eqn:Hw0.
  destruct (persist_exchange_run user_id session_key content (concat_fragments frags) w0)
    as (logs1 & w1 & Hrun & Hs1 & Hp1 & Ha1 & Hlogs).
  exists logs0, logs1, w1. repeat split; try assumption.
  unfold Ws.relay_message, try_except.
  rewrite (bind_ok _ _ w w0 (HttpPost session_key content :: logs0) gen).
  2:{ rewrite (run_eta (OpenClawService.send_message session_key content w)).
      now rewrite Ht0, <- Hw0, Hgen. }
  rewrite Hyields, Hfinish.
  rewrite (bind_ok _ _ w0 w0 (List.map (fun s => WsSend (Chunk s)) frags)
             ("" +:+ concat_fragments frags)) by apply forward_chunks_texts.
  change ("" +:+ concat_fragments frags) with (concat_fragments frags).
  unfold trace_of, world_of, value_of, bind, emit. simpl.
  rewrite Hrun. reflexivity.
Qed.

(** C1.  While one [message] frame is handled, if the streaming client
    yields the text fragments [frags] and ends, the events written on the
    socket are one [chunk] per fragment, in the order of the fragments,
    followed by one [done] whose [fullContent] is the fragments put
    together in that order; the handler then goes on with the next frame. *)
Theorem relay_chunks_then_done (user_id session_key raw text : string) (w : World)
    (frags : list string) :
  message_frame raw text ->
  strip text <> "" ->
  streams session_key (strip text) w frags ->
  sent (trace_of (Ws.handle_frame user_id session_key raw w)) =
    List.map Chunk frags ++ [Done (concat_fragments frags)]
  /\ value_of (Ws.handle_frame user_id session_key raw w) = Ok tt.
Proof.
  intros Hframe Hcontent Hstream.
  rewrite (handle_frame_message user_id session_key raw text w Hframe).
  apply String.eqb_neq in Hcontent. rewrite Hcontent.
  destruct (relay_message_streamed user_id session_key (strip text) w frags Hstream)
    as (logs0 & logs1 & w' & Hrun & Hs0 & _ & _ & Hs1 & _).
  rewrite Hrun. unfold trace_of, value_of. simpl. split; [|reflexivity].
  rewrite !sent_app, Hs0, sent_chunks. simpl. now rewrite Hs1.
Qed.

(** A frame that decodes to something other than a mapping has no [get]:
    the exception is not caught and ends the handler. *)
Lemma non_mapping_frame_raises (user_id session_key raw : string) (j : json) (w : World) :
  json_loads raw = Loaded j ->
  (forall fields, j <> JObject fields) ->
  Ws.handle_frame user_id session_key raw w = ([], w, Raise AttributeError).
Proof.
  intros Hload Hshape. unfold Ws.handle_frame. rewrite Hload.
  destruct j; try reflexivity. now destruct (Hshape fields).
Qed.

(** A value that is not a text stops the forwarding with [TypeError]. *)
Lemma non_text_chunk_raises (chunk : json) (rest : list json) (acc : string) (w : World) :
  (forall s, chunk <> JString s) ->
  Ws.forward_chunks (chunk :: rest) acc w = ([], w, Raise TypeError).
Proof.
  intros Hshape. destruct chunk; try reflexivity. now destruct (Hshape s).
Qed.

(** After a frame that was handled without an uncaught exception the loop
    reads the next frame. *)
Lemma receive_loop_next (user_id session_key raw : string) (rest : list string) (w : World) :
  value_of (Ws.handle_frame user_id session_key raw w) = Ok tt ->
  Ws.receive_loop user_id session_key (raw :: rest) w =
  (trace_of (Ws.handle_frame user_id session_key raw w)
     ++ trace_of (Ws.receive_loop user_id session_key rest
                    (world_of (Ws.handle_frame user_id session_key raw w))),
   world_of (Ws.receive_loop user_id session_key rest
               (world_of (Ws.handle_frame user_id session_key raw w))),
   value_of (Ws.receive_loop user_id session_key rest
               (world_of (Ws.handle_frame user_id session_key raw w)))).
Proof.
  intros Hok. simpl.
  apply (bind_ok (Ws.handle_frame user_id session_key raw)
           (fun _ => Ws.receive_loop user_id session_key rest) w
           (world_of (Ws.handle_frame user_id session_key raw w))
           (trace_of (Ws.handle_frame user_id session_key raw w)) tt).
  rewrite <- Hok. apply run_eta.
Qed.

Lemma is_str_false (j : json) (s : string) : j <> JString s -> Ws.is_str j s = false.
Proof.
  intros Hne. destruct j as [| | | |t| |]; try reflexivity.
  simpl. apply String.eqb_neq. congruence.
Qed.

(** C6.  When the backend answers the request of a [message] frame with a
    status other than 200, the streaming client yields nothing and raises
    [OpenClawAPIException] with the status code in its text; the relay
    writes exactly one event on the socket, an error, never calls the
    archive, leaves the table of conversations as it was, and goes on. *)
Theorem upstream_status_error (user_id session_key raw text : string) (w : World)
    (status_code : Z) (body : list Byte.byte) (lines : list string) (tail : line_end)
    (rest : list upstream_reply) :
  message_frame raw text ->
  strip text <> "" ->
  upstream w = Response status_code body lines tail :: rest ->
  status_code <> 200%Z ->
  value_of (OpenClawService.send_message session_key (strip text) w) =
    Ok {| OpenClawService.yields := [];
          OpenClawService.finish :=
            Some (OpenClawAPIException ("OpenClaw returned " +:+ str_of_int status_code)) |}
  /\ sent (trace_of (Ws.handle_frame user_id session_key raw w)) =
       [Error "Failed to get response from AI"]
  /\ archive_calls (trace_of (Ws.handle_frame user_id session_key raw w)) = []
  /\ conversations (world_of (Ws.handle_frame user_id session_key raw w)) = conversations w
  /\ value_of (Ws.handle_frame user_id session_key raw w) = Ok tt.
Proof.
  intros Hframe Hcontent Hup Hstatus.
  rewrite (handle_frame_message user_id session_key raw text w Hframe).
  apply String.eqb_neq in Hcontent. rewrite Hcontent.
  apply Z.eqb_neq in Hstatus.
  unfold Ws.relay_message, try_except, OpenClawService.send_message,
    OpenClawService.next_reply, bind, emit, ret, raise, trace_of, world_of, value_of.
  rewrite Hup. simpl. rewrite Hstatus. simpl. repeat split; reflexivity.
Qed.

(** C7.  When the fragments of a [message] frame were streamed to the end
    and the archive then raises [e], the client has received the chunks
    and the [done] event with the whole text, no error event is written,
    the failure is logged, and the handler goes on with the next frame. *)
Theorem archive_failure_swallowed (user_id session_key raw text : string) (w : World)
    (frags : list string) (e : exn) :
  message_frame raw text ->
  strip text <> "" ->
  streams session_key (strip text) w frags ->
  value_of (ConversationService.create_conversation user_id session_key (strip text)
              (concat_fragments frags)
              (world_of (OpenClawService.send_message session_key (strip text) w))) = Raise e ->
  sent (trace_of (Ws.handle_frame user_id session_key raw w)) =
    List.map Chunk frags ++ [Done (concat_fragments frags)]
  /\ (forall message,
        ~ In (Error message) (sent (trace_of (Ws.handle_frame user_id session_key raw w))))
  /\ In (ERROR, "Failed to persist conversation", Some e)
        (logged (trace_of (Ws.handle_frame user_id session_key raw w)))
  /\ value_of (Ws.handle_frame user_id session_key raw w) = Ok tt.
Proof.
  intros Hframe Hcontent Hstream Hraise.
  rewrite (handle_frame_message user_id session_key raw text w Hframe).
  apply String.eqb_neq in Hcontent. rewrite Hcontent.
  destruct (relay_message_streamed user_id session_key (strip text) w frags Hstream)
    as (logs0 & logs1 & w' & Hrun & Hs0 & _ & _ & Hs1 & _ & _ & Hlogs).
  rewrite Hraise in Hlogs. subst logs1.
  rewrite Hrun. unfold trace_of, value_of. cbn [fst snd].
  assert (Hsent : sent (HttpPost session_key (strip text) :: logs0
                        ++ List.map (fun s => WsSend (Chunk s)) frags
                        ++ [WsSend (Done (concat_fragments frags))]
                        ++ [ArchiveCall user_id session_key (strip text) (concat_fragments frags);
                            LogRecord ERROR "Failed to persist conversation" (Some e)]) =
                  List.map Chunk frags ++ [Done (concat_fragments frags)]).
  { change (sent (HttpPost ?a ?b :: ?l)) with (sent l).
    rewrite !sent_app, Hs0, sent_chunks. reflexivity. }
  repeat split.
  - exact Hsent.
  - intros message Hin. rewrite Hsent in Hin.
    apply in_app_or in Hin. destruct Hin as [Hin|[Hin|[]]]; [|discriminate].
    apply List.in_map_iff in Hin. destruct Hin as (s & Heq & _). discriminate.
  - change (logged (HttpPost ?a ?b :: ?l)) with (logged l).
    rewrite !logged_app. apply in_or_app. right. apply in_or_app. right.
    apply in_or_app. right. simpl. left. reflexivity.
Qed.

(** C8.  A [message] frame whose content is empty or only white space is
    answered with exactly one error event; nothing is sent to the backend,
    the world is unchanged, and the loop reads the next frame. *)
Theorem blank_message_rejected (user_id session_key raw text : string) (rest : list string)
    (w : World) :
  message_frame raw text ->
  strip text = "" ->
  Ws.handle_frame user_id session_key raw w = ([WsSend (Error "Empty message")], w, Ok tt)
  /\ sent (trace_of (Ws.handle_frame user_id session_key raw w)) = [Error "Empty message"]
  /\ posts (trace_of (Ws.handle_frame user_id session_key raw w)) = []
  /\ Ws.receive_loop user_id session_key (raw :: rest) w =
     (WsSend (Error "Empty message") :: trace_of (Ws.receive_loop user_id session_key rest w),
      world_of (Ws.receive_loop user_id session_key rest w),
      value_of (Ws.receive_loop user_id session_key rest w)).
Proof.
  intros Hframe Hblank.
  assert (Hrun : Ws.handle_frame user_id session_key raw w =
                 ([WsSend (Error "Empty message")], w, Ok tt)).
  { rewrite (handle_frame_message user_id session_key raw text w Hframe), Hblank.
    reflexivity. }
  repeat split; try (rewrite Hrun; reflexivity).
  rewrite receive_loop_next; rewrite Hrun; reflexivity.
Qed.

(** The bad frames the handler answers.  A frame [json.loads] rejects
    with [JSONDecodeError] is answered with exactly one error event,
    [Invalid JSON]; a frame that decodes to a mapping whose [type] is
    neither [ping] nor [message] is answered with exactly one error event
    that names the type: [Unknown message type: ] followed by the type
    itself when it is a text, by [None] when the mapping has no [type], by
    [str(type)] in general.  The connection is not closed, nothing else
    happens, and the loop reads the next frame. *)
Theorem bad_frame_reported (user_id session_key raw : string) (rest : list string) (w : World) :
  (json_loads raw = JSONDecodeError
   \/ exists fields, json_loads raw = Loaded (JObject fields)
        /\ dict_get fields "type" <> JString "ping"
        /\ dict_get fields "type" <> JString "message") ->
  exists message,
    Ws.handle_frame user_id session_key raw w = ([WsSend (Error message)], w, Ok tt)
    /\ (json_loads raw = JSONDecodeError -> message = "Invalid JSON")
    /\ (forall fields, json_loads raw = Loaded (JObject fields) ->
          message = "Unknown message type: " +:+ py_str (dict_get fields "type")
          /\ (forall t, dict_get fields "type" = JString t ->
                message = "Unknown message type: " +:+ t)
          /\ (dict_lookup fields "type" = None -> message = "Unknown message type: None"))
    /\ Ws.receive_loop user_id session_key (raw :: rest) w =
       (WsSend (Error message) :: trace_of (Ws.receive_loop user_id session_key rest w),
        world_of (Ws.receive_loop user_id session_key rest w),
        value_of (Ws.receive_loop user_id session_key rest w)).
Proof.
  intros [Hbad|(fields & Hload & Hping & Hmsg)].
  - assert (Hrun : Ws.handle_frame user_id session_key raw w =
                   ([WsSend (Error "Invalid JSON")], w, Ok tt)).
    { unfold Ws.handle_frame. rewrite Hbad. reflexivity. }
    exists "Invalid JSON". split; [exact Hrun|]. split; [|split].
    + reflexivity.
    + intros fields Hload. congruence.
    + rewrite receive_loop_next; rewrite Hrun; reflexivity.
  - assert (Hrun : Ws.handle_frame user_id session_key raw w =
                   ([WsSend (Error ("Unknown message type: "
                                    +:+ py_str (dict_get fields "type")))], w, Ok tt)).
    { unfold Ws.handle_frame. rewrite Hload.
      rewrite (is_str_false _ _ Hping), (is_str_false _ _ Hmsg). reflexivity. }
    exists ("Unknown message type: " +:+ py_str (dict_get fields "type")).
    split; [exact Hrun|]. split; [|split].
    + intros Hnone. congruence.
    + intros fields' Hload'.
      assert (fields' = fields) as -> by congruence.
      split; [reflexivity|]. split.
      * intros t ->. reflexivity.
      * intros Habsent. unfold dict_get. rewrite Habsent. reflexivity.
    + rewrite receive_loop_next; rewrite Hrun; reflexivity.
Qed.

(** C9.  The handler catches [json.JSONDecodeError] alone.  A frame on
    which [json.loads] fails with another error (a text nested deeper than
    the recursion limit, an integer literal over the digit limit) cannot be
    parsed either, but is not answered: no event is written, the error
    leaves the loop, and the frames after it are never handled. *)
Theorem unparseable_frame_fatal (user_id session_key raw : string) (rest : list string)
    (w : World) (f : loads_fault) :
  json_loads raw = Escaped f ->
  Ws.handle_frame user_id session_key raw w = ([], w, Raise (exn_of_fault f))
  /\ Ws.receive_loop user_id session_key (raw :: rest) w = ([], w, Raise (exn_of_fault f))
  /\ sent (trace_of (Ws.receive_loop user_id session_key (raw :: rest) w)) = []
  /\ (forall msg, exn_of_fault f <> OpenClawAPIException msg)
  /\ (exn_of_fault f = RecursionError \/ exn_of_fault f = ValueError).
Proof.
  intros Hload.
  assert (Hrun : Ws.handle_frame user_id session_key raw w
                 = ([], w, Raise (exn_of_fault f))).
  { unfold Ws.handle_frame. rewrite Hload. reflexivity. }
  assert (Hloop : Ws.receive_loop user_id session_key (raw :: rest) w
                  = ([], w, Raise (exn_of_fault f))).
  { simpl. now rewrite (bind_raise _ _ w w [] (exn_of_fault f) Hrun). }
  split; [exact Hrun|]. split; [exact Hloop|]. split; [now rewrite Hloop|].
  split; [destruct f; discriminate | destruct f; auto].
Qed.

(** C10.  For a [message] frame whose content is not only white space, what
    is posted to the backend is the content without its leading and
    trailing white space; the archive is called at most once, with that
    stripped text as the user message, and it is called with it whenever
    the fragments were streamed to the end. *)
Theorem stripped_content_used (user_id session_key raw text : string) (w : World) :
  message_frame raw text ->
  strip text <> "" ->
  posts (trace_of (Ws.handle_frame user_id session_key raw w)) = [(session_key, strip text)]
  /\ (forall call, In call (archive_calls (trace_of (Ws.handle_frame user_id session_key raw w))) ->
        exists full_response, call = (user_id, session_key, strip text, full_response))
  /\ (forall frags, streams session_key (strip text) w frags ->
        archive_calls (trace_of (Ws.handle_frame user_id session_key raw w)) =
        [(user_id, session_key, strip text, concat_fragments frags)]).
Proof.
  intros Hframe Hcontent.
  rewrite (handle_frame_message user_id session_key raw text w Hframe).
  apply String.eqb_neq in Hcontent. rewrite Hcontent.
  destruct (relay_message_calls user_id session_key (strip text) w) as (Hposts & Harch & _).
  repeat split.
  - exact Hposts.
  - intros call Hin. destruct Harch as [Hnone|(full & Hone)].
    + rewrite Hnone in Hin. destruct Hin.
    + rewrite Hone in Hin. destruct Hin as [<-|[]]. exists full. reflexivity.
  - intros frags Hstream.
    destruct (relay_message_streamed user_id session_key (strip text) w frags Hstream)
      as (logs0 & logs1 & w' & Hrun & _ & _ & Ha0 & _ & _ & Ha1 & _).
    rewrite Hrun. unfold trace_of. simpl.
    change (archive_calls (HttpPost ?a ?b :: ?l)) with (archive_calls l).
    rewrite !archive_calls_app, Ha0, archive_calls_chunks. simpl. now rewrite Ha1.
Qed.

End Relay.

(** ** The streaming client *)

Section Streaming.
Context `{PyLib}.



End Streaming.

(** ** The conversation archive *)

Section Archive.
Context `{PyLib}.

(** No record for the session key: a record with the two entries is added
    to the table. *)
Lemma create_conversation_new (user_id session_id user_message assistant_message : string)
    (uid : UUID) (w : World) :
  uuid_of_str user_id = Some uid ->
  db_faults w = [] ->
  List.filter (ConversationRepository.session_id_is session_id) (conversations w) = [] ->
  exists row,
    value_of (ConversationService.create_conversation user_id session_id
                user_message assistant_message w) = Ok (ConversationService.model_validate row)
    /\ conversations (world_of (ConversationService.create_conversation user_id session_id
                                  user_message assistant_message w)) = conversations w ++ [row]
    /\ ConversationModel.user_id row = uid
    /\ ConversationModel.session_id row = Some session_id
    /\ ConversationModel.messages row =
       [ [("role", JString "user"); ("content", JString user_message)];
         [("role", JString "assistant"); ("content", JString assistant_message)] ].
Proof.
  intros Huid Hfaults Hrows.
  unfold ConversationService.create_conversation, ConversationRepository.get_by_session_id,
    ConversationRepository.create, bind, emit, db_session, get_world, modify, ret,
    value_of, world_of.
  rewrite Huid. simpl. rewrite Hfaults. simpl. rewrite Hrows. simpl. rewrite Hfaults. simpl.
  eexists. repeat split; reflexivity.
Qed.

(** C2, what the code does when a record exists.  The two entries are added
    to the copy of the record that was read, which is what the caller gets
    back; the table of conversations is left as it was, so the record that
    is stored does not have them. *)
Theorem create_conversation_existing (user_id session_id user_message assistant_message : string)
    (uid : UUID) (row : ConversationModel.Conversation) (w : World) :
  uuid_of_str user_id = Some uid ->
  db_faults w = [] ->
  List.filter (ConversationRepository.session_id_is session_id) (conversations w) = [row] ->
  ConversationService.create_conversation user_id session_id user_message assistant_message w =
    ([ArchiveCall user_id session_id user_message assistant_message], w,
     Ok (ConversationService.model_validate
           (ConversationService.extend_messages row
              [ [("role", JString "user"); ("content", JString user_message)];
                [("role", JString "assistant"); ("content", JString assistant_message)] ])))
  /\ value_of (ConversationRepository.get_by_session_id session_id
                 (world_of (ConversationService.create_conversation user_id session_id
                              user_message assistant_message w))) = Ok (Some row).
Proof.
  intros Huid Hfaults Hrows.
  assert (Hrun : ConversationService.create_conversation user_id session_id
                   user_message assistant_message w =
                 ([ArchiveCall user_id session_id user_message assistant_message], w,
                  Ok (ConversationService.model_validate
                        (ConversationService.extend_messages row
                           (ConversationService.exchange user_message assistant_message))))).
  { unfold ConversationService.create_conversation, ConversationRepository.get_by_session_id,
      bind, emit, db_session, get_world, ret.
    rewrite Huid. simpl. rewrite Hfaults. simpl. rewrite Hrows. reflexivity. }
  split; [exact Hrun|].
  rewrite Hrun.
  unfold ConversationRepository.get_by_session_id, bind, db_session, get_world, value_of,
    world_of. simpl. rewrite Hfaults. simpl. rewrite Hrows. reflexivity.
Qed.

End Archive.

(** ** Authentication of a connection *)

Section Authentication.
Context `{PyLib}.

Lemma quiet_users_get (entity_id : string) : quiet (UserRepository.get entity_id).
Proof.
  unfold UserRepository.get.
  apply quiet_bind; [apply quiet_db_session | intros _].
  apply quiet_bind; [apply quiet_get_world | intros w].
  destruct (uuid_of_str entity_id); [apply quiet_scalar_one_or_none | apply quiet_raise].
Qed.

Lemma quiet_get_session (session_id : string) : quiet (AuthService.get_session session_id).
Proof.
  unfold AuthService.get_session.
  apply quiet_bind; [apply quiet_redis_get | intros [[|b raw]|]]; try apply quiet_ret.
  destruct (decode_utf8 (b :: raw)); [apply quiet_users_get | apply quiet_raise].
Qed.

Lemma quiet_authenticate_ws (websocket : Ws.Handshake) : quiet (Ws._authenticate_ws websocket).
Proof.
  unfold Ws._authenticate_ws.
  destruct (Ws.presented_token websocket) as [token|]; [|apply quiet_ret].
  apply quiet_bind; [apply quiet_get_session | intros [u|]; apply quiet_ret].
Qed.

(** Unless the authentication returns a user, nothing is accepted, written
    or posted, whatever the client goes on to send. *)
Lemma unauthenticated_no_traffic (websocket : Ws.Handshake) (frames : list string) (w : World) :
  (forall user_id, value_of (Ws._authenticate_ws websocket w) <> Ok (Some user_id)) ->
  ~ In WsAccept (trace_of (Ws.websocket_endpoint websocket frames w))
  /\ sent (trace_of (Ws.websocket_endpoint websocket frames w)) = []
  /\ posts (trace_of (Ws.websocket_endpoint websocket frames w)) = []
  /\ archive_calls (trace_of (Ws.websocket_endpoint websocket frames w)) = [].
Proof.
  intros Hfail. unfold Ws.websocket_endpoint.
  rewrite trace_bind, (quiet_authenticate_ws websocket w).
  destruct (value_of (Ws._authenticate_ws websocket w)) as [[user_id|]|e].
  - now destruct (Hfail user_id).
  - simpl. repeat split; try reflexivity. intros [Habs|[]]. discriminate.
  - simpl. repeat split; try reflexivity. intros [].
Qed.

(** C4.  When the handshake carries no token, neither in the query string
    nor in the cookie, or carries one that [get_session] does not resolve to
    a user, the only thing the endpoint does to the socket is to close it
    with code 1008: the connection is not accepted, nothing is written and
    no frame is read, whatever frames the client would send. *)
Theorem unauthenticated_connection_closed (websocket : Ws.Handshake) (frames : list string)
    (w : World) :
  ((Ws.query_token websocket = None /\ Ws.cookie_token websocket = None)
   \/ exists token, Ws.presented_token websocket = Some token
        /\ value_of (AuthService.get_session token w) = Ok None) ->
  trace_of (Ws.websocket_endpoint websocket frames w) = [WsClose 1008]
  /\ value_of (Ws.websocket_endpoint websocket frames w) = Ok tt
  /\ ~ In WsAccept (trace_of (Ws.websocket_endpoint websocket frames w))
  /\ sent (trace_of (Ws.websocket_endpoint websocket frames w)) = []
  /\ posts (trace_of (Ws.websocket_endpoint websocket frames w)) = []
  /\ (forall frames', Ws.websocket_endpoint websocket frames' w =
                      Ws.websocket_endpoint websocket frames w).
Proof.
  intros Hfail.
  assert (Hauth : exists w', Ws._authenticate_ws websocket w = ([], w', Ok None)).
  { destruct Hfail as [[Hq Hc]|(token & Htoken & Hnone)].
    - exists w. unfold Ws._authenticate_ws, Ws.presented_token. rewrite Hq, Hc. reflexivity.
    - exists (world_of (AuthService.get_session token w)).
      unfold Ws._authenticate_ws. rewrite Htoken.
      rewrite (bind_ok _ _ w (world_of (AuthService.get_session token w)) [] None).
      + reflexivity.
      + rewrite <- Hnone, <- (quiet_get_session token w). apply run_eta. }
  destruct Hauth as (w' & Hauth).
  assert (Hrun : forall fs, Ws.websocket_endpoint websocket fs w = ([WsClose 1008], w', Ok tt)).
  { intros fs. unfold Ws.websocket_endpoint.
    rewrite (bind_ok _ _ w w' [] None Hauth). reflexivity. }
  rewrite Hrun. unfold trace_of, value_of. simpl.
  repeat split; try reflexivity.
  - intros [Habs|[]]. discriminate.
  - intros frames'. now rewrite Hrun.
Qed.

End Authentication.

(** ** The session resolver *)

Section Sessions.
Context `{PyLib}.

Lemma redis_get_run (key : string) (w : World) :
  redis_get key w = ([], w, Ok (live_value w key)).
Proof.
  unfold redis_get, live_value.
  destruct (redis w !! key) as [[v expiry]|]; [|reflexivity].
  destruct (clock w <? expiry)%Z; reflexivity.
Qed.

(** A call that finds a live value which is not empty returns its text and
    changes nothing. *)
Lemma get_or_create_session_found (user_id key : string) (b : Byte.byte)
    (raw : list Byte.byte) (w : World) :
  live_value w (SessionService._redis_key user_id) = Some (b :: raw) ->
  decode_utf8 (b :: raw) = Some key ->
  SessionService.get_or_create_session user_id w = ([], w, Ok key).
Proof.
  intros Hlive Hdecode. unfold SessionService.get_or_create_session, bind.
  rewrite redis_get_run, Hlive, Hdecode. reflexivity.
Qed.

(** A call that finds no live value, or an empty one, stores and returns
    the key made from the user identity. *)
Lemma get_or_create_session_created (user_id : string) (w : World) :
  live_value w (SessionService._redis_key user_id) = None
  \/ live_value w (SessionService._redis_key user_id) = Some [] ->
  value_of (SessionService.get_or_create_session user_id w) = Ok ("bluefairy:" +:+ user_id)
  /\ redis (world_of (SessionService.get_or_create_session user_id w)) =
     <[SessionService._redis_key user_id :=
         (encode_utf8 ("bluefairy:" +:+ user_id), (clock w + 2592000)%Z)]> (redis w)
  /\ clock (world_of (SessionService.get_or_create_session user_id w)) = clock w.
Proof.
  intros Hlive. unfold SessionService.get_or_create_session, bind.
  rewrite redis_get_run.
  destruct Hlive as [-> | ->]; repeat split; reflexivity.
Qed.

Lemma repeated_calls_live (user_id key : string) (b : Byte.byte) (raw : list Byte.byte)
    (expiry : Z) (times : list Z) (w : World) :
  redis w !! SessionService._redis_key user_id = Some (b :: raw, expiry) ->
  decode_utf8 (b :: raw) = Some key ->
  Forall (fun t => (t < expiry)%Z) times ->
  repeated_calls user_id times w = List.map (fun _ => Ok key) times.
Proof.
  intros Hstored Hdecode Htimes. revert w Hstored.
  induction Htimes as [|t later Ht Hlater IH]; intros w Hstored; [reflexivity|].
  simpl.
  assert (Hlive : live_value (set_clock t w) (SessionService._redis_key user_id)
                  = Some (b :: raw)).
  { unfold live_value. simpl. rewrite Hstored.
    apply Z.ltb_lt in Ht. now rewrite Ht. }
  rewrite (get_or_create_session_found user_id key b raw (set_clock t w) Hlive Hdecode).
  unfold value_of, world_of. simpl. f_equal. apply IH. exact Hstored.
Qed.

(** C5.  With a UTF-8 codec that gives back what it encoded, and a stored
    value (if there is a live one) that decodes: the first call returns a
    key; the mapping it leaves in the store is live at the time of the call,
    and every later call made before that mapping expires returns the same
    key.  When the first call finds no live value the key is
    ["bluefairy:" + user_id], a function of the user identity alone. *)
Theorem get_or_create_session_idempotent (user_id : string) (w : World) :
  (forall s, decode_utf8 (encode_utf8 s) = Some s) ->
  (forall s, encode_utf8 s = [] -> s = "") ->
  (forall raw, live_value w (SessionService._redis_key user_id) = Some raw ->
               decode_utf8 raw <> None) ->
  exists key raw expiry,
    value_of (SessionService.get_or_create_session user_id w) = Ok key
    /\ redis (world_of (SessionService.get_or_create_session user_id w))
         !! SessionService._redis_key user_id = Some (raw, expiry)
    /\ (clock w < expiry)%Z
    /\ (forall times, Forall (fun t => (t < expiry)%Z) times ->
          repeated_calls user_id times
            (world_of (SessionService.get_or_create_session user_id w)) =
          List.map (fun _ => Ok key) times)
    /\ (live_value w (SessionService._redis_key user_id) = None ->
          key = OpenClawService.create_session_key user_id
          /\ key = "bluefairy:" +:+ user_id).
Proof.
  intros Hcodec Hnil Hdecodes.
  destruct (live_value w (SessionService._redis_key user_id)) as [[|b raw]|] eqn:Hlive.
  - (* an empty value counts as none *)
    destruct (get_or_create_session_created user_id w (or_intror Hlive)) as (Hval & Hredis & _).
    destruct (encode_utf8 ("bluefairy:" +:+ user_id)) as [|b raw] eqn:Henc.
    { apply Hnil in Henc. discriminate. }
    exists ("bluefairy:" +:+ user_id), (b :: raw), (clock w + 2592000)%Z.
    split; [exact Hval|]. split; [rewrite Hredis; apply lookup_insert_eq|].
    split; [lia|]. split; [|discriminate].
    intros times Htimes.
    apply (repeated_calls_live user_id _ b raw (clock w + 2592000)%Z); [| |exact Htimes].
    + rewrite Hredis. apply lookup_insert_eq.
    + rewrite <- Henc. apply Hcodec.
  - (* a live value: it is returned *)
    destruct (decode_utf8 (b :: raw)) as [key|] eqn:Hdecode.
    2:{ now destruct (Hdecodes (b :: raw) eq_refl). }
    rewrite (get_or_create_session_found user_id key b raw w Hlive Hdecode).
    unfold live_value in Hlive.
    destruct (redis w !! SessionService._redis_key user_id) as [[v expiry]|] eqn:Hstored;
      [|discriminate].
    destruct (clock w <? expiry)%Z eqn:Hclock; [|discriminate].
    injection Hlive as ->. apply Z.ltb_lt in Hclock.
    exists key, (b :: raw), expiry. unfold value_of, world_of. simpl.
    split; [reflexivity|]. split; [exact Hstored|]. split; [exact Hclock|].
    split; [|discriminate].
    intros times Htimes.
    apply (repeated_calls_live user_id key b raw expiry); assumption.
  - (* no live value: the key is created *)
    destruct (get_or_create_session_created user_id w (or_introl Hlive)) as (Hval & Hredis & _).
    destruct (encode_utf8 ("bluefairy:" +:+ user_id)) as [|b raw] eqn:Henc.
    { apply Hnil in Henc. discriminate. }
    exists ("bluefairy:" +:+ user_id), (b :: raw), (clock w + 2592000)%Z.
    split; [exact Hval|]. split; [rewrite Hredis; apply lookup_insert_eq|].
    split; [lia|]. split; [|intros _; split; reflexivity].
    intros times Htimes.
    apply (repeated_calls_live user_id _ b raw (clock w + 2592000)%Z); [| |exact Htimes].
    + rewrite Hredis. apply lookup_insert_eq.
    + rewrite <- Henc. apply Hcodec.
Qed.

End Sessions.

(** ** The sample library: its codec gives back what it encoded *)

Section SampleCodec.
Import Sample.

Lemma sample_decode_char (c : ascii) (rest : list Byte.byte) :
  decode (encode_char c ++ rest) = option_map (String c) (decode rest).
Proof. destruct c as [[] [] [] [] [] [] [] []]; reflexivity. Qed.

Lemma sample_decode_encode (s : string) : decode (encode s) = Some s.
Proof.
  induction s as [|c s IH]; [reflexivity|].
  simpl. now rewrite sample_decode_char, IH.
Qed.

Lemma sample_encode_nil (s : string) : encode s = [] -> s = "".
Proof.
  destruct s as [|c s]; [reflexivity|].
  simpl. unfold encode_char. destruct (N_of_ascii c <? 128)%N; discriminate.
Qed.

End SampleCodec.

(** ** The properties at the examples *)

Section Examples.
Import Sample.

(** The scenario of the specification: a valid token, a ping, a message
    whose answer comes in two fragments, a blank message, an unknown type
    and a frame that is not JSON; then the client leaves. *)
Example scenario_hello :
  trace_of (Ws.websocket_endpoint tok_handshake
              [ping_frame; hello_frame; blank_frame; dance_frame; "garbage"] world_hi) =
  [ WsAccept;
    LogRecord INFO ("WebSocket connected for user " +:+ alice_str) None;
    LogRecord INFO ("Created OpenClaw session " +:+ session_key0
                    +:+ " for user " +:+ alice_str) None;
    WsSend Pong;
    HttpPost session_key0 "hello";
    WsSend (Chunk "Hi"); WsSend (Chunk " there"); WsSend (Done "Hi there");
    ArchiveCall alice_str session_key0 "hello" "Hi there";
    WsSend (Error "Empty message");
    WsSend (Error "Unknown message type: dance");
    WsSend (Error "Invalid JSON");
    LogRecord INFO ("WebSocket disconnected for user " +:+ alice_str) None ].
Proof. vm_compute. reflexivity. Qed.

Lemma hello_is_message : message_frame hello_frame "  hello ".
Proof.
  exists [("type", JString "message"); ("content", JString "  hello ")].
  repeat split; reflexivity.
Defined.

Lemma blank_is_message : message_frame blank_frame "   ".
Proof.
  exists [("type", JString "message"); ("content", JString "   ")].
  repeat split; reflexivity.
Defined.

Lemma hello_streams : streams session_key0 "hello" world_hi ["Hi"; " there"].
Proof.
  exists {| OpenClawService.yields := [JString "Hi"; JString " there"];
            OpenClawService.finish := None |}.
  repeat split; reflexivity.
Defined.

Lemma hello_streams_db_down : streams session_key0 "hello" world_db_down ["Hi"; " there"].
Proof.
  exists {| OpenClawService.yields := [JString "Hi"; JString " there"];
            OpenClawService.finish := None |}.
  repeat split; reflexivity.
Defined.

Lemma hello_not_blank : strip "  hello " <> "".
Proof. intros Heq. discriminate Heq. Defined.

Lemma relay_chunks_then_done_witness :
  sent (trace_of (Ws.handle_frame alice_str session_key0 hello_frame world_hi)) =
    [Chunk "Hi"; Chunk " there"; Done "Hi there"]
  /\ value_of (Ws.handle_frame alice_str session_key0 hello_frame world_hi) = Ok tt.
Proof.
  exact (relay_chunks_then_done alice_str session_key0 hello_frame "  hello " world_hi
           ["Hi"; " there"] hello_is_message hello_not_blank hello_streams).
Defined.

Lemma create_conversation_existing_witness :
  ConversationService.create_conversation alice_str session_key0 "again" "Sure" world_archived =
    ([ArchiveCall alice_str session_key0 "again" "Sure"], world_archived,
     Ok (ConversationService.model_validate
           (ConversationService.extend_messages row0
              [ [("role", JString "user"); ("content", JString "again")];
                [("role", JString "assistant"); ("content", JString "Sure")] ])))
  /\ value_of (ConversationRepository.get_by_session_id session_key0
                 (world_of (ConversationService.create_conversation alice_str session_key0
                              "again" "Sure" world_archived))) = Ok (Some row0).
Proof.
  apply (create_conversation_existing alice_str session_key0 "again" "Sure" alice_id row0
           world_archived); reflexivity.
Defined.



Lemma unauthenticated_connection_closed_witness :
  trace_of (Ws.websocket_endpoint no_token_handshake [ping_frame; hello_frame] world_hi) =
    [WsClose 1008]
  /\ value_of (Ws.websocket_endpoint no_token_handshake [ping_frame; hello_frame] world_hi)
     = Ok tt
  /\ ~ In WsAccept
         (trace_of (Ws.websocket_endpoint no_token_handshake [ping_frame; hello_frame] world_hi))
  /\ sent (trace_of (Ws.websocket_endpoint no_token_handshake [ping_frame; hello_frame] world_hi))
     = []
  /\ posts (trace_of (Ws.websocket_endpoint no_token_handshake [ping_frame; hello_frame] world_hi))
     = []
  /\ (forall frames',
        Ws.websocket_endpoint no_token_handshake frames' world_hi =
        Ws.websocket_endpoint no_token_handshake [ping_frame; hello_frame] world_hi).
Proof.
  apply (unauthenticated_connection_closed no_token_handshake [ping_frame; hello_frame] world_hi).
  left. split; reflexivity.
Defined.

(** A token the store does not know closes the connection as well. *)
Example stale_token_closed :
  trace_of (Ws.websocket_endpoint stale_token_handshake [ping_frame] world_hi) = [WsClose 1008].
Proof. vm_compute. reflexivity. Qed.

Lemma get_or_create_session_idempotent_witness :
  exists key raw expiry,
    value_of (SessionService.get_or_create_session alice_str world0) = Ok key
    /\ redis (world_of (SessionService.get_or_create_session alice_str world0))
         !! SessionService._redis_key alice_str = Some (raw, expiry)
    /\ (clock world0 < expiry)%Z
    /\ (forall times, Forall (fun t => (t < expiry)%Z) times ->
          repeated_calls alice_str times
            (world_of (SessionService.get_or_create_session alice_str world0)) =
          List.map (fun _ => Ok key) times)
    /\ (live_value world0 (SessionService._redis_key alice_str) = None ->
          key = OpenClawService.create_session_key alice_str
          /\ key = "bluefairy:" +:+ alice_str).
Proof.
  apply (get_or_create_session_idempotent alice_str world0).
  - exact sample_decode_encode.
  - exact sample_encode_nil.
  - intros raw Hlive. vm_compute in Hlive. discriminate Hlive.
Defined.

(** Three calls, the last one a second before the mapping expires, and one
    call after it has expired: the key is made again, and is the same. *)
Example repeated_calls_alice :
  repeated_calls alice_str [100; 5000; 2592099; 2592100]%Z world0 =
  [Ok session_key0; Ok session_key0; Ok session_key0; Ok session_key0].
Proof. vm_compute. reflexivity. Qed.

Lemma upstream_status_error_witness :
  value_of (OpenClawService.send_message session_key0 (strip "  hello ") world_503) =
    Ok {| OpenClawService.yields := [];
          OpenClawService.finish := Some (OpenClawAPIException "OpenClaw returned 503") |}
  /\ sent (trace_of (Ws.handle_frame alice_str session_key0 hello_frame world_503)) =
       [Error "Failed to get response from AI"]
  /\ archive_calls (trace_of (Ws.handle_frame alice_str session_key0 hello_frame world_503)) = []
  /\ conversations (world_of (Ws.handle_frame alice_str session_key0 hello_frame world_503)) =
     conversations world_503
  /\ value_of (Ws.handle_frame alice_str session_key0 hello_frame world_503) = Ok tt.
Proof.
  apply (upstream_status_error alice_str session_key0 hello_frame "  hello " world_503
           503 [] [] EndOfStream [] hello_is_message hello_not_blank eq_refl).
  intros Heq. discriminate Heq.
Defined.

Lemma archive_failure_swallowed_witness :
  sent (trace_of (Ws.handle_frame alice_str session_key0 hello_frame world_db_down)) =
    [Chunk "Hi"; Chunk " there"; Done "Hi there"]
  /\ (forall message,
        ~ In (Error message)
            (sent (trace_of (Ws.handle_frame alice_str session_key0 hello_frame world_db_down))))
  /\ In (ERROR, "Failed to persist conversation", Some DatabaseError)
        (logged (trace_of (Ws.handle_frame alice_str session_key0 hello_frame world_db_down)))
  /\ value_of (Ws.handle_frame alice_str session_key0 hello_frame world_db_down) = Ok tt.
Proof.
  exact (archive_failure_swallowed alice_str session_key0 hello_frame "  hello " world_db_down
           ["Hi"; " there"] DatabaseError hello_is_message hello_not_blank
           hello_streams_db_down eq_refl).
Defined.

Lemma blank_message_rejected_witness :
  Ws.handle_frame alice_str session_key0 blank_frame world_hi =
    ([WsSend (Error "Empty message")], world_hi, Ok tt)
  /\ sent (trace_of (Ws.handle_frame alice_str session_key0 blank_frame world_hi)) =
     [Error "Empty message"]
  /\ posts (trace_of (Ws.handle_frame alice_str session_key0 blank_frame world_hi)) = []
  /\ Ws.receive_loop alice_str session_key0 [blank_frame; ping_frame] world_hi =
     (WsSend (Error "Empty message")
        :: trace_of (Ws.receive_loop alice_str session_key0 [ping_frame] world_hi),
      world_of (Ws.receive_loop alice_str session_key0 [ping_frame] world_hi),
      value_of (Ws.receive_loop alice_str session_key0 [ping_frame] world_hi)).
Proof.
  exact (blank_message_rejected alice_str session_key0 blank_frame "   " [ping_frame] world_hi
           blank_is_message eq_refl).
Defined.

Lemma bad_frame_reported_witness :
  exists message,
    Ws.handle_frame alice_str session_key0 dance_frame world_hi =
      ([WsSend (Error message)], world_hi, Ok tt)
    /\ (json_loads dance_frame = JSONDecodeError -> message = "Invalid JSON")
    /\ (forall fields, json_loads dance_frame = Loaded (JObject fields) ->
          message = "Unknown message type: " +:+ py_str (dict_get fields "type")
          /\ (forall t, dict_get fields "type" = JString t ->
                message = "Unknown message type: " +:+ t)
          /\ (dict_lookup fields "type" = None -> message = "Unknown message type: None"))
    /\ Ws.receive_loop alice_str session_key0 [dance_frame; ping_frame] world_hi =
       (WsSend (Error message)
          :: trace_of (Ws.receive_loop alice_str session_key0 [ping_frame] world_hi),
        world_of (Ws.receive_loop alice_str session_key0 [ping_frame] world_hi),
        value_of (Ws.receive_loop alice_str session_key0 [ping_frame] world_hi)).
Proof.
  apply (bad_frame_reported alice_str session_key0 dance_frame [ping_frame] world_hi).
  right. exists [("type", JString "dance")].
  split; [reflexivity|].
  split; intros Heq; discriminate Heq.
Defined.

(** The two error events, by evaluation. *)
Example bad_frames_events :
  sent (trace_of (Ws.receive_loop alice_str session_key0 ["garbage"; dance_frame; ping_frame]
                    world_hi)) =
  [Error "Invalid JSON"; Error "Unknown message type: dance"; Pong].
Proof. vm_compute. reflexivity. Qed.

(** C9 at a frame of 2000 opening brackets, on which [json.loads] raises
    [RecursionError]: nothing is written and the [ping] after it is never
    answered. *)
Lemma unparseable_frame_fatal_witness :
  @Ws.handle_frame Sample2.lib alice_str session_key0 Sample2.deep_frame world_hi
    = ([], world_hi, Raise RecursionError)
  /\ @Ws.receive_loop Sample2.lib alice_str session_key0 [Sample2.deep_frame; ping_frame]
       world_hi = ([], world_hi, Raise RecursionError)
  /\ sent (trace_of (@Ws.receive_loop Sample2.lib alice_str session_key0
                       [Sample2.deep_frame; ping_frame] world_hi)) = []
  /\ (forall msg, RecursionError <> OpenClawAPIException msg)
  /\ (RecursionError = RecursionError \/ RecursionError = ValueError).
Proof.
  exact (@unparseable_frame_fatal Sample2.lib alice_str session_key0 Sample2.deep_frame
           [ping_frame] world_hi NestingTooDeep eq_refl).
Defined.

(** The same frame on a connection that was accepted: the endpoint ends
    with the error, and the frames after it get no answer. *)
Example deep_frame_ends_connection :
  sent (trace_of (@Ws.websocket_endpoint Sample2.lib tok_handshake
                    [ping_frame; Sample2.deep_frame; ping_frame] world_hi)) = [Pong]
  /\ value_of (@Ws.websocket_endpoint Sample2.lib tok_handshake
                 [ping_frame; Sample2.deep_frame; ping_frame] world_hi) = Raise RecursionError.
Proof. vm_compute. split; reflexivity. Qed.

Lemma stripped_content_used_witness :
  posts (trace_of (Ws.handle_frame alice_str session_key0 hello_frame world_hi)) =
    [(session_key0, "hello")]
  /\ (forall call,
        In call (archive_calls (trace_of (Ws.handle_frame alice_str session_key0 hello_frame
                                            world_hi))) ->
        exists full_response, call = (alice_str, session_key0, "hello", full_response))
  /\ (forall frags, streams session_key0 (strip "  hello ") world_hi frags ->
        archive_calls (trace_of (Ws.handle_frame alice_str session_key0 hello_frame world_hi)) =
        [(alice_str, session_key0, "hello", concat_fragments frags)]).
Proof.
  exact (stripped_content_used alice_str session_key0 hello_frame "  hello " world_hi
           hello_is_message hello_not_blank).
Defined.

(** What is stored for the message of the scenario is the stripped text. *)
Example stripped_content_stored :
  List.map ConversationModel.messages
    (conversations (world_of (Ws.handle_frame alice_str session_key0 hello_frame world_hi))) =
  [ [ [("role", JString "user"); ("content", JString "hello")];
      [("role", JString "assistant"); ("content", JString "Hi there")] ] ].
Proof. vm_compute. reflexivity. Qed.

End Examples.

(** * Further properties of the code *)

(** ** The relay: every way a frame can end *)

Section RelayOutcomes.
Context `{PyLib}.

(** [forward_chunks] either forwards every value, all of them texts, and
    returns their concatenation, or stops at the first value that is not a
    text. *)
Lemma forward_chunks_cases (chunks : list json) (acc : string) (w : World) :
  (exists texts,
     chunks = List.map JString texts /\
     Ws.forward_chunks chunks acc w =
     (List.map (fun s => WsSend (Chunk s)) texts, w, Ok (acc +:+ concat_fragments texts)))
  \/ (exists texts bad later,
        chunks = List.map JString texts ++ bad :: later /\
        (forall s, bad <> JString s) /\
        Ws.forward_chunks chunks acc w =
        (List.map (fun s => WsSend (Chunk s)) texts, w, Raise TypeError)).
Proof.
  revert acc. induction chunks as [|chunk chunks IH]; intros acc.
  - left. exists []. split; [reflexivity|]. simpl. unfold ret. now rewrite append_empty.
  - destruct chunk as [|b|n|f|s|items|fields].
    5:{ destruct (IH (acc +:+ s))
          as [(texts & -> & Hrun)|(texts & bad & later & -> & Hbad & Hrun)].
        - left. exists (s :: texts). split; [reflexivity|].
          simpl. unfold bind, emit. rewrite Hrun. simpl.
          change (concat_fragments (s :: texts)) with (s +:+ concat_fragments texts).
          now rewrite append_assoc.
        - right. exists (s :: texts), bad, later.
          split; [reflexivity|]. split; [exact Hbad|].
          simpl. unfold bind, emit. now rewrite Hrun. }
    all: right; eexists [], _, chunks; (split; [reflexivity|]);
      (split; [intros s0; discriminate | reflexivity]).
Qed.

(** The events [relay_message] writes on the socket and the calls it makes
    to the archive, in each of the ways it can end. *)
Lemma relay_message_outcome (user_id session_key content : string) (w : World) :
  exists texts final,
    sent (trace_of (Ws.relay_message user_id session_key content w)) =
      List.map Chunk texts ++ [final]
    /\ value_of (Ws.relay_message user_id session_key content w) = Ok tt
    /\ ((final = Done (concat_fragments texts)
         /\ archive_calls (trace_of (Ws.relay_message user_id session_key content w)) =
            [(user_id, session_key, content, concat_fragments texts)])
        \/ ((final = Error "Failed to get response from AI"
             \/ final = Error "Internal server error")
            /\ archive_calls (trace_of (Ws.relay_message user_id session_key content w)) = [])).
Proof.
  destruct (send_message_run session_key content w) as (logs0 & gen & Hsend & Hs0 & Hp0 & Ha0).
  remember (world_of (OpenClawService.send_message session_key content w)) as w0 eqn:Hw0.
  unfold Ws.relay_message, try_except.
  rewrite (bind_ok _ _ w w0 _ gen Hsend).
  destruct (forward_chunks_cases (OpenClawService.yields gen) "" w0)
    as [(texts & _ & Hfwd)|(texts & bad & later & _ & _ & Hfwd)].
  - rewrite (bind_ok _ _ w0 w0 _ _ Hfwd).
    change ("" +:+ concat_fragments texts) with (concat_fragments texts).
    destruct (OpenClawService.finish gen) as [e|].
    + destruct e as [msg| | | | | | | |];
        [exists texts, (Error "Failed to get response from AI")
        | exists texts, (Error "Internal server error") ..];
        unfold trace_of, world_of, value_of, raise, bind, emit; simpl;
        rewrite ?sent_app, ?archive_calls_app, ?Hs0, ?Ha0, ?sent_chunks, ?archive_calls_chunks;
        simpl; rewrite ?app_nil_r;
        (split; [reflexivity|]); (split; [reflexivity|]); right; auto.
    + destruct (persist_exchange_run user_id session_key content (concat_fragments texts) w0)
        as (logs1 & w1 & Hrun & Hs1 & Hp1 & Ha1 & _).
      exists texts, (Done (concat_fragments texts)).
      unfold trace_of, world_of, value_of, bind, emit; simpl. rewrite Hrun. simpl.
      rewrite ?sent_app, ?archive_calls_app, ?Hs0, ?Ha0, ?sent_chunks, ?archive_calls_chunks.
      simpl. rewrite Hs1, Ha1. split; [reflexivity|]. split; [reflexivity|]. left. auto.
  - rewrite (bind_raise _ _ w0 w0 _ _ Hfwd).
    exists texts, (Error "Internal server error").
    unfold trace_of, world_of, value_of, bind, emit; simpl.
    rewrite ?sent_app, ?archive_calls_app, ?Hs0, ?Ha0, ?sent_chunks, ?archive_calls_chunks.
    simpl. split; [reflexivity|]. split; [reflexivity|]. right. auto.
Qed.

End RelayOutcomes.

Section RelayFrames.
Context `{PyLib}.

(** The ways [handle_frame] can go: one event and nothing else, the relay
    of a content that was stripped and is not empty, or an exception before
    anything is done: [AttributeError] for a decoded frame the handler
    cannot read, or the error [json.loads] raised that is not a
    [JSONDecodeError]. *)
Lemma handle_frame_cases (user_id session_key raw : string) (w : World) :
  (exists ev, Ws.handle_frame user_id session_key raw w = ([WsSend ev], w, Ok tt))
  \/ (exists text, strip text <> ""
        /\ Ws.handle_frame user_id session_key raw w =
           Ws.relay_message user_id session_key (strip text) w)
  \/ (exists j, json_loads raw = Loaded j
        /\ Ws.handle_frame user_id session_key raw w = ([], w, Raise AttributeError))
  \/ (exists f, json_loads raw = Escaped f
        /\ Ws.handle_frame user_id session_key raw w = ([], w, Raise (exn_of_fault f))).
Proof.
  unfold Ws.handle_frame.
  destruct (json_loads raw) as [j| |f];
    [|left; eexists; reflexivity|do 3 right; exists f; split; reflexivity].
  destruct j as [|b|n|fl|s|items|fields];
    try (right; right; left; eexists; split; reflexivity).
  destruct (Ws.is_str (dict_get fields "type") "ping"); [left; eexists; reflexivity|].
  destruct (Ws.is_str (dict_get fields "type") "message"); [|left; eexists; reflexivity].
  destruct (dict_get_default fields "content" (JString "")) as [|b|n|fl|text|items|fields'];
    try (right; right; left; eexists; split; reflexivity).
  destruct (String.eqb (strip text) "") eqn:Hblank; [left; eexists; reflexivity|].
  right. left. exists text. split; [|reflexivity]. now apply String.eqb_neq.
Qed.

(** X1.  A frame that decodes to a mapping of type [ping] is answered with
    exactly one [pong]; nothing is posted, archived or logged, the world is
    unchanged and the loop reads the next frame. *)
Theorem ping_answered (user_id session_key raw : string) (fields : list (string * json))
    (rest : list string) (w : World) :
  json_loads raw = Loaded (JObject fields) ->
  dict_get fields "type" = JString "ping" ->
  Ws.handle_frame user_id session_key raw w = ([WsSend Pong], w, Ok tt)
  /\ Ws.receive_loop user_id session_key (raw :: rest) w =
     (WsSend Pong :: trace_of (Ws.receive_loop user_id session_key rest w),
      world_of (Ws.receive_loop user_id session_key rest w),
      value_of (Ws.receive_loop user_id session_key rest w)).
Proof.
  intros Hload Htype.
  assert (Hrun : Ws.handle_frame user_id session_key raw w = ([WsSend Pong], w, Ok tt)).
  { unfold Ws.handle_frame. rewrite Hload, Htype. reflexivity. }
  split; [exact Hrun|].
  rewrite receive_loop_next; rewrite Hrun; reflexivity.
Qed.

(** X2.  Whatever the backend and the database do, a [message] frame with
    a content that is not blank is answered with some [chunk] events
    followed by exactly one closing event, [done] or an error, and the
    handler goes on; the archive is called, once, exactly when the closing
    event is [done], and then with the text that [done] carries. *)
Theorem message_frame_outcome (user_id session_key raw text : string) (w : World) :
  message_frame raw text ->
  strip text <> "" ->
  exists texts final,
    sent (trace_of (Ws.handle_frame user_id session_key raw w)) = List.map Chunk texts ++ [final]
    /\ value_of (Ws.handle_frame user_id session_key raw w) = Ok tt
    /\ ((final = Done (concat_fragments texts)
         /\ archive_calls (trace_of (Ws.handle_frame user_id session_key raw w)) =
            [(user_id, session_key, strip text, concat_fragments texts)])
        \/ ((final = Error "Failed to get response from AI"
             \/ final = Error "Internal server error")
            /\ archive_calls (trace_of (Ws.handle_frame user_id session_key raw w)) = [])).
Proof.
  intros Hframe Hcontent.
  rewrite (handle_frame_message user_id session_key raw text w Hframe).
  apply String.eqb_neq in Hcontent. rewrite Hcontent.
  apply relay_message_outcome.
Qed.

(** Finds a given entry in a list put together with [++] and [::]. *)
Ltac find_in :=
  first [ left; reflexivity
        | apply in_or_app; right; find_in
        | right; find_in ].

Lemma forward_chunks_until (frags : list string) (bad : json) (later : list json)
    (acc : string) (w : World) :
  (forall s, bad <> JString s) ->
  Ws.forward_chunks (List.map JString frags ++ bad :: later) acc w =
  (List.map (fun s => WsSend (Chunk s)) frags, w, Raise TypeError).
Proof.
  intros Hbad. revert acc. induction frags as [|s frags IH]; intros acc.
  - apply non_text_chunk_raises. exact Hbad.
  - simpl. unfold bind, emit. now rewrite IH.
Qed.

(** X3.  When the stream of the backend ends with an exception that is not
    [OpenClawAPIException] (the backend cannot be reached, the connection
    breaks or times out in the middle), the fragments yielded before it
    have been forwarded, then one error event [Internal server error] is
    written; no [done] is written and the archive is not called. *)
Theorem broken_stream_reported (user_id session_key raw text : string) (w : World)
    (frags : list string) (e : exn) :
  message_frame raw text ->
  strip text <> "" ->
  streams_then_fails session_key (strip text) w frags e ->
  (forall msg, e <> OpenClawAPIException msg) ->
  sent (trace_of (Ws.handle_frame user_id session_key raw w)) =
    List.map Chunk frags ++ [Error "Internal server error"]
  /\ archive_calls (trace_of (Ws.handle_frame user_id session_key raw w)) = []
  /\ In (ERROR, "Unexpected error streaming from OpenClaw", Some e)
        (logged (trace_of (Ws.handle_frame user_id session_key raw w)))
  /\ value_of (Ws.handle_frame user_id session_key raw w) = Ok tt.
Proof.
  intros Hframe Hcontent (gen & Hgen & Hyields & Hfinish) Hkind.
  rewrite (handle_frame_message user_id session_key raw text w Hframe).
  apply String.eqb_neq in Hcontent. rewrite Hcontent.
  destruct (send_message_run session_key (strip text) w) as (logs0 & gen' & Hsend & Hs0 & _ & Ha0).
  assert (gen' = gen) as ->.
  { rewrite Hsend in Hgen. unfold value_of in Hgen. simpl in Hgen. congruence. }
  unfold Ws.relay_message, try_except.
  rewrite (bind_ok _ _ w _ _ gen Hsend). rewrite Hyields, Hfinish.
  rewrite (bind_ok _ _ _ _ _ _ (forward_chunks_texts frags "" _)).
  unfold trace_of, world_of, value_of, raise, bind, emit. simpl.
  destruct e as [msg| | | | | | | |]; [now destruct (Hkind msg)|..];
    simpl; rewrite ?sent_app, ?archive_calls_app, ?logged_app, ?Hs0, ?Ha0, ?sent_chunks,
             ?archive_calls_chunks; simpl; rewrite ?app_nil_r;
    (split; [reflexivity|]); (split; [reflexivity|]); (split; [|reflexivity]);
    find_in.
Qed.

(** X4.  When the streaming client yields a value that is not a text (a
    number or a list taken from a mapping), the texts yielded before it have
    been forwarded, the value itself and everything after it are not, one
    error event [Internal server error] is written, no [done] is written
    and the archive is not called. *)
Theorem non_text_fragment_reported (user_id session_key raw text : string) (w : World)
    (frags : list string) (bad : json) :
  message_frame raw text ->
  strip text <> "" ->
  streams_then_yields session_key (strip text) w frags bad ->
  sent (trace_of (Ws.handle_frame user_id session_key raw w)) =
    List.map Chunk frags ++ [Error "Internal server error"]
  /\ archive_calls (trace_of (Ws.handle_frame user_id session_key raw w)) = []
  /\ value_of (Ws.handle_frame user_id session_key raw w) = Ok tt.
Proof.
  intros Hframe Hcontent (gen & later & Hgen & Hyields & Hbad).
  rewrite (handle_frame_message user_id session_key raw text w Hframe).
  apply String.eqb_neq in Hcontent. rewrite Hcontent.
  destruct (send_message_run session_key (strip text) w) as (logs0 & gen' & Hsend & Hs0 & _ & Ha0).
  assert (gen' = gen) as ->.
  { rewrite Hsend in Hgen. unfold value_of in Hgen. simpl in Hgen. congruence. }
  unfold Ws.relay_message, try_except.
  rewrite (bind_ok _ _ w _ _ gen Hsend). rewrite Hyields.
  rewrite (bind_raise _ _ _ _ _ _ (forward_chunks_until frags bad later "" _ Hbad)).
  unfold trace_of, world_of, value_of, bind, emit. simpl.
  rewrite ?sent_app, ?archive_calls_app, ?Hs0, ?Ha0, ?sent_chunks, ?archive_calls_chunks.
  simpl. repeat split; reflexivity.
Qed.

(** X5.  A frame that decodes to a value that is not a mapping, or to a
    [message] whose content is not a text, ends the handler with an
    [AttributeError]: nothing is written for it, the frames after it are
    never handled, and the world is unchanged. *)
Theorem unreadable_frame_ends_loop (user_id session_key raw : string) (rest : list string)
    (w : World) :
  unreadable_frame raw ->
  Ws.receive_loop user_id session_key (raw :: rest) w = ([], w, Raise AttributeError).
Proof.
  intros (j & Hload & Hshape).
  assert (Hrun : Ws.handle_frame user_id session_key raw w = ([], w, Raise AttributeError)).
  { destruct Hshape as [Hshape|(fields & -> & Htype & Hcontent)].
    - apply (non_mapping_frame_raises user_id session_key raw j w Hload Hshape).
    - unfold Ws.handle_frame. rewrite Hload, Htype. simpl.
      destruct (dict_get_default fields "content" (JString "")) as [|b|n|f|text|items|fields'];
        try reflexivity.
      now destruct (Hcontent text). }
  simpl. now rewrite (bind_raise _ _ w w [] AttributeError Hrun).
Qed.

(** X6.  A frame that does not end the handler is answered with at least
    one event.  A frame that ends it does so before anything is written or
    changed, in one of two ways: with [AttributeError], when the frame
    decoded to a value the handler cannot read, or with the error
    [json.loads] raised that is not a [JSONDecodeError] ([RecursionError]
    or [ValueError]), which no [except] clause of the handler catches. *)
Theorem frame_answered_or_fatal (user_id session_key raw : string) (w : World) :
  (value_of (Ws.handle_frame user_id session_key raw w) = Ok tt
   /\ sent (trace_of (Ws.handle_frame user_id session_key raw w)) <> []
   /\ forall f, json_loads raw <> Escaped f)
  \/ (exists j, json_loads raw = Loaded j
        /\ Ws.handle_frame user_id session_key raw w = ([], w, Raise AttributeError))
  \/ (exists e, (json_loads raw = Escaped NestingTooDeep /\ e = RecursionError
                 \/ json_loads raw = Escaped IntegerTooLong /\ e = ValueError)
        /\ Ws.handle_frame user_id session_key raw w = ([], w, Raise e)).
Proof.
  destruct (handle_frame_cases user_id session_key raw w)
    as [(ev & Hrun)|[(text & Hcontent & Hrun)|[(j & Hload & Hrun)|(f & Hload & Hrun)]]].
  - left. rewrite Hrun. split; [reflexivity|]. split; [discriminate|].
    intros f Hload. unfold Ws.handle_frame in Hrun. rewrite Hload in Hrun. discriminate.
  - left.
    assert (Hloaded : forall f, json_loads raw <> Escaped f).
    { intros f Hload.
      destruct (relay_message_outcome user_id session_key (strip text) w)
        as (texts & final & _ & Hval & _).
      rewrite <- Hrun in Hval. unfold Ws.handle_frame in Hval. rewrite Hload in Hval.
      discriminate. }
    rewrite Hrun.
    destruct (relay_message_outcome user_id session_key (strip text) w)
      as (texts & final & Hsent & Hval & _).
    split; [exact Hval|]. split; [|exact Hloaded]. rewrite Hsent. intros Hnil.
    apply app_eq_nil in Hnil. destruct Hnil as [_ Hnil]. discriminate.
  - right. left. exists j. split; assumption.
  - right. right. exists (exn_of_fault f). split; [|exact Hrun].
    destruct f; [left|right]; split; auto.
Qed.

End RelayFrames.

(** ** White space *)

Section Strip.

Lemma lstrip_head (s : string) :
  match lstrip s with
  | EmptyString => True
  | String c _ => py_isspace c = false
  end.
Proof.
  induction s as [|c s IH]; simpl; [exact I|].
  destruct (py_isspace c) eqn:Hc; [exact IH | exact Hc].
Qed.

Lemma rstrip_head (s : string) :
  match s with
  | EmptyString => True
  | String c _ => py_isspace c = false
  end ->
  match rstrip s with
  | EmptyString => s = EmptyString
  | String c _ => py_isspace c = false
  end.
Proof.
  destruct s as [|c s]; simpl; [reflexivity|].
  intros Hc. destruct (rstrip s); [rewrite Hc|]; exact Hc.
Qed.

Lemma lstrip_fixed (s : string) :
  match s with
  | EmptyString => True
  | String c _ => py_isspace c = false
  end ->
  lstrip s = s.
Proof. destruct s as [|c s]; simpl; [reflexivity|]. now intros ->. Qed.

Lemma rstrip_idempotent (s : string) : rstrip (rstrip s) = rstrip s.
Proof.
  induction s as [|c s IH]; simpl; [reflexivity|].
  destruct (rstrip s) as [|c' r] eqn:Hr.
  - destruct (py_isspace c) eqn:Hc; simpl; [reflexivity | now rewrite Hc].
  - simpl. simpl in IH. now rewrite IH.
Qed.

Lemma strip_idempotent (s : string) : strip (strip s) = strip s.
Proof.
  unfold strip.
  assert (Hfixed : lstrip (rstrip (lstrip s)) = rstrip (lstrip s)).
  { apply lstrip_fixed.
    pose proof (rstrip_head (lstrip s) (lstrip_head s)) as Hhead.
    destruct (rstrip (lstrip s)); [exact I | exact Hhead]. }
  rewrite Hfixed. apply rstrip_idempotent.
Qed.

End Strip.

(** ** The relay: what a connection sends to the backend and the archive *)

Section RelayCalls.
Context `{PyLib}.

Lemma handle_frame_posts (user_id session_key raw : string) (w : World) :
  Forall (fun p => p.1 = session_key /\ p.2 <> "" /\ strip p.2 = p.2)
    (posts (trace_of (Ws.handle_frame user_id session_key raw w)))
  /\ Forall (fun c => c.1.1.1 = user_id /\ c.1.1.2 = session_key)
       (archive_calls (trace_of (Ws.handle_frame user_id session_key raw w))).
Proof.
  destruct (handle_frame_cases user_id session_key raw w)
    as [(ev & Hrun)|[(text & Hcontent & Hrun)|[(j & _ & Hrun)|(f & _ & Hrun)]]];
    rewrite Hrun.
  - split; constructor.
  - destruct (relay_message_calls user_id session_key (strip text) w)
      as (Hposts & Harch & _).
    rewrite Hposts. split.
    + constructor; [|constructor]. simpl.
      split; [reflexivity|]. split; [exact Hcontent | apply strip_idempotent].
    + destruct Harch as [->|(full & ->)]; constructor; [|constructor].
      simpl. split; reflexivity.
  - split; constructor.
  - split; constructor.
Qed.

Lemma receive_loop_calls (user_id session_key : string) (frames : list string) (w : World) :
  Forall (fun p => p.1 = session_key /\ p.2 <> "" /\ strip p.2 = p.2)
    (posts (trace_of (Ws.receive_loop user_id session_key frames w)))
  /\ Forall (fun c => c.1.1.1 = user_id /\ c.1.1.2 = session_key)
       (archive_calls (trace_of (Ws.receive_loop user_id session_key frames w))).
Proof.
  revert w. induction frames as [|raw rest IH]; intros w.
  - split; constructor.
  - simpl. rewrite trace_bind, posts_app, archive_calls_app.
    destruct (handle_frame_posts user_id session_key raw w) as [Hp Ha].
    destruct (value_of (Ws.handle_frame user_id session_key raw w)) as [[]|e].
    + destruct (IH (world_of (Ws.handle_frame user_id session_key raw w))) as [Hp' Ha'].
      split; apply Forall_app; split; assumption.
    + split; apply Forall_app; split; try assumption; constructor.
Qed.

Lemma emit_then {A : Type} (e : effect) (k : M A) (w : World) :
  bind (emit e) (fun _ => k) w = (e :: trace_of (k w), world_of (k w), value_of (k w)).
Proof. unfold bind, emit, trace_of, world_of, value_of. now destruct (k w) as [[t w'] r]. Qed.

Lemma trace_of_run {A : Type} (t : list effect) (w : World) (r : result A) :
  trace_of (t, w, r) = t.
Proof. reflexivity. Qed.

Lemma value_of_run {A : Type} (t : list effect) (w : World) (r : result A) :
  value_of (t, w, r) = r.
Proof. reflexivity. Qed.

Lemma world_of_run {A : Type} (t : list effect) (w : World) (r : result A) :
  world_of (t, w, r) = w.
Proof. reflexivity. Qed.

Lemma get_or_create_session_trace (user_id : string) (w : World) :
  posts (trace_of (SessionService.get_or_create_session user_id w)) = []
  /\ archive_calls (trace_of (SessionService.get_or_create_session user_id w)) = []
  /\ sent (trace_of (SessionService.get_or_create_session user_id w)) = [].
Proof.
  unfold SessionService.get_or_create_session, bind, redis_get, redis_setex, modify, emit, ret,
    raise, trace_of.
  destruct (redis w !! SessionService._redis_key user_id) as [[v expiry]|]; simpl.
  - destruct (clock w <? expiry)%Z; simpl.
    + destruct v as [|b v]; simpl; [repeat split; reflexivity|].
      destruct (decode_utf8 (b :: v)); repeat split; reflexivity.
    + repeat split; reflexivity.
  - repeat split; reflexivity.
Qed.

(** X7.  Every request a connection posts to the backend carries the
    session key that [get_or_create_session] returned when the connection
    was accepted, for the user the handshake was authenticated as; every
    call of the archive carries that user and that key.  The key is
    resolved once: later frames never change it. *)
Theorem connection_uses_resolved_key (websocket : Ws.Handshake) (frames : list string)
    (w : World) :
  (forall p, In p (posts (trace_of (Ws.websocket_endpoint websocket frames w))) ->
     exists user_id,
       value_of (Ws._authenticate_ws websocket w) = Ok (Some user_id)
       /\ value_of (SessionService.get_or_create_session user_id
                      (world_of (Ws._authenticate_ws websocket w))) = Ok p.1)
  /\ (forall c, In c (archive_calls (trace_of (Ws.websocket_endpoint websocket frames w))) ->
        value_of (Ws._authenticate_ws websocket w) = Ok (Some c.1.1.1)
        /\ value_of (SessionService.get_or_create_session c.1.1.1
                       (world_of (Ws._authenticate_ws websocket w))) = Ok c.1.1.2).
Proof.
  unfold Ws.websocket_endpoint.
  rewrite trace_bind, (quiet_authenticate_ws websocket w).
  destruct (value_of (Ws._authenticate_ws websocket w)) as [[user_id|]|e];
    try (split; intros ? []).
  remember (world_of (Ws._authenticate_ws websocket w)) as w0 eqn:Hw0.
  change ([] ++ ?t) with t.
  rewrite !emit_then, !trace_of_run, trace_bind.
  destruct (get_or_create_session_trace user_id w0) as (Hp & Ha & _).
  change (posts (WsAccept :: LogRecord ?l ?m ?x :: ?t)) with (posts t).
  change (archive_calls (WsAccept :: LogRecord ?l ?m ?x :: ?t)) with (archive_calls t).
  rewrite !posts_app, !archive_calls_app, Hp, Ha.
  change ([] ++ ?t) with t.
  destruct (value_of (SessionService.get_or_create_session user_id w0)) as [key|e] eqn:Hkeyval;
    [|split; intros ? []].
  destruct (receive_loop_calls user_id key frames
              (world_of (SessionService.get_or_create_session user_id w0))) as [Hposts Hcalls].
  pose proof (proj1 (List.Forall_forall _ _) Hposts) as Hposts'.
  pose proof (proj1 (List.Forall_forall _ _) Hcalls) as Hcalls'. split.
  - intros p Hin. exists user_id. split; [reflexivity|].
    pose proof (Hposts' p Hin) as Hpost. simpl in Hpost.
    destruct Hpost as (Hkey & _). now rewrite Hkey.
  - intros c Hin. pose proof (Hcalls' c Hin) as Hcall. simpl in Hcall.
    destruct Hcall as (Huser & Hkey). rewrite Huser, Hkey. split; [reflexivity | exact Hkeyval].
Qed.

(** X8.  The message of every request posted to the backend during a
    connection is not empty and has no white space at either end. *)
Theorem posted_messages_stripped (user_id session_key : string) (frames : list string)
    (w : World) (p : string * string) :
  In p (posts (trace_of (Ws.receive_loop user_id session_key frames w))) ->
  p.2 <> "" /\ strip p.2 = p.2 /\ lstrip p.2 = p.2 /\ rstrip p.2 = p.2.
Proof.
  intros Hin.
  destruct (receive_loop_calls user_id session_key frames w) as [Hposts _].
  pose proof (proj1 (List.Forall_forall _ _) Hposts p Hin) as Hpost. simpl in Hpost.
  destruct Hpost as (_ & Hne & Hstrip).
  split; [exact Hne|]. split; [exact Hstrip|].
  assert (Hl : lstrip p.2 = p.2).
  { rewrite <- Hstrip. unfold strip. apply lstrip_fixed.
    pose proof (rstrip_head (lstrip p.2) (lstrip_head p.2)) as Hhead.
    destruct (rstrip (lstrip p.2)); [exact I | exact Hhead]. }
  split; [exact Hl|].
  rewrite <- Hstrip at 1. unfold strip. rewrite rstrip_idempotent.
  fold (strip p.2). exact Hstrip.
Qed.

(** X9.  A token in the query string that is not empty hides the cookie:
    the outcome of the authentication does not depend on the cookie then.
    An empty token in the query string counts as none, and the cookie is
    used. *)
Theorem query_token_first (token : string) (cookie cookie' : option string) (w : World) :
  token <> "" ->
  Ws._authenticate_ws {| Ws.query_token := Some token; Ws.cookie_token := cookie |} w =
  Ws._authenticate_ws {| Ws.query_token := Some token; Ws.cookie_token := cookie' |} w
  /\ Ws._authenticate_ws {| Ws.query_token := Some ""; Ws.cookie_token := Some token |} w =
     Ws._authenticate_ws {| Ws.query_token := Some token; Ws.cookie_token := None |} w
  /\ Ws._authenticate_ws {| Ws.query_token := None; Ws.cookie_token := Some token |} w =
     Ws._authenticate_ws {| Ws.query_token := Some token; Ws.cookie_token := None |} w.
Proof.
  intros Htoken. apply String.eqb_neq in Htoken.
  unfold Ws._authenticate_ws, Ws.presented_token, Ws.no_token.
  repeat (progress (simpl; rewrite ?Htoken)). repeat split; reflexivity.
Qed.

End RelayCalls.

(** ** The streaming client: what a line can yield *)

Section StreamingLines.
Context `{PyLib}.

Lemma fragments_of_data_length (data : json) :
  List.length (OpenClawService.fragments_of_data data) <= 1.
Proof.
  destruct data as [|b|n|f|s|items|fields]; simpl; try lia.
  match goal with |- context [if ?c then _ else _] => destruct c end; simpl; lia.
Qed.

Lemma fragments_of_line_length (line : string) (fragments : list json) :
  OpenClawService.fragments_of_line line = Ok fragments ->
  List.length fragments <= if startswith line "data:" then 1 else 0.
Proof.
  unfold OpenClawService.fragments_of_line.
  destruct (startswith line "data:"); simpl; [|intros [= <-]; simpl; lia].
  destruct (String.eqb _ ""); simpl; [intros [= <-]; simpl; lia|].
  destruct (json_loads _) as [data| |f]; intros [= <-];
    [apply fragments_of_data_length | simpl; lia].
Qed.

Lemma iter_lines_length (lines : list string) (tail : line_end) :
  List.length (OpenClawService.yields (OpenClawService.iter_lines lines tail))
  <= List.length (List.filter (fun line => startswith line "data:") lines).
Proof.
  induction lines as [|line lines IH]; simpl; [lia|].
  destruct (OpenClawService.fragments_of_line line) as [fragments|e] eqn:Hline.
  - simpl. rewrite List.length_app.
    pose proof (fragments_of_line_length line fragments Hline) as Hlen.
    destruct (startswith line "data:"); simpl; lia.
  - simpl. lia.
Qed.

(** When no line makes [json.loads] raise anything but [JSONDecodeError],
    the generator yields the fragments of the lines, in order, and ends as
    the stream does. *)
Lemma iter_lines_all (lines : list string) (tail : line_end) (per_line : list (list json)) :
  List.map OpenClawService.fragments_of_line lines = List.map Ok per_line ->
  OpenClawService.iter_lines lines tail =
  {| OpenClawService.yields := List.concat per_line;
     OpenClawService.finish := match tail with
                               | EndOfStream => None
                               | StreamBroken => Some TransportError
                               end |}.
Proof.
  revert per_line. induction lines as [|line lines IH]; intros [|fragments per_line] Hmap;
    try discriminate Hmap; [reflexivity|].
  simpl in Hmap. injection Hmap as Hline Hmap.
  simpl. rewrite Hline, (IH per_line Hmap). reflexivity.
Qed.

(** A line on which [json.loads] raises an error that is not a
    [JSONDecodeError] ends the generator with that error: the fragments of
    the lines before it have been yielded, the lines after it are not
    read. *)
Lemma iter_lines_escape (before : list string) (line : string) (after : list string)
    (tail : line_end) (per_line : list (list json)) (f : loads_fault) :
  List.map OpenClawService.fragments_of_line before = List.map Ok per_line ->
  startswith line "data:" = true ->
  strip (slice_from 5 line) <> "" ->
  json_loads (strip (slice_from 5 line)) = Escaped f ->
  OpenClawService.iter_lines (before ++ line :: after) tail =
  {| OpenClawService.yields := List.concat per_line;
     OpenClawService.finish := Some (exn_of_fault f) |}.
Proof.
  intros Hmap Hdata Hpayload Hload. revert per_line Hmap.
  apply String.eqb_neq in Hpayload.
  induction before as [|l before IH]; intros [|fragments per_line] Hmap;
    try discriminate Hmap.
  - simpl. unfold OpenClawService.fragments_of_line. rewrite Hdata.
    change (String.length "data:") with 5. cbn [negb].
    rewrite Hpayload, Hload. reflexivity.
  - simpl in Hmap. injection Hmap as Hline Hmap.
    simpl. rewrite Hline, (IH per_line Hmap). reflexivity.
Qed.

(** X10.  The streaming client yields at most one fragment for each line
    of the answer that starts with [data:], and none for the other lines:
    the number of values yielded for an answer is at most the number of
    its data lines (and zero when the status is not 200). *)
Theorem at_most_one_fragment_per_data_line (session_key message : string) (w : World)
    (status_code : Z) (body : list Byte.byte) (lines : list string) (tail : line_end)
    (rest : list upstream_reply) (gen : OpenClawService.generator) :
  upstream w = Response status_code body lines tail :: rest ->
  value_of (OpenClawService.send_message session_key message w) = Ok gen ->
  List.length (OpenClawService.yields gen)
  <= List.length (List.filter (fun line => startswith line "data:") lines)
  /\ (status_code <> 200%Z -> OpenClawService.yields gen = []).
Proof.
  intros Hup Hgen.
  unfold OpenClawService.send_message, OpenClawService.next_reply, bind, emit, ret, value_of
    in Hgen.
  rewrite Hup in Hgen. simpl in Hgen.
  destruct (status_code =? 200)%Z eqn:Hstatus; simpl in Hgen;
    injection Hgen as <-; simpl.
  - split; [apply iter_lines_length|].
    intros Hne. apply Z.eqb_eq in Hstatus. contradiction.
  - split; [lia | reflexivity].
Qed.

(** X11.  A value yielded for a line is truthy, with one exception: the
    payload that is the JSON text of the empty string is yielded as an
    empty text.  So [None], [False], zero, the empty list and the empty
    mapping are never yielded, and an empty text only for that payload. *)
Theorem fragments_truthy (line : string) (fragments : list json) (fragment : json) :
  OpenClawService.fragments_of_line line = Ok fragments ->
  In fragment fragments ->
  truthy fragment = true
  \/ (fragment = JString ""
      /\ json_loads (strip (slice_from 5 line)) = Loaded (JString "")).
Proof.
  unfold OpenClawService.fragments_of_line.
  change (String.length "data:") with 5.
  destruct (startswith line "data:"); cbn [negb]; [|intros [= <-] []].
  destruct (String.eqb (strip (slice_from 5 line)) "") eqn:Hblank; [intros [= <-] []|].
  destruct (json_loads (strip (slice_from 5 line))) as [data| |f] eqn:Hload;
    [| |discriminate].
  - intros [= <-].
    destruct data as [|b|n|f|s|items|fields];
      try (intros Hin; now destruct Hin).
    + intros [<-|[]]. destruct s as [|c s]; [right; split; reflexivity | left; reflexivity].
    + unfold OpenClawService.fragments_of_data.
      match goal with |- context [if truthy ?v then _ else _] =>
        destruct (truthy v) eqn:Htruthy end; [|intros []].
      intros [<-|[]]. left. exact Htruthy.
  - intros [= <-] [<-|[]]. left.
    change (negb (String.eqb (strip (slice_from 5 line)) "") = true). now rewrite Hblank.
Qed.

(** X12.  Lines that yield nothing: a line that does not start with
    [data:], a data line whose payload is blank, and a data line whose
    payload decodes to [None], a Boolean, a number or a list. *)
Theorem ignored_lines (line : string) :
  (startswith line "data:" = false
   \/ strip (slice_from 5 line) = ""
   \/ exists data, json_loads (strip (slice_from 5 line)) = Loaded data
        /\ (forall fields, data <> JObject fields) /\ (forall s, data <> JString s)) ->
  OpenClawService.fragments_of_line line = Ok [].
Proof.
  unfold OpenClawService.fragments_of_line.
  change (String.length "data:") with 5.
  intros [Hstart|[Hblank|(data & Hload & Hmap & Htext)]].
  - now rewrite Hstart.
  - destruct (startswith line "data:"); [|reflexivity]. cbn [negb]. now rewrite Hblank.
  - destruct (startswith line "data:"); [|reflexivity]. cbn [negb].
    destruct (String.eqb _ ""); [reflexivity|]. rewrite Hload.
    destruct data as [|b|n|f|s|items|fields]; try reflexivity.
    + now destruct (Htext s).
    + now destruct (Hmap fields).
Qed.

Lemma append_cancel (prefix a b : string) : prefix +:+ a = prefix +:+ b -> a = b.
Proof.
  induction prefix as [|c prefix IH]; [trivial|].
  intros Heq. change (String c (prefix +:+ a) = String c (prefix +:+ b)) in Heq.
  injection Heq as Heq. now apply IH.
Qed.

(** X13.  Different users never share a session key, nor the Redis key
    under which it is stored. *)
Theorem session_keys_distinct (user_id user_id' : string) :
  user_id <> user_id' ->
  OpenClawService.create_session_key user_id <> OpenClawService.create_session_key user_id'
  /\ SessionService._redis_key user_id <> SessionService._redis_key user_id'.
Proof.
  intros Hne. split; intros Heq; apply Hne.
  - now apply (append_cancel "bluefairy:").
  - now apply (append_cancel "openclaw_session:").
Qed.

End StreamingLines.

(** ** The two stores of sessions in Redis *)

Section SessionStores.
Context `{PyLib}.

Lemma scalar_one_or_none_run {A : Type} (rows : list A) (w : World) :
  scalar_one_or_none rows w = ([], w, one_or_none rows).
Proof. destruct rows as [|row [|row' rows]]; reflexivity. Qed.

Lemma users_get_value (entity_id : string) (w : World) :
  value_of (UserRepository.get entity_id w) = find_user w entity_id.
Proof.
  unfold UserRepository.get, find_user, bind, db_session, get_world, raise, value_of.
  destruct (db_faults w) as [|[|] faults]; simpl; try reflexivity;
    destruct (uuid_of_str entity_id); try reflexivity;
    now rewrite scalar_one_or_none_run.
Qed.

Lemma auth_get_session_value (token : string) (w : World) :
  value_of (AuthService.get_session token w) = resolve_token w token.
Proof.
  unfold AuthService.get_session, resolve_token, bind. rewrite redis_get_run.
  destruct (live_value w ("session:" +:+ token)) as [[|b raw]|]; try reflexivity.
  destruct (decode_utf8 (b :: raw)) as [text|]; [|reflexivity].
  rewrite <- users_get_value. unfold value_of.
  now destruct (UserRepository.get text w) as [[t w'] r].
Qed.

Lemma session_get_session_run (user_id : string) (w : World) :
  SessionService.get_session user_id w =
  ([], w,
   match live_value w (SessionService._redis_key user_id) with
   | Some ((_ :: _) as raw) =>
       match decode_utf8 raw with
       | None => Raise UnicodeDecodeError
       | Some text => Ok (Some text)
       end
   | _ => Ok None
   end).
Proof.
  unfold SessionService.get_session, bind. rewrite redis_get_run.
  destruct (live_value w (SessionService._redis_key user_id)) as [[|b raw]|]; try reflexivity.
  destruct (decode_utf8 (b :: raw)); reflexivity.
Qed.

(** The store after [get_or_create_session]: unchanged, or with the one
    key of the user set. *)
Lemma get_or_create_session_store (user_id : string) (w : World) :
  exists store,
    world_of (SessionService.get_or_create_session user_id w) = set_redis store w
    /\ forall key, key <> SessionService._redis_key user_id -> store !! key = redis w !! key.
Proof.
  unfold SessionService.get_or_create_session, bind. rewrite redis_get_run.
  destruct (live_value w (SessionService._redis_key user_id)) as [[|b raw]|].
  - eexists. split; [reflexivity|]. intros key Hkey. now apply lookup_insert_ne.
  - exists (redis w). split; [|reflexivity].
    destruct (decode_utf8 (b :: raw)); now destruct w.
  - eexists. split; [reflexivity|]. intros key Hkey. now apply lookup_insert_ne.
Qed.

(** X14.  The key [get_or_create_session] returns is the one [get_session]
    returns right after it, and [get_session] has no effect of its own. *)
Theorem get_session_after_resolve (user_id key : string) (w : World) :
  (forall s, decode_utf8 (encode_utf8 s) = Some s) ->
  (forall s, encode_utf8 s = [] -> s = "") ->
  value_of (SessionService.get_or_create_session user_id w) = Ok key ->
  SessionService.get_session user_id
    (world_of (SessionService.get_or_create_session user_id w)) =
  ([], world_of (SessionService.get_or_create_session user_id w), Ok (Some key)).
Proof.
  intros Hcodec Hnil Hkey. rewrite session_get_session_run. f_equal.
  destruct (live_value w (SessionService._redis_key user_id)) as [[|b raw]|] eqn:Hlive.
  - destruct (get_or_create_session_created user_id w (or_intror Hlive)) as (Hval & Hredis & Hclock).
    rewrite Hval in Hkey. injection Hkey as <-.
    unfold live_value. rewrite Hredis, lookup_insert_eq, Hclock.
    assert (Hlt : (clock w <? clock w + 2592000)%Z = true) by (apply Z.ltb_lt; lia).
    rewrite Hlt.
    destruct (encode_utf8 ("bluefairy:" +:+ user_id)) as [|b raw] eqn:Henc.
    { apply Hnil in Henc. discriminate. }
    now rewrite <- Henc, Hcodec.
  - destruct (decode_utf8 (b :: raw)) as [text|] eqn:Hdecode.
    + rewrite (get_or_create_session_found user_id text b raw w Hlive Hdecode) in *.
      unfold value_of, world_of in *. simpl in *. injection Hkey as <-.
      now rewrite Hlive, Hdecode.
    + unfold SessionService.get_or_create_session, bind in Hkey.
      rewrite redis_get_run, Hlive, Hdecode in Hkey. discriminate.
  - destruct (get_or_create_session_created user_id w (or_introl Hlive)) as (Hval & Hredis & Hclock).
    rewrite Hval in Hkey. injection Hkey as <-.
    unfold live_value. rewrite Hredis, lookup_insert_eq, Hclock.
    assert (Hlt : (clock w <? clock w + 2592000)%Z = true) by (apply Z.ltb_lt; lia).
    rewrite Hlt.
    destruct (encode_utf8 ("bluefairy:" +:+ user_id)) as [|b raw] eqn:Henc.
    { apply Hnil in Henc. discriminate. }
    now rewrite <- Henc, Hcodec.
Qed.

(** X15.  After [SessionService.delete_session] the user has no session
    key: [get_session] returns [None], the next [get_or_create_session]
    makes the key anew from the user identity, and no other key of the
    store is touched. *)
Theorem delete_session_forgets (user_id : string) (w : World) :
  value_of (SessionService.get_session user_id
              (world_of (SessionService.delete_session user_id w))) = Ok None
  /\ value_of (SessionService.get_or_create_session user_id
                 (world_of (SessionService.delete_session user_id w))) =
     Ok ("bluefairy:" +:+ user_id)
  /\ (forall key, key <> SessionService._redis_key user_id ->
        redis (world_of (SessionService.delete_session user_id w)) !! key = redis w !! key).
Proof.
  assert (Hlive : live_value (world_of (SessionService.delete_session user_id w))
                    (SessionService._redis_key user_id) = None).
  { unfold live_value, SessionService.delete_session, redis_delete, modify, world_of. simpl.
    now rewrite lookup_delete_eq. }
  split; [|split].
  - rewrite session_get_session_run. unfold value_of. simpl. now rewrite Hlive.
  - apply get_or_create_session_created. left. exact Hlive.
  - intros key Hkey.
    unfold SessionService.delete_session, redis_delete, modify, world_of. simpl.
    now apply lookup_delete_ne.
Qed.

Lemma lookup_user_set_redis (store : gmap string (list Byte.byte * Z)) (w : World)
    (entity_id : string) :
  find_user (set_redis store w) entity_id = find_user w entity_id.
Proof. reflexivity. Qed.

(** X16.  Resolving the session key of one user changes nothing for
    anybody else: the key another user gets from [get_session] is the
    same before and after, and so is the user any session token resolves
    to ([AuthService.get_session]). *)
Theorem sessions_isolated (user_id : string) (w : World) :
  (forall other, other <> user_id ->
     value_of (SessionService.get_session other
                 (world_of (SessionService.get_or_create_session user_id w))) =
     value_of (SessionService.get_session other w))
  /\ (forall token,
        value_of (AuthService.get_session token
                    (world_of (SessionService.get_or_create_session user_id w))) =
        value_of (AuthService.get_session token w)).
Proof.
  destruct (get_or_create_session_store user_id w) as (store & -> & Hstore).
  split.
  - intros other Hother. rewrite !session_get_session_run. unfold value_of. simpl.
    unfold live_value. simpl. rewrite Hstore; [reflexivity|].
    intros Heq. apply Hother. now apply (append_cancel "openclaw_session:").
  - intros token. rewrite !auth_get_session_value. unfold resolve_token, live_value. simpl.
    rewrite Hstore; [|discriminate].
    destruct (redis w !! ("session:" +:+ token)) as [[v expiry]|]; reflexivity.
Qed.

(** X17.  A mapping is dead from the second its expiry time is reached:
    whatever value it held, the call made then stores and returns the key
    made from the user identity, with thirty days to live from that call. *)
Theorem expired_mapping_replaced (user_id : string) (raw : list Byte.byte) (expiry : Z)
    (w : World) :
  redis w !! SessionService._redis_key user_id = Some (raw, expiry) ->
  (expiry <= clock w)%Z ->
  value_of (SessionService.get_or_create_session user_id w) = Ok ("bluefairy:" +:+ user_id)
  /\ redis (world_of (SessionService.get_or_create_session user_id w))
       !! SessionService._redis_key user_id =
     Some (encode_utf8 ("bluefairy:" +:+ user_id), (clock w + 60 * 60 * 24 * 30)%Z).
Proof.
  intros Hstored Hexpired.
  assert (Hlive : live_value w (SessionService._redis_key user_id) = None).
  { unfold live_value. rewrite Hstored.
    assert (Hge : (clock w <? expiry)%Z = false) by (apply Z.ltb_ge; lia).
    now rewrite Hge. }
  destruct (get_or_create_session_created user_id w (or_introl Hlive)) as (Hval & Hredis & _).
  split; [exact Hval|]. rewrite Hredis. apply lookup_insert_eq.
Qed.

End SessionStores.

(** ** Session tokens: sign-in, connection, logout *)

Section SessionTokens.
Context `{PyLib} `{PassLib}.

Lemma authenticate_ws_run (websocket : Ws.Handshake) (w : World) :
  Ws._authenticate_ws websocket w =
  ([], world_of (Ws._authenticate_ws websocket w), value_of (Ws._authenticate_ws websocket w)).
Proof. rewrite <- (quiet_authenticate_ws websocket w). apply run_eta. Qed.

(** The authentication, in terms of the token presented. *)
Lemma authenticate_ws_value (websocket : Ws.Handshake) (w : World) :
  value_of (Ws._authenticate_ws websocket w) =
  match Ws.presented_token websocket with
  | None => Ok None
  | Some token =>
      match resolve_token w token with
      | Ok (Some u) => Ok (Some (str_of_uuid (UserModel.id u)))
      | Ok None => Ok None
      | Raise e => Raise e
      end
  end.
Proof.
  unfold Ws._authenticate_ws.
  destruct (Ws.presented_token websocket) as [token|]; [|reflexivity].
  rewrite <- auth_get_session_value. unfold bind, value_of.
  destruct (AuthService.get_session token w) as [[t w'] [[u|]|e]]; reflexivity.
Qed.

Lemma endpoint_rejects (websocket : Ws.Handshake) (frames : list string) (w : World) :
  value_of (Ws._authenticate_ws websocket w) = Ok None ->
  trace_of (Ws.websocket_endpoint websocket frames w) = [WsClose 1008]
  /\ value_of (Ws.websocket_endpoint websocket frames w) = Ok tt.
Proof.
  intros Hnone. unfold Ws.websocket_endpoint.
  rewrite (bind_ok _ _ w (world_of (Ws._authenticate_ws websocket w)) [] None).
  - split; reflexivity.
  - rewrite <- Hnone. apply authenticate_ws_run.
Qed.

Lemma endpoint_accepts (websocket : Ws.Handshake) (frames : list string) (w : World)
    (user_id : string) :
  value_of (Ws._authenticate_ws websocket w) = Ok (Some user_id) ->
  exists later,
    trace_of (Ws.websocket_endpoint websocket frames w) =
    WsAccept :: LogRecord INFO ("WebSocket connected for user " +:+ user_id) None :: later.
Proof.
  intros Hsome. unfold Ws.websocket_endpoint.
  rewrite (bind_ok _ _ w (world_of (Ws._authenticate_ws websocket w)) [] (Some user_id)).
  - rewrite !emit_then, !trace_of_run. eexists. reflexivity.
  - rewrite <- Hsome. apply authenticate_ws_run.
Qed.

Lemma create_session_run (session_id : string) (user_id : UUID) (w : World) :
  AuthService.create_session session_id user_id w =
  ([],
   set_redis (<["session:" +:+ session_id :=
                  (encode_utf8 (str_of_uuid user_id), (clock w + 604800)%Z)]> (redis w)) w,
   Ok session_id).
Proof. reflexivity. Qed.

(** The token stored by [create_session], read at time [t]. *)
Lemma created_session_resolves (session_id : string) (user : UserModel.User) (w : World)
    (t : Z) :
  (forall s, decode_utf8 (encode_utf8 s) = Some s) ->
  (forall s, encode_utf8 s = [] -> s = "") ->
  uuid_of_str (str_of_uuid (UserModel.id user)) = Some (UserModel.id user) ->
  str_of_uuid (UserModel.id user) <> "" ->
  List.filter (fun row => N.eqb (UserModel.id row) (UserModel.id user)) (users w) = [user] ->
  db_faults w = [] ->
  resolve_token
    (set_clock t (world_of (AuthService.create_session session_id (UserModel.id user) w)))
    session_id =
  if (t <? clock w + 604800)%Z then Ok (Some user) else Ok None.
Proof.
  intros Hcodec Hnil Huuid Hstr Huser Hfaults.
  rewrite create_session_run. unfold resolve_token, live_value, world_of. simpl.
  rewrite lookup_insert_eq.
  destruct (t <? clock w + 604800)%Z; [|reflexivity].
  destruct (encode_utf8 (str_of_uuid (UserModel.id user))) as [|b raw] eqn:Henc.
  { apply Hnil in Henc. contradiction. }
  rewrite <- Henc, Hcodec. unfold find_user. simpl. now rewrite Hfaults, Huuid, Huser.
Qed.

(** X18.  A session token is good for seven days and not a second more:
    from its creation until 604800 seconds later [get_session] resolves it
    to the user it was created for; from then on it resolves to nobody. *)
Theorem session_token_lifetime (session_id : string) (user : UserModel.User) (w : World)
    (t : Z) :
  (forall s, decode_utf8 (encode_utf8 s) = Some s) ->
  (forall s, encode_utf8 s = [] -> s = "") ->
  uuid_of_str (str_of_uuid (UserModel.id user)) = Some (UserModel.id user) ->
  str_of_uuid (UserModel.id user) <> "" ->
  List.filter (fun row => N.eqb (UserModel.id row) (UserModel.id user)) (users w) = [user] ->
  db_faults w = [] ->
  value_of (AuthService.create_session session_id (UserModel.id user) w) = Ok session_id
  /\ ((t < clock w + 604800)%Z ->
        value_of (AuthService.get_session session_id
                    (set_clock t (world_of (AuthService.create_session session_id
                                              (UserModel.id user) w)))) = Ok (Some user))
  /\ ((clock w + 604800 <= t)%Z ->
        value_of (AuthService.get_session session_id
                    (set_clock t (world_of (AuthService.create_session session_id
                                              (UserModel.id user) w)))) = Ok None).
Proof.
  intros Hcodec Hnil Huuid Hstr Huser Hfaults.
  split; [reflexivity|].
  rewrite auth_get_session_value,
    (created_session_resolves session_id user w t Hcodec Hnil Huuid Hstr Huser Hfaults).
  split; intros Ht.
  - apply Z.ltb_lt in Ht. now rewrite Ht.
  - apply Z.ltb_ge in Ht. now rewrite Ht.
Qed.

(** X19.  After [AuthService.delete_session] the token resolves to nobody,
    and a WebSocket handshake that presents it is closed with code 1008
    without being accepted, whatever frames would follow. *)
Theorem deleted_session_rejected (session_id : string) (frames : list string) (w : World) :
  value_of (AuthService.get_session session_id
              (world_of (AuthService.delete_session session_id w))) = Ok None
  /\ trace_of (Ws.websocket_endpoint
                 {| Ws.query_token := Some session_id; Ws.cookie_token := None |} frames
                 (world_of (AuthService.delete_session session_id w))) = [WsClose 1008].
Proof.
  assert (Hnone : forall token, token = session_id ->
            resolve_token (world_of (AuthService.delete_session session_id w)) token = Ok None).
  { intros token ->.
    unfold resolve_token, live_value, AuthService.delete_session, redis_delete, modify,
      world_of. simpl. now rewrite lookup_delete_eq. }
  split.
  - rewrite auth_get_session_value. now apply Hnone.
  - apply endpoint_rejects. rewrite authenticate_ws_value.
    unfold Ws.presented_token, Ws.no_token. cbn [Ws.query_token Ws.cookie_token].
    destruct (String.eqb session_id "") eqn:Hempty; [reflexivity|].
    rewrite Hempty. now rewrite Hnone.
Qed.

Lemma get_by_email_run (email : string) (w : World) :
  UserRepository.get_by_email email w =
  match db_faults w with
  | [] => ([], w, one_or_none (List.filter (fun row => String.eqb (UserModel.email row) email)
                                 (users w)))
  | false :: faults =>
      ([], set_db_faults faults w,
       one_or_none (List.filter (fun row => String.eqb (UserModel.email row) email) (users w)))
  | true :: faults => ([], set_db_faults faults w, Raise DatabaseError)
  end.
Proof.
  unfold UserRepository.get_by_email, bind, db_session, get_world.
  destruct (db_faults w) as [|[|] faults]; simpl; try reflexivity;
    now rewrite scalar_one_or_none_run.
Qed.

Lemma one_or_none_some {A : Type} (rows : list A) (row : A) :
  one_or_none rows = Ok (Some row) -> rows = [row].
Proof. destruct rows as [|r [|r' rows]]; simpl; congruence. Qed.

(** What [authenticate_user] returns, and the world it leaves: the table
    and the store are as they were. *)
Lemma authenticate_user_run (email password : string) (w : World) :
  exists w',
    AuthService.authenticate_user email password w =
    ([], w',
     match value_of (UserRepository.get_by_email email w) with
     | Ok (Some u) =>
         if pwd_verify password (UserModel.hashed_password u) then Ok (Some u) else Ok None
     | Ok None => Ok None
     | Raise e => Raise e
     end)
    /\ redis w' = redis w /\ users w' = users w /\ clock w' = clock w
    /\ w' = world_of (UserRepository.get_by_email email w).
Proof.
  unfold AuthService.authenticate_user, AuthService.verify_password, bind.
  rewrite get_by_email_run.
  destruct (db_faults w) as [|[|] faults]; simpl;
    try (destruct (one_or_none _) as [[u|]|e]; simpl;
         try destruct (pwd_verify password (UserModel.hashed_password u)); simpl);
    eexists; repeat split; reflexivity.
Qed.

(** X20.  [authenticate_user] never returns a user that is not in the
    table under the address given, nor one whose stored hash the password
    does not verify against. *)
Theorem authenticate_user_sound (email password : string) (user : UserModel.User) (w : World) :
  value_of (AuthService.authenticate_user email password w) = Ok (Some user) ->
  In user (users w)
  /\ UserModel.email user = email
  /\ pwd_verify password (UserModel.hashed_password user) = true
  /\ List.filter (fun row => String.eqb (UserModel.email row) email) (users w) = [user].
Proof.
  intros Hauth.
  destruct (authenticate_user_run email password w) as (w' & Hrun & _).
  rewrite Hrun, value_of_run in Hauth.
  assert (Hrows : one_or_none (List.filter (fun row => String.eqb (UserModel.email row) email)
                                 (users w)) = Ok (Some user)
                  /\ pwd_verify password (UserModel.hashed_password user) = true).
  { destruct (value_of (UserRepository.get_by_email email w)) as [[u|]|e] eqn:Hget;
      try discriminate.
    destruct (pwd_verify password (UserModel.hashed_password u)) eqn:Hverify;
      try discriminate.
    assert (u = user) as -> by congruence. split; [|exact Hverify].
    rewrite get_by_email_run in Hget.
    destruct (db_faults w) as [|[|] faults]; unfold value_of in Hget; simpl in Hget;
      try discriminate; exact Hget. }
  destruct Hrows as [Hrows Hverify].
  apply one_or_none_some in Hrows.
  assert (Hin : In user (List.filter (fun row => String.eqb (UserModel.email row) email)
                           (users w))) by (rewrite Hrows; left; reflexivity).
  apply List.filter_In in Hin. destruct Hin as [Hin Hemail].
  repeat split; try assumption. now apply String.eqb_eq.
Qed.

(** X21.  A sign-in that is refused is refused with status 401 and leaves
    no trace: no session is stored and the tables are as they were. *)
Theorem refused_signin_stores_nothing (session_id username password : string)
    (status_code : Z) (detail : string) (w : World) :
  value_of (AuthEndpoints.signin session_id username password w) =
    Ok (HTTPException status_code detail) ->
  status_code = 401%Z
  /\ detail = "Incorrect email or password"
  /\ redis (world_of (AuthEndpoints.signin session_id username password w)) = redis w
  /\ users (world_of (AuthEndpoints.signin session_id username password w)) = users w.
Proof.
  unfold AuthEndpoints.signin.
  destruct (authenticate_user_run username password w) as (w' & Hrun & Hredis & Husers & _).
  remember (match value_of (UserRepository.get_by_email username w) with
            | Ok (Some u) =>
                if pwd_verify password (UserModel.hashed_password u) then Ok (Some u) else Ok None
            | Ok None => Ok None
            | Raise e => Raise e
            end) as outcome eqn:Houtcome.
  destruct outcome as [[u|]|e].
  - rewrite (bind_ok _ _ w w' [] (Some u) Hrun). unfold value_of, world_of. simpl.
    discriminate.
  - rewrite (bind_ok _ _ w w' [] None Hrun). unfold value_of, world_of. simpl.
    intros Heq. injection Heq as <- <-. repeat split; assumption.
  - rewrite (bind_raise _ _ w w' [] e Hrun). discriminate.
Qed.

(** X22.  A sign-in that succeeds returns a bearer token that opens the
    WebSocket: presented in the query string right away, with the
    database up, the handshake is accepted for the user who signed in. *)
Theorem signin_then_connect (session_id username password : string)
    (user : UserModel.User) (frames : list string) (w : World) :
  (forall s, decode_utf8 (encode_utf8 s) = Some s) ->
  (forall s, encode_utf8 s = [] -> s = "") ->
  uuid_of_str (str_of_uuid (UserModel.id user)) = Some (UserModel.id user) ->
  str_of_uuid (UserModel.id user) <> "" ->
  List.filter (fun row => N.eqb (UserModel.id row) (UserModel.id user)) (users w) = [user] ->
  db_faults w = [] ->
  session_id <> "" ->
  value_of (AuthService.authenticate_user username password w) = Ok (Some user) ->
  value_of (AuthEndpoints.signin session_id username password w) =
    Ok (Returned {| AuthEndpoints.access_token := session_id;
                    AuthEndpoints.token_type := "bearer" |})
  /\ exists later,
       trace_of (Ws.websocket_endpoint
                   {| Ws.query_token := Some session_id; Ws.cookie_token := None |} frames
                   (world_of (AuthEndpoints.signin session_id username password w))) =
       WsAccept
         :: LogRecord INFO ("WebSocket connected for user "
                            +:+ str_of_uuid (UserModel.id user)) None
         :: later.
Proof.
  intros Hcodec Hnil Huuid Hstr Huser Hfaults Hsid Hauth.
  destruct (authenticate_user_run username password w)
    as (w' & Hrun & Hredis & Husers & Hclock & Hw').
  rewrite Hrun, value_of_run in Hauth.
  rewrite Hauth in Hrun.
  assert (Hfaults' : db_faults w' = []).
  { rewrite Hw', get_by_email_run, Hfaults, world_of_run. exact Hfaults. }
  unfold AuthEndpoints.signin.
  rewrite (bind_ok _ _ w w' [] (Some user) Hrun).
  split; [reflexivity|].
  apply endpoint_accepts. rewrite authenticate_ws_value.
  unfold Ws.presented_token, Ws.no_token. cbn [Ws.query_token Ws.cookie_token].
  apply String.eqb_neq in Hsid. rewrite !Hsid.
  rewrite <- Husers in Huser.
  pose proof (created_session_resolves session_id user w' (clock w')
                Hcodec Hnil Huuid Hstr Huser Hfaults') as Hresolve.
  assert (Hlt : (clock w' <? clock w' + 604800)%Z = true) by (apply Z.ltb_lt; lia).
  rewrite Hlt in Hresolve.
  change (resolve_token
            (world_of (AuthService.create_session session_id (UserModel.id user) w'))
            session_id = Ok (Some user)) in Hresolve.
  unfold bind, world_of. simpl. unfold world_of in Hresolve. simpl in Hresolve.
  now rewrite Hresolve.
Qed.

End SessionTokens.

(** ** Registration *)

Section Registration.
Context `{PyLib} `{PassLib}.

Lemma user_create_run (entity_in : UserSchema.UserInDB) (w : World) :
  db_faults w = [] ->
  UserRepository.create entity_in w =
  if List.existsb (fun row => String.eqb (UserModel.email row) (UserSchema.db_email entity_in))
       (users w)
  then ([], w, Raise DatabaseError)
  else
    let entity :=
      {| UserModel.id := uuid4 w (uuid4_count w);
         UserModel.email := UserSchema.db_email entity_in;
         UserModel.hashed_password := UserSchema.hashed_password entity_in;
         UserModel.created_at := clock w;
         UserModel.updated_at := clock w |} in
    ([], set_uuid4_count (S (uuid4_count w)) (set_users (users w ++ [entity]) w), Ok entity).
Proof.
  intros Hfaults. unfold UserRepository.create, bind, db_session, get_world.
  rewrite Hfaults. simpl. destruct (List.existsb _ (users w)); reflexivity.
Qed.

Lemma filter_email_existsb (email : string) (rows : list UserModel.User) :
  List.filter (fun row => String.eqb (UserModel.email row) email) rows = [] ->
  List.existsb (fun row => String.eqb (UserModel.email row) email) rows = false.
Proof.
  induction rows as [|row rows IH]; [reflexivity|]. simpl.
  destruct (String.eqb (UserModel.email row) email); [discriminate | exact IH].
Qed.

(** The users table after [create_user]: as it was, or with one row more,
    whose address no earlier row has. *)
Lemma user_create_cases (entity_in : UserSchema.UserInDB) (w : World) :
  (exists w', UserRepository.create entity_in w = ([], w', Raise DatabaseError)
              /\ users w' = users w)
  \/ (List.existsb (fun row => String.eqb (UserModel.email row) (UserSchema.db_email entity_in))
        (users w) = false
      /\ exists w' user,
           UserRepository.create entity_in w = ([], w', Ok user)
           /\ users w' = users w ++ [user]
           /\ UserModel.email user = UserSchema.db_email entity_in).
Proof.
  unfold UserRepository.create, bind, db_session, get_world, modify, ret, raise.
  destruct (db_faults w) as [|[|] faults]; simpl;
    try (left; eexists; split; reflexivity);
    (destruct (List.existsb _ (users w)) eqn:Hexists;
     [left; eexists; split; reflexivity|]);
    right; (split; [reflexivity|]); do 2 eexists; repeat split; reflexivity.
Qed.

Lemma get_by_email_users (email : string) (w : World) :
  users (world_of (UserRepository.get_by_email email w)) = users w.
Proof.
  rewrite get_by_email_run. destruct (db_faults w) as [|[|] faults]; reflexivity.
Qed.

Lemma create_user_table (salt : string) (user_in : UserSchema.UserCreate) (w : World) :
  (users (world_of (UsersService.create_user salt user_in w)) = users w
   /\ forall response,
        value_of (UsersService.create_user salt user_in w) <> Ok (Returned response))
  \/ exists user,
       users (world_of (UsersService.create_user salt user_in w)) = users w ++ [user]
       /\ UserModel.email user = UserSchema.email user_in
       /\ ~ In (UserSchema.email user_in) (List.map UserModel.email (users w))
       /\ value_of (UsersService.create_user salt user_in w) =
          Ok (Returned (UsersService.model_validate user)).
Proof.
  pose proof (get_by_email_users (UserSchema.email user_in) w) as Husers.
  unfold UsersService.create_user, bind.
  destruct (UserRepository.get_by_email (UserSchema.email user_in) w) as [[t0 w0] r0].
  rewrite world_of_run in Husers.
  destruct r0 as [[u|]|e];
    [left; split; [exact Husers | intros response; discriminate] | |
     left; split; [exact Husers | intros response; discriminate]].
  destruct (user_create_cases
              {| UserSchema.db_email := UserSchema.email user_in;
                 UserSchema.hashed_password :=
                   AuthService.hash_password salt (UserSchema.password user_in) |} w0)
    as [(w' & Hcreate & Hsame)|(Hexists & w' & user & Hcreate & Hmore & Hemail)];
    rewrite Hcreate.
  - left. split; [|intros response; discriminate].
    unfold world_of. simpl. rewrite Hsame. exact Husers.
  - right. exists user. unfold world_of, value_of. simpl. rewrite Hmore, Husers.
    split; [reflexivity|]. split; [exact Hemail|]. split; [|reflexivity].
    intros Hin. apply List.in_map_iff in Hin. destruct Hin as (row & Hrow & Hin).
    assert (Htrue : List.existsb
              (fun row => String.eqb (UserModel.email row) (UserSchema.email user_in))
              (users w0) = true).
    { apply List.existsb_exists. exists row. rewrite Husers.
      split; [exact Hin|]. now apply String.eqb_eq. }
    simpl in Hexists. congruence.
Qed.

(** X23.  Registering an address that is in the table already is refused
    with status 400 and changes nothing. *)
Theorem registered_email_refused (salt : string) (user_in : UserSchema.UserCreate)
    (user : UserModel.User) (w : World) :
  List.filter (fun row => String.eqb (UserModel.email row) (UserSchema.email user_in))
    (users w) = [user] ->
  db_faults w = [] ->
  AuthEndpoints.signup salt user_in w =
  ([], w, Ok (HTTPException 400 "Email already registered")).
Proof.
  intros Hrows Hfaults.
  unfold AuthEndpoints.signup, UsersService.create_user, bind.
  rewrite get_by_email_run, Hfaults, Hrows. reflexivity.
Qed.

(** X24.  Registration keeps the addresses of the table distinct, whatever
    its outcome, and adds a row only when it returns the new user: then
    exactly one row, with the address given. *)
Theorem registration_keeps_emails_distinct (salt : string) (user_in : UserSchema.UserCreate)
    (w : World) :
  NoDup (List.map UserModel.email (users w)) ->
  NoDup (List.map UserModel.email (users (world_of (UsersService.create_user salt user_in w))))
  /\ ((forall response,
         value_of (UsersService.create_user salt user_in w) <> Ok (Returned response)) ->
      users (world_of (UsersService.create_user salt user_in w)) = users w)
  /\ (forall response,
        value_of (UsersService.create_user salt user_in w) = Ok (Returned response) ->
        exists user,
          users (world_of (UsersService.create_user salt user_in w)) = users w ++ [user]
          /\ UserModel.email user = UserSchema.email user_in
          /\ response = UsersService.model_validate user).
Proof.
  intros Hnodup.
  destruct (create_user_table salt user_in w)
    as [[Hsame Hnot]|(user & Hmore & Hemail & Hfresh & Hval)].
  - rewrite Hsame. split; [exact Hnodup|]. split; [reflexivity|].
    intros response Hval. now destruct (Hnot response).
  - rewrite Hmore. split; [|split].
    + rewrite List.map_app. simpl. rewrite Hemail.
      apply NoDup_app. split; [exact Hnodup|]. split.
      * intros x Hx Hlast. apply list_elem_of_In in Hlast. destruct Hlast as [<-|[]].
        apply Hfresh. now apply list_elem_of_In.
      * apply NoDup_singleton.
    + intros Hno. now destruct (Hno _ Hval).
    + intros response Hval'. exists user. rewrite Hval in Hval'.
      injection Hval' as <-. repeat split; assumption.
Qed.

(** X25.  Sign-up then sign-in: with a password of at most 72 bytes and a
    hashing library that verifies what it hashed, the address and password
    just registered authenticate as the user that was created. *)
Theorem signup_then_authenticate (salt : string) (user_in : UserSchema.UserCreate) (w : World) :
  (forall salt' password, pwd_verify password (pwd_hash salt' password) = true) ->
  List.length (encode_utf8 (UserSchema.password user_in)) <= 72 ->
  List.filter (fun row => String.eqb (UserModel.email row) (UserSchema.email user_in))
    (users w) = [] ->
  db_faults w = [] ->
  exists user,
    value_of (AuthEndpoints.signup salt user_in w) = Ok (Returned (UsersService.model_validate user))
    /\ UserModel.email user = UserSchema.email user_in
    /\ value_of (AuthService.authenticate_user (UserSchema.email user_in)
                   (UserSchema.password user_in)
                   (world_of (AuthEndpoints.signup salt user_in w))) = Ok (Some user).
Proof.
  intros Hverify Hshort Hfresh Hfaults.
  unfold AuthEndpoints.signup, UsersService.create_user, bind.
  rewrite get_by_email_run, Hfaults, Hfresh. simpl.
  rewrite (user_create_run _ w Hfaults). simpl.
  rewrite (filter_email_existsb _ _ Hfresh). simpl.
  eexists. split; [reflexivity|]. split; [reflexivity|].
  unfold world_of. simpl.
  destruct (authenticate_user_run (UserSchema.email user_in) (UserSchema.password user_in)
              (set_uuid4_count (S (uuid4_count w))
                 (set_users
                    (users w ++
                     [{| UserModel.id := uuid4 w (uuid4_count w);
                         UserModel.email := UserSchema.email user_in;
                         UserModel.hashed_password :=
                           AuthService.hash_password salt (UserSchema.password user_in);
                         UserModel.created_at := clock w;
                         UserModel.updated_at := clock w |}]) w)))
    as (w' & Hrun & _).
  rewrite Hrun, value_of_run, get_by_email_run. simpl. rewrite Hfaults, value_of_run.
  rewrite List.filter_app, Hfresh. simpl. rewrite String.eqb_refl. simpl.
  unfold AuthService.hash_password.
  assert (Hle : (72 <? List.length (encode_utf8 (UserSchema.password user_in)))%nat = false)
    by (apply Nat.ltb_ge; exact Hshort).
  rewrite Hle, Hverify. reflexivity.
Qed.

End Registration.

(** ** The authentication of HTTP requests *)

Section RequestAuthentication.
Context `{PyLib}.

Lemma split_words_word (s word : string) :
  no_space s = true ->
  split_words s word = if String.eqb (word +:+ s) "" then [] else [word +:+ s].
Proof.
  revert word. induction s as [|c s IH]; intros word Hs.
  - simpl. now rewrite append_empty.
  - simpl in Hs. apply andb_true_iff in Hs. destruct Hs as [Hc Hs].
    apply negb_true_iff in Hc. simpl. rewrite Hc.
    rewrite (IH _ Hs), append_assoc. reflexivity.
Qed.

Lemma append_not_empty (a b : string) : b <> "" -> String.eqb (a +:+ b) "" = false.
Proof.
  intros Hb. apply String.eqb_neq. intros Heq.
  destruct a as [|c a]; [now apply Hb | discriminate].
Qed.

Lemma split_two_words (scheme credentials : string) :
  no_space scheme = true -> scheme <> "" ->
  no_space credentials = true -> credentials <> "" ->
  split (scheme +:+ " " +:+ credentials) = [scheme; credentials].
Proof.
  intros Hscheme Hs Hcred Hc. unfold split.
  assert (Hgen : forall word,
            word +:+ scheme <> "" ->
            split_words (scheme +:+ " " +:+ credentials) word = [word +:+ scheme; credentials]).
  { clear Hs. induction scheme as [|c scheme IH]; intros word Hword.
    - change ("" +:+ " " +:+ credentials) with (String " " credentials).
      simpl. rewrite append_empty in Hword |- *.
      apply String.eqb_neq in Hword. rewrite Hword.
      rewrite (split_words_word credentials "" Hcred).
      change ("" +:+ credentials) with credentials.
      apply String.eqb_neq in Hc. now rewrite Hc.
    - simpl in Hscheme. apply andb_true_iff in Hscheme. destruct Hscheme as [Hc' Hscheme].
      apply negb_true_iff in Hc'.
      change (String c scheme +:+ " " +:+ credentials)
        with (String c (scheme +:+ " " +:+ credentials)).
      simpl. rewrite Hc'. rewrite (IH Hscheme).
      + now rewrite append_assoc.
      + rewrite append_assoc. simpl.
        apply String.eqb_neq. apply append_not_empty. discriminate. }
  apply (Hgen ""). exact Hs.
Qed.

(** X26.  A request whose path starts with one of the public paths is
    never authenticated: whatever its [Authorization] header, the result is
    [None] and neither Redis nor the database is consulted. *)
Theorem public_path_not_authenticated (path public : string) (authorization : option string)
    (w : World) :
  In public Middleware.unauthenticated_paths ->
  startswith path public = true ->
  Middleware.authenticate path authorization w = ([], w, Ok None).
Proof.
  intros Hin Hprefix. unfold Middleware.authenticate.
  assert (Hany : List.existsb (fun p => startswith path p) Middleware.unauthenticated_paths
                 = true).
  { apply List.existsb_exists. exists public. split; assumption. }
  now rewrite Hany.
Qed.

(** X27.  On any other path, a header made of a scheme that is [bearer] in
    any mix of cases, one or more blanks and a token is resolved like the
    token itself: the user that [AuthService.get_session] returns for it,
    under the name [str(user.id)]. *)
Theorem bearer_header_resolved (path scheme credentials : string) (w : World) :
  List.existsb (fun p => startswith path p) Middleware.unauthenticated_paths = false ->
  no_space scheme = true -> lower scheme = "bearer" ->
  no_space credentials = true -> credentials <> "" ->
  value_of (Middleware.authenticate path (Some (scheme +:+ " " +:+ credentials)) w) =
  match value_of (AuthService.get_session credentials w) with
  | Ok (Some user) => Ok (Some (str_of_uuid (UserModel.id user), user))
  | Ok None => Ok None
  | Raise e => Raise e
  end.
Proof.
  intros Hpath Hscheme Hlower Hcred Hc.
  assert (Hs : scheme <> "") by (intros ->; discriminate).
  unfold Middleware.authenticate. rewrite Hpath.
  rewrite (append_not_empty scheme (" " +:+ credentials)) by discriminate.
  rewrite (split_two_words scheme credentials Hscheme Hs Hcred Hc), Hlower. simpl.
  unfold bind, value_of.
  destruct (AuthService.get_session credentials w) as [[t w'] [[user|]|e]]; reflexivity.
Qed.

(** X28.  A header that is not two words, or whose first word is not
    [bearer], is not authenticated, and nothing is looked up for it. *)
Theorem malformed_header_rejected (path header : string) (w : World) :
  (List.length (split header) <> 2
   \/ exists scheme credentials,
        split header = [scheme; credentials] /\ lower scheme <> "bearer") ->
  Middleware.authenticate path (Some header) w = ([], w, Ok None).
Proof.
  intros Hbad. unfold Middleware.authenticate.
  destruct (List.existsb _ Middleware.unauthenticated_paths); [reflexivity|].
  destruct (String.eqb header ""); [reflexivity|].
  destruct Hbad as [Hlen|(scheme & credentials & -> & Hscheme)].
  - destruct (split header) as [|a [|b [|c rest]]]; try reflexivity.
    now destruct Hlen.
  - apply String.eqb_neq in Hscheme. now rewrite Hscheme.
Qed.

End RequestAuthentication.

(** ** The repository of conversations *)

Section Conversations.
Context `{PyLib}.

Lemma filter_session_app (session_id : string) (rows : list ConversationModel.Conversation)
    (row : ConversationModel.Conversation) :
  List.filter (ConversationRepository.session_id_is session_id) rows = [] ->
  ConversationModel.session_id row = Some session_id ->
  List.filter (ConversationRepository.session_id_is session_id) (rows ++ [row]) = [row].
Proof.
  intros Hnone Hsession. rewrite List.filter_app, Hnone. simpl.
  unfold ConversationRepository.session_id_is. rewrite Hsession, String.eqb_refl. reflexivity.
Qed.

(** X29.  The first exchange of a session is stored and found again: after
    [create_conversation] for a session key that has no record,
    [get_by_session_id] returns a record of that user and session whose
    messages are exactly the user message and the assistant message. *)
Theorem first_exchange_stored (user_id session_id user_message assistant_message : string)
    (uid : UUID) (w : World) :
  uuid_of_str user_id = Some uid ->
  db_faults w = [] ->
  List.filter (ConversationRepository.session_id_is session_id) (conversations w) = [] ->
  exists row,
    value_of (ConversationRepository.get_by_session_id session_id
                (world_of (ConversationService.create_conversation user_id session_id
                             user_message assistant_message w))) = Ok (Some row)
    /\ ConversationModel.user_id row = uid
    /\ ConversationModel.session_id row = Some session_id
    /\ ConversationModel.messages row =
       [ [("role", JString "user"); ("content", JString user_message)];
         [("role", JString "assistant"); ("content", JString assistant_message)] ]
    /\ conversations (world_of (ConversationService.create_conversation user_id session_id
                                  user_message assistant_message w)) = conversations w ++ [row].
Proof.
  intros Huid Hfaults Hrows.
  unfold ConversationService.create_conversation, ConversationRepository.get_by_session_id,
    ConversationRepository.create, bind, emit, db_session, get_world, modify, ret,
    value_of, world_of.
  rewrite Huid. simpl. rewrite Hfaults. simpl. rewrite Hrows. simpl. rewrite Hfaults. simpl.
  rewrite Hfaults. simpl.
  eexists. split.
  - rewrite (filter_session_app session_id (conversations w) _ Hrows); reflexivity.
  - repeat split; reflexivity.
Qed.

Lemma filter_complement {A : Type} (f : A -> bool) (rows : list A) :
  List.filter f (List.filter (fun r => negb (f r)) rows) = [].
Proof.
  induction rows as [|r rows IH]; [reflexivity|]. simpl.
  destruct (f r) eqn:Hr; simpl; [exact IH|]. now rewrite Hr.
Qed.

(** X30.  [delete] removes the one row with the identifier and returns
    it: afterwards [get] finds nothing under that identifier, every other
    row is still there, and nothing else is.  An identifier that no row has
    returns [None] and changes nothing. *)
Theorem delete_removes_row (id : string) (uid : UUID) (w : World) :
  uuid_of_str id = Some uid ->
  db_faults w = [] ->
  (forall row,
     List.filter (ConversationRepository.id_is uid) (conversations w) = [row] ->
     value_of (ConversationRepository.delete id w) = Ok (Some row)
     /\ value_of (ConversationRepository.get id
                    (world_of (ConversationRepository.delete id w))) = Ok None
     /\ forall other,
          In other (conversations (world_of (ConversationRepository.delete id w)))
          <-> (In other (conversations w) /\ ConversationModel.id other <> uid))
  /\ (List.filter (ConversationRepository.id_is uid) (conversations w) = [] ->
      ConversationRepository.delete id w = ([], w, Ok None)).
Proof.
  intros Huid Hfaults. split.
  - intros row Hrows.
    assert (Hrun : ConversationRepository.delete id w =
                   ([], set_conversations
                          (List.filter (fun r => negb (ConversationRepository.id_is uid r))
                             (conversations w)) w, Ok (Some row))).
    { unfold ConversationRepository.delete, bind, db_session, get_world, modify, ret.
      rewrite Hfaults. simpl. rewrite Huid, Hrows. reflexivity. }
    rewrite Hrun. unfold value_of, world_of. simpl. split; [reflexivity|]. split.
    + unfold ConversationRepository.get, bind, db_session, get_world. simpl.
      rewrite Hfaults. simpl. rewrite Huid.
      now rewrite filter_complement.
    + intros other. rewrite List.filter_In. unfold ConversationRepository.id_is.
      rewrite negb_true_iff, N.eqb_neq. reflexivity.
  - intros Hrows.
    unfold ConversationRepository.delete, bind, db_session, get_world, modify, ret.
    rewrite Hfaults. simpl. rewrite Huid, Hrows. reflexivity.
Qed.

End Conversations.

(** ** The further properties at the examples *)

Section Examples2.
Import Sample Sample2.

Lemma sample_verify (salt password : string) :
  verify_with password (hash_with salt password) = true.
Proof.
  unfold verify_with, hash_with.
  induction salt as [|c salt IH].
  - change ("" +:+ "$" +:+ password) with (String "$" password).
    cbn [ends_with]. now rewrite String.eqb_refl.
  - change (String c salt +:+ "$" +:+ password) with (String c (salt +:+ "$" +:+ password)).
    cbn [ends_with]. rewrite IH. apply orb_true_r.
Qed.

Lemma ping_answered_witness :
  Ws.handle_frame alice_str session_key0 ping_frame world_hi = ([WsSend Pong], world_hi, Ok tt)
  /\ Ws.receive_loop alice_str session_key0 [ping_frame; blank_frame] world_hi =
     (WsSend Pong :: trace_of (Ws.receive_loop alice_str session_key0 [blank_frame] world_hi),
      world_of (Ws.receive_loop alice_str session_key0 [blank_frame] world_hi),
      value_of (Ws.receive_loop alice_str session_key0 [blank_frame] world_hi)).
Proof.
  exact (ping_answered alice_str session_key0 ping_frame [("type", JString "ping")]
           [blank_frame] world_hi eq_refl eq_refl).
Defined.

Lemma message_frame_outcome_witness :
  exists texts final,
    sent (trace_of (Ws.handle_frame alice_str session_key0 hello_frame world_broken)) =
      List.map Chunk texts ++ [final]
    /\ value_of (Ws.handle_frame alice_str session_key0 hello_frame world_broken) = Ok tt
    /\ ((final = Done (concat_fragments texts)
         /\ archive_calls (trace_of (Ws.handle_frame alice_str session_key0 hello_frame
                                       world_broken)) =
            [(alice_str, session_key0, strip "  hello ", concat_fragments texts)])
        \/ ((final = Error "Failed to get response from AI"
             \/ final = Error "Internal server error")
            /\ archive_calls (trace_of (Ws.handle_frame alice_str session_key0 hello_frame
                                          world_broken)) = [])).
Proof.
  exact (message_frame_outcome alice_str session_key0 hello_frame "  hello " world_broken
           hello_is_message hello_not_blank).
Defined.

Lemma hello_breaks : streams_then_fails session_key0 "hello" world_broken ["Hi"] TransportError.
Proof.
  exists {| OpenClawService.yields := [JString "Hi"];
            OpenClawService.finish := Some TransportError |}.
  repeat split; reflexivity.
Defined.

Lemma transport_not_api (msg : string) : TransportError <> OpenClawAPIException msg.
Proof. intros Heq. discriminate Heq. Defined.

Lemma broken_stream_reported_witness :
  sent (trace_of (Ws.handle_frame alice_str session_key0 hello_frame world_broken)) =
    [Chunk "Hi"; Error "Internal server error"]
  /\ archive_calls (trace_of (Ws.handle_frame alice_str session_key0 hello_frame world_broken))
     = []
  /\ In (ERROR, "Unexpected error streaming from OpenClaw", Some TransportError)
        (logged (trace_of (Ws.handle_frame alice_str session_key0 hello_frame world_broken)))
  /\ value_of (Ws.handle_frame alice_str session_key0 hello_frame world_broken) = Ok tt.
Proof.
  exact (broken_stream_reported alice_str session_key0 hello_frame "  hello " world_broken
           ["Hi"] TransportError hello_is_message hello_not_blank hello_breaks
           transport_not_api).
Defined.

Lemma hello_is_message2 : @message_frame Sample2.lib hello_frame "  hello ".
Proof.
  exists [("type", JString "message"); ("content", JString "  hello ")].
  repeat split; reflexivity.
Defined.

Lemma hello_yields_number :
  @streams_then_yields Sample2.lib session_key0 "hello" world_number ["Hi"] (JInt 5).
Proof.
  exists {| OpenClawService.yields := [JString "Hi"; JInt 5; JString " there"];
            OpenClawService.finish := None |}, [JString " there"].
  split; [reflexivity|]. split; [reflexivity|]. intros s Heq. discriminate Heq.
Defined.

Lemma non_text_fragment_reported_witness :
  sent (trace_of (@Ws.handle_frame Sample2.lib alice_str session_key0 hello_frame world_number))
    = [Chunk "Hi"; Error "Internal server error"]
  /\ archive_calls
       (trace_of (@Ws.handle_frame Sample2.lib alice_str session_key0 hello_frame world_number))
     = []
  /\ value_of (@Ws.handle_frame Sample2.lib alice_str session_key0 hello_frame world_number)
     = Ok tt.
Proof.
  exact (@non_text_fragment_reported Sample2.lib alice_str session_key0 hello_frame "  hello "
           world_number ["Hi"] (JInt 5) hello_is_message2 hello_not_blank hello_yields_number).
Defined.

Lemma list_frame_unreadable : @unreadable_frame Sample2.lib list_frame.
Proof.
  exists (JArray [JInt 1; JInt 2]). split; [reflexivity|].
  left. intros fields Heq. discriminate Heq.
Defined.

Lemma unreadable_frame_ends_loop_witness :
  @Ws.receive_loop Sample2.lib alice_str session_key0 [list_frame; ping_frame; hello_frame]
    world_hi = ([], world_hi, Raise AttributeError).
Proof.
  exact (@unreadable_frame_ends_loop Sample2.lib alice_str session_key0 list_frame
           [ping_frame; hello_frame] world_hi list_frame_unreadable).
Defined.

(** A [message] whose content is null ends the handler as well. *)
Example null_content_ends_loop :
  @Ws.receive_loop Sample2.lib alice_str session_key0 [null_content_frame; ping_frame] world_hi
  = ([], world_hi, Raise AttributeError).
Proof. reflexivity. Qed.

(** A frame that is an integer literal of 4400 digits ends the handler with
    the [ValueError] of [json.loads]. *)
Example long_integer_frame_ends_loop :
  @Ws.receive_loop Sample2.lib alice_str session_key0 [long_integer_payload; ping_frame] world_hi
  = ([], world_hi, Raise ValueError).
Proof. vm_compute. reflexivity. Qed.

(** The same literal as the payload of the second data line: the generator
    ends with the [ValueError] after the first fragment, and the relay
    reports an internal error. *)
Example long_integer_line_reported :
  sent (trace_of (@Ws.handle_frame Sample2.lib alice_str session_key0 hello_frame
                    (set_upstream
                       [Response 200 []
                          ["data: " +:+ hi_payload; "data: " +:+ long_integer_payload;
                           "data: " +:+ there_payload] EndOfStream] world0)))
  = [Chunk "Hi"; Error "Internal server error"].
Proof. vm_compute. reflexivity. Qed.

Lemma posted_messages_stripped_witness :
  "hello" <> "" /\ strip "hello" = "hello" /\ lstrip "hello" = "hello"
  /\ rstrip "hello" = "hello".
Proof.
  apply (posted_messages_stripped alice_str session_key0 [ping_frame; hello_frame] world_hi
           (session_key0, "hello")).
  vm_compute. left. reflexivity.
Defined.

Lemma query_token_first_witness :
  Ws._authenticate_ws {| Ws.query_token := Some "tok"; Ws.cookie_token := Some "other" |} world0
  = Ws._authenticate_ws {| Ws.query_token := Some "tok"; Ws.cookie_token := None |} world0
  /\ Ws._authenticate_ws {| Ws.query_token := Some ""; Ws.cookie_token := Some "tok" |} world0
     = Ws._authenticate_ws {| Ws.query_token := Some "tok"; Ws.cookie_token := None |} world0
  /\ Ws._authenticate_ws {| Ws.query_token := None; Ws.cookie_token := Some "tok" |} world0
     = Ws._authenticate_ws {| Ws.query_token := Some "tok"; Ws.cookie_token := None |} world0.
Proof.
  apply (query_token_first "tok" (Some "other") None world0).
  intros Heq. discriminate Heq.
Defined.

Lemma at_most_one_fragment_per_data_line_witness :
  List.length [JString "Hi"; JString " there"]
  <= List.length (List.filter (fun line => startswith line "data:")
                    ["data: " +:+ hi_payload; ""; "event: ping"; "data:" +:+ there_payload])
  /\ (200%Z <> 200%Z -> [JString "Hi"; JString " there"] = []).
Proof.
  exact (at_most_one_fragment_per_data_line session_key0 "hello" world_hi 200 []
           ["data: " +:+ hi_payload; ""; "event: ping"; "data:" +:+ there_payload]
           EndOfStream []
           {| OpenClawService.yields := [JString "Hi"; JString " there"];
              OpenClawService.finish := None |} eq_refl eq_refl).
Defined.

Lemma fragments_truthy_witness :
  truthy (JString "") = true
  \/ (JString "" = JString ""
      /\ @json_loads Sample2.lib (strip (slice_from 5 ("data: " +:+ empty_text_payload)))
         = Loaded (JString "")).
Proof.
  apply (@fragments_truthy Sample2.lib ("data: " +:+ empty_text_payload) [JString ""]
           (JString "")).
  - reflexivity.
  - left. reflexivity.
Defined.

Lemma ignored_lines_witness :
  @OpenClawService.fragments_of_line Sample2.lib ("data: " +:+ list_frame) = Ok [].
Proof.
  apply (@ignored_lines Sample2.lib ("data: " +:+ list_frame)).
  right. right. exists (JArray [JInt 1; JInt 2]).
  split; [reflexivity|]. split; intros x Heq; discriminate Heq.
Defined.

Lemma session_keys_distinct_witness :
  OpenClawService.create_session_key "alice" <> OpenClawService.create_session_key "bob"
  /\ SessionService._redis_key "alice" <> SessionService._redis_key "bob".
Proof.
  apply (session_keys_distinct "alice" "bob"). intros Heq. discriminate Heq.
Defined.

Lemma get_session_after_resolve_witness :
  SessionService.get_session alice_str
    (world_of (SessionService.get_or_create_session alice_str world0)) =
  ([], world_of (SessionService.get_or_create_session alice_str world0), Ok (Some session_key0)).
Proof.
  exact (get_session_after_resolve alice_str session_key0 world0
           sample_decode_encode sample_encode_nil eq_refl).
Defined.

Lemma expired_mapping_replaced_witness :
  value_of (SessionService.get_or_create_session alice_str world_stale) =
    Ok ("bluefairy:" +:+ alice_str)
  /\ redis (world_of (SessionService.get_or_create_session alice_str world_stale))
       !! SessionService._redis_key alice_str =
     Some (encode_utf8 ("bluefairy:" +:+ alice_str), (clock world_stale + 60 * 60 * 24 * 30)%Z).
Proof.
  apply (expired_mapping_replaced alice_str (encode "legacy-key") 50%Z world_stale).
  - vm_compute. reflexivity.
  - vm_compute. intros Hcmp. discriminate Hcmp.
Defined.

Lemma alice_id_not_empty : str_of_uuid (UserModel.id alice) <> "".
Proof. intros Heq. discriminate Heq. Defined.

Lemma session_token_lifetime_witness :
  value_of (AuthService.create_session "fresh" (UserModel.id alice) world0) = Ok "fresh"
  /\ ((604899 < clock world0 + 604800)%Z ->
        value_of (AuthService.get_session "fresh"
                    (set_clock 604899
                       (world_of (AuthService.create_session "fresh" (UserModel.id alice)
                                    world0)))) = Ok (Some alice))
  /\ ((clock world0 + 604800 <= 604899)%Z ->
        value_of (AuthService.get_session "fresh"
                    (set_clock 604899
                       (world_of (AuthService.create_session "fresh" (UserModel.id alice)
                                    world0)))) = Ok None).
Proof.
  exact (session_token_lifetime "fresh" alice world0 604899%Z
           sample_decode_encode sample_encode_nil eq_refl alice_id_not_empty eq_refl eq_refl).
Defined.

Lemma authenticate_user_sound_witness :
  In bob (users world_bob)
  /\ UserModel.email bob = "bob@example.org"
  /\ pwd_verify "secret" (UserModel.hashed_password bob) = true
  /\ List.filter (fun row => String.eqb (UserModel.email row) "bob@example.org")
       (users world_bob) = [bob].
Proof.
  exact (authenticate_user_sound "bob@example.org" "secret" bob world_bob eq_refl).
Defined.

Lemma refused_signin_stores_nothing_witness :
  401%Z = 401%Z
  /\ "Incorrect email or password" = "Incorrect email or password"
  /\ redis (world_of (AuthEndpoints.signin "sid" "bob@example.org" "wrong" world_bob))
     = redis world_bob
  /\ users (world_of (AuthEndpoints.signin "sid" "bob@example.org" "wrong" world_bob))
     = users world_bob.
Proof.
  exact (refused_signin_stores_nothing "sid" "bob@example.org" "wrong" 401
           "Incorrect email or password" world_bob eq_refl).
Defined.

Lemma bob_id_not_empty : str_of_uuid (UserModel.id bob) <> "".
Proof. intros Heq. discriminate Heq. Defined.

Lemma sid_not_empty : "sid" <> "".
Proof. intros Heq. discriminate Heq. Defined.

Lemma signin_then_connect_witness :
  value_of (AuthEndpoints.signin "sid" "bob@example.org" "secret" world_bob) =
    Ok (Returned {| AuthEndpoints.access_token := "sid";
                    AuthEndpoints.token_type := "bearer" |})
  /\ exists later,
       trace_of (Ws.websocket_endpoint
                   {| Ws.query_token := Some "sid"; Ws.cookie_token := None |} [ping_frame]
                   (world_of (AuthEndpoints.signin "sid" "bob@example.org" "secret"
                                world_bob))) =
       WsAccept
         :: LogRecord INFO ("WebSocket connected for user "
                            +:+ str_of_uuid (UserModel.id bob)) None
         :: later.
Proof.
  exact (signin_then_connect "sid" "bob@example.org" "secret" bob [ping_frame] world_bob
           sample_decode_encode sample_encode_nil eq_refl bob_id_not_empty eq_refl eq_refl
           sid_not_empty eq_refl).
Defined.

Lemma registered_email_refused_witness :
  AuthEndpoints.signup "salt" bob_in world_bob =
  ([], world_bob, Ok (HTTPException 400 "Email already registered")).
Proof.
  exact (registered_email_refused "salt" bob_in bob world_bob eq_refl eq_refl).
Defined.

Lemma emails_bob_distinct : NoDup (List.map UserModel.email (users world_bob)).
Proof.
  apply NoDup_cons. split.
  - intros Hin. apply list_elem_of_In in Hin. destruct Hin as [Heq|[]]. discriminate Heq.
  - apply NoDup_singleton.
Defined.

Lemma registration_keeps_emails_distinct_witness :
  NoDup (List.map UserModel.email
           (users (world_of (UsersService.create_user "salt" carol_in world_bob))))
  /\ ((forall response,
         value_of (UsersService.create_user "salt" carol_in world_bob)
         <> Ok (Returned response)) ->
      users (world_of (UsersService.create_user "salt" carol_in world_bob)) = users world_bob)
  /\ (forall response,
        value_of (UsersService.create_user "salt" carol_in world_bob) = Ok (Returned response) ->
        exists user,
          users (world_of (UsersService.create_user "salt" carol_in world_bob)) =
          users world_bob ++ [user]
          /\ UserModel.email user = UserSchema.email carol_in
          /\ response = UsersService.model_validate user).
Proof.
  exact (registration_keeps_emails_distinct "salt" carol_in world_bob emails_bob_distinct).
Defined.

Lemma carol_password_short : List.length (encode_utf8 (UserSchema.password carol_in)) <= 72.
Proof. vm_compute. repeat constructor. Defined.

Lemma signup_then_authenticate_witness :
  exists user,
    value_of (AuthEndpoints.signup "salt" carol_in world_bob) =
      Ok (Returned (UsersService.model_validate user))
    /\ UserModel.email user = UserSchema.email carol_in
    /\ value_of (AuthService.authenticate_user (UserSchema.email carol_in)
                   (UserSchema.password carol_in)
                   (world_of (AuthEndpoints.signup "salt" carol_in world_bob))) = Ok (Some user).
Proof.
  exact (signup_then_authenticate "salt" carol_in world_bob
           (fun salt password => sample_verify salt password)
           carol_password_short eq_refl eq_refl).
Defined.

Lemma public_path_not_authenticated_witness :
  Middleware.authenticate "/docs-internal/keys" (Some "Bearer tok") world0 =
  ([], world0, Ok None).
Proof.
  apply (public_path_not_authenticated "/docs-internal/keys" "/docs" (Some "Bearer tok") world0).
  - simpl. tauto.
  - reflexivity.
Defined.

Lemma tok_not_empty : "tok" <> "".
Proof. intros Heq. discriminate Heq. Defined.

Lemma bearer_header_resolved_witness :
  value_of (Middleware.authenticate "/api/v1/chat" (Some ("BeArEr" +:+ " " +:+ "tok")) world0) =
  match value_of (AuthService.get_session "tok" world0) with
  | Ok (Some user) => Ok (Some (str_of_uuid (UserModel.id user), user))
  | Ok None => Ok None
  | Raise e => Raise e
  end.
Proof.
  exact (bearer_header_resolved "/api/v1/chat" "BeArEr" "tok" world0
           eq_refl eq_refl eq_refl eq_refl tok_not_empty).
Defined.

(** The header resolves to alice, under her identifier. *)
Example bearer_header_alice :
  value_of (Middleware.authenticate "/api/v1/chat" (Some "Bearer   tok") world0) =
  Ok (Some (alice_str, alice)).
Proof. vm_compute. reflexivity. Qed.

Lemma malformed_header_rejected_witness :
  Middleware.authenticate "/api/v1/chat" (Some "Basic tok") world0 = ([], world0, Ok None).
Proof.
  apply (malformed_header_rejected "/api/v1/chat" "Basic tok" world0).
  right. exists "Basic", "tok". split; [reflexivity|].
  intros Heq. discriminate Heq.
Defined.

Lemma first_exchange_stored_witness :
  exists row,
    value_of (ConversationRepository.get_by_session_id session_key0
                (world_of (ConversationService.create_conversation alice_str session_key0
                             "hello" "Hi there" world0))) = Ok (Some row)
    /\ ConversationModel.user_id row = alice_id
    /\ ConversationModel.session_id row = Some session_key0
    /\ ConversationModel.messages row =
       [ [("role", JString "user"); ("content", JString "hello")];
         [("role", JString "assistant"); ("content", JString "Hi there")] ]
    /\ conversations (world_of (ConversationService.create_conversation alice_str session_key0
                                  "hello" "Hi there" world0)) = conversations world0 ++ [row].
Proof.
  exact (first_exchange_stored alice_str session_key0 "hello" "Hi there" alice_id world0
           eq_refl eq_refl eq_refl).
Defined.

Lemma delete_removes_row_witness :
  (forall row,
     List.filter (ConversationRepository.id_is 77%N) (conversations world_archived) = [row] ->
     value_of (ConversationRepository.delete (uuid_str 77%N) world_archived) = Ok (Some row)
     /\ value_of (ConversationRepository.get (uuid_str 77%N)
                    (world_of (ConversationRepository.delete (uuid_str 77%N) world_archived)))
        = Ok None
     /\ forall other,
          In other (conversations
                      (world_of (ConversationRepository.delete (uuid_str 77%N) world_archived)))
          <-> (In other (conversations world_archived) /\ ConversationModel.id other <> 77%N))
  /\ (List.filter (ConversationRepository.id_is 77%N) (conversations world_archived) = [] ->
      ConversationRepository.delete (uuid_str 77%N) world_archived =
      ([], world_archived, Ok None)).
Proof.
  exact (delete_removes_row (uuid_str 77%N) 77%N world_archived eq_refl eq_refl).
Defined.

(** The stored record is deleted, and the table is empty afterwards. *)
Example delete_row0 :
  value_of (ConversationRepository.delete (uuid_str 77%N) world_archived) = Ok (Some row0)
  /\ conversations (world_of (ConversationRepository.delete (uuid_str 77%N) world_archived))
     = [].
Proof. split; reflexivity. Qed.

End Examples2.
